(** * Trip planner (app.py): a shallow embedding and its checked properties

    The development follows the layout of [src/app.py]:

    - [Py]       : the Python values the code manipulates (JSON documents,
                   exceptions, indexing, slicing, [dict.get], truthiness,
                   [float()] and [int()]);
    - [Calendar] : [datetime.date] arithmetic, [isoformat] and [strftime];
    - [Schema]   : the pydantic records [POI], [Event], [WeatherDaily] and
                   [DayPlan];
    - [Packing]  : [build_packing_list];
    - [Synth]    : [plan_blocks];
    - [World]    : the settings, the outside world (providers, clock,
                   language model) and the monad of computations in it;
    - [Fetch]    : [_get_json] under its tenacity [@retry] decorator;
    - [Adapters] : [geocode], [forecast], [wiki_pois] and
                   [ticketmaster_events];
    - [Polish]   : [maybe_polish];
    - [App]      : [summarize_context] and the [plan_trip] handler.

    Floats are the kernel's binary64 numbers, which is what a Python
    [float] is; a Python [int] is a [Z]; a [str] is a [string].  Each module
    gives its definitions first and their properties after them, with runs
    of the definitions on concrete inputs. *)

From Stdlib Require Import List ZArith String Ascii Bool Lia Floats DecimalString.
Import ListNotations.

Local Open Scope string_scope.
Local Open Scope list_scope.
Local Open Scope Z_scope.

Local Set Warnings "-register-all,-inexact-float".

(* ================================================================== *)
(** * Python values, exceptions and the built-in operations used *)
(* ================================================================== *)

Module Py.

(** What [json.loads] builds: [None], [bool], [int], [float], [str],
    [list] and [dict] (a dict as its items in insertion order; a lookup
    takes the first item with the key). *)
Inductive json : Type :=
| JNull
| JBool (b : bool)
| JInt (z : Z)
| JFloat (f : float)
| JStr (s : string)
| JList (items : list json)
| JDict (items : list (string * json)).

(** The [response] attribute of an [httpx.HTTPError] instance, as
    [getattr(e.response, "status_code", None)] sees it: the attribute may be
    missing from the instance, and when present the object may or may not
    carry a [status_code]. *)
Inductive response_attr : Type :=
| NoResponseAttr
| ResponseAttr (status_code : option Z).

(** The exceptions ([Exception] subclasses) that occur in the program. *)
Inductive exn : Type :=
| ExternalError (msg : string)
| HTTPError (msg : string) (response : response_attr)
| HTTPException (status_code : Z) (detail : string)
| ValidationError (model : string)
| IndexError
| KeyError (key : string)
| TypeError
| ValueError
| OverflowError
| AttributeError (attr : string)
| OtherError (msg : string).

(** The outcome of evaluating an expression: a value or a raised
    exception. *)
Inductive result (A : Type) : Type :=
| Ok (a : A)
| Raise (e : exn).
Arguments Ok {A} a.
Arguments Raise {A} e.

Definition bind {A B} (c : result A) (k : A -> result B) : result B :=
  match c with
  | Ok a => k a
  | Raise e => Raise e
  end.

Notation "x <- c ;; k" := (bind c (fun x => k))
  (at level 61, c at next level, right associativity).


(** [str(n)] for an [int]. *)
Definition str_of_int (n : Z) : string := NilZero.string_of_int (Z.to_int n).

(** [str(x)] inside an f-string for an [Optional[str]] field. *)
Definition str_of_optional (o : option string) : string :=
  match o with Some s => s | None => "None" end.

(** [len(l)] *)
Definition len {A} (l : list A) : Z := Z.of_nat (List.length l).

(** [l[i]] on a list: a negative index counts from the end, an index out
    of range raises [IndexError]. *)
Definition getitem {A} (l : list A) (i : Z) : result A :=
  let j := if i <? 0 then i + len l else i in
  if j <? 0 then Raise IndexError
  else match nth_error l (Z.to_nat j) with
       | Some x => Ok x
       | None => Raise IndexError
       end.

(** [l[:n]] on a list: the first [n] items, all but the last [-n] for a
    negative [n]. *)
Definition slice_to {A} (l : list A) (n : Z) : list A :=
  if n <? 0 then firstn (Z.to_nat (len l + n)) l else firstn (Z.to_nat n) l.

(** [enumerate(l)] *)
Fixpoint enumerate_from {A} (start : Z) (l : list A) : list (Z * A) :=
  match l with
  | [] => []
  | x :: rest => (start, x) :: enumerate_from (start + 1) rest
  end.
Definition enumerate {A} (l : list A) : list (Z * A) := enumerate_from 0 l.

(** [range(n)] *)
Definition range (n : Z) : list Z := map Z.of_nat (seq 0 (Z.to_nat n)).

(** A loop (or comprehension) whose body may raise: it stops at the first
    exception. *)
Fixpoint for_each {A B} (body : A -> result B) (l : list A) : result (list B) :=
  match l with
  | [] => Ok []
  | x :: rest =>
      y <- body x ;;
      ys <- for_each body rest ;;
      Ok (y :: ys)
  end.

(** Truth value testing ([bool(v)], [v or w], [if v:]). *)
Definition truthy (v : json) : bool :=
  match v with
  | JNull => false
  | JBool b => b
  | JInt z => negb (z =? 0)
  | JFloat f => negb (f =? 0)%float
  | JStr s => negb (String.eqb s "")
  | JList l => match l with [] => false | _ => true end
  | JDict d => match d with [] => false | _ => true end
  end.

(** [v or w] *)
Definition py_or (v w : json) : json := if truthy v then v else w.

Fixpoint assoc (k : string) (d : list (string * json)) : option json :=
  match d with
  | [] => None
  | (k', v) :: rest => if String.eqb k k' then Some v else assoc k rest
  end.

(** [v.get(k, default)]: only a dict has the method. *)
Definition get (v : json) (k : string) (default : json) : result json :=
  match v with
  | JDict d => Ok (match assoc k d with Some x => x | None => default end)
  | _ => Raise (AttributeError "get")
  end.

(** [v[k]] with a string key. *)
Definition getitem_key (v : json) (k : string) : result json :=
  match v with
  | JDict d => match assoc k d with Some x => Ok x | None => Raise (KeyError k) end
  | _ => Raise TypeError
  end.

(** The one-character strings of a [str]. *)
Fixpoint chars (s : string) : list json :=
  match s with
  | EmptyString => []
  | String c rest => JStr (String c EmptyString) :: chars rest
  end.

(** [v[i]] with an integer index: a list or the characters of a string. *)
Definition getitem_int (v : json) (i : Z) : result json :=
  match v with
  | JList l => getitem l i
  | JStr s => getitem (chars s) i
  | JDict _ => Raise (KeyError (str_of_int i))
  | _ => Raise TypeError
  end.

(** The items that [for x in v[:n]] visits: lists and strings can be
    sliced, nothing else can. *)
Definition sliced_items (v : json) (n : Z) : result (list json) :=
  match v with
  | JList l => Ok (slice_to l n)
  | JStr s => Ok (slice_to (chars s) n)
  | _ => Raise TypeError
  end.

(** The items that [for x in v] visits (a dict yields its keys). *)
Definition iter_items (v : json) : result (list json) :=
  match v with
  | JList l => Ok l
  | JStr s => Ok (chars s)
  | JDict d => Ok (map (fun kv => JStr (fst kv)) d)
  | _ => Raise TypeError
  end.

(** [float(n)] for an [int]: the nearest binary64 number, ties to even;
    [OverflowError] beyond the largest one. *)
Definition float_of_int (z : Z) : result float :=
  match binary_normalize prec emax z 0 false with
  | S754_infinity _ => Raise OverflowError
  | sf => Ok (SF2Prim sf)
  end.

(** [int(x)] for a [float]: truncation towards zero. *)
Definition int_of_float (f : float) : result Z :=
  match Prim2SF f with
  | S754_zero _ => Ok 0
  | S754_nan => Raise ValueError
  | S754_infinity _ => Raise OverflowError
  | S754_finite s m e =>
      let a := if e <? 0 then Z.pos m / 2 ^ (- e) else Z.pos m * 2 ^ e in
      Ok (if s then - a else a)
  end.

(** Operations of the interpreter and of the libraries whose results are
    texts or numerals: they are parameters of the development.  [None]
    from a parser stands for the [ValueError] of a malformed numeral. *)
Class Library : Type := {
  (** [float(s)] and [int(s)] on a [str] *)
  parse_float : string -> option float;
  parse_int : string -> option Z;
  (** [s.strip()], [s.lower()] and [s[:n]] on a [str] *)
  str_strip : string -> string;
  str_lower : string -> string;
  str_prefix : string -> Z -> string;
  (** [repr(v)], the text of a float or of a container in [str(v)] *)
  repr : json -> string;
  (** [f"{x:.0f}"] and [round(x, n)] on a [float] *)
  format_fixed0 : float -> string;
  round_to : float -> Z -> float;
  (** [v == w] on JSON values *)
  py_eq : json -> json -> bool;
  (** [str(e)] of the [HTTPStatusError] that [raise_for_status()] builds
      for a status code and a URL *)
  status_error_message : Z -> string -> string
}.

Section Conversions.
Context {L : Library}.

(** [float(v)] *)
Definition to_float (v : json) : result float :=
  match v with
  | JNull => Raise TypeError
  | JBool b => Ok (if b then 1 else 0)%float
  | JInt z => float_of_int z
  | JFloat f => Ok f
  | JStr s => match parse_float s with Some f => Ok f | None => Raise ValueError end
  | JList _ | JDict _ => Raise TypeError
  end.

(** [int(v)] *)
Definition to_int (v : json) : result Z :=
  match v with
  | JNull => Raise TypeError
  | JBool b => Ok (if b then 1 else 0)
  | JInt z => Ok z
  | JFloat f => int_of_float f
  | JStr s => match parse_int s with Some z => Ok z | None => Raise ValueError end
  | JList _ | JDict _ => Raise TypeError
  end.

(** [str(v)], as an f-string formats a value. *)
Definition str_of (v : json) : string :=
  match v with
  | JNull => "None"
  | JBool true => "True"
  | JBool false => "False"
  | JInt z => str_of_int z
  | JStr s => s
  | _ => repr v
  end.

(** [v / d] with a float divisor. *)
Definition true_div (v : json) (d : float) : result float :=
  match v with
  | JBool b => Ok ((if b then 1 else 0) / d)%float
  | JInt z => f <- float_of_int z ;; Ok (f / d)%float
  | JFloat f => Ok (f / d)%float
  | _ => Raise TypeError
  end.

End Conversions.

(** A library instance to run the definitions with: no string is a
    numeral and texts are left as they are. *)
Definition plain_library : Library :=
  {| parse_float := fun _ => None;
     parse_int := fun _ => None;
     str_strip := fun s => s;
     str_lower := fun s => s;
     str_prefix := fun s n => substring 0 (Z.to_nat n) s;
     repr := fun _ => "?";
     format_fixed0 := fun _ => "?";
     round_to := fun x _ => x;
     py_eq := fun v w =>
       match v, w with
       | JInt a, JInt b => a =? b
       | JStr a, JStr b => String.eqb a b
       | _, _ => false
       end;
     status_error_message := fun code url =>
       ("HTTP status " ++ str_of_int code ++ " for url " ++ url)%string |}.

Example getitem_negative : getitem [10; 20; 30] (-1) = Ok 30.
Proof. reflexivity. Qed.
Example getitem_out_of_range : getitem [10; 20; 30] 3 = Raise IndexError.
Proof. reflexivity. Qed.
Example float_of_int_27 : float_of_int 27 = Ok 27%float.
Proof. vm_compute. reflexivity. Qed.
Example float_of_int_huge : float_of_int (10 ^ 400) = Raise OverflowError.
Proof. vm_compute. reflexivity. Qed.
Example int_of_float_trunc : int_of_float (-3.75)%float = Ok (-3).
Proof. vm_compute. reflexivity. Qed.

(** ** Facts about indexing *)

Lemma len_nonneg {A} (l : list A) : 0 <= len l.
Proof. unfold len. lia. Qed.

Lemma getitem_in_range {A} (l : list A) (i : Z) :
  0 <= i < len l ->
  exists x, nth_error l (Z.to_nat i) = Some x /\ getitem l i = Ok x.
Proof.
  intros H. unfold getitem.
  destruct (i <? 0) eqn:E1; [apply Z.ltb_lt in E1; lia|].
  rewrite E1.
  destruct (nth_error l (Z.to_nat i)) as [x|] eqn:E2.
  - exists x. split; reflexivity.
  - apply nth_error_None in E2. unfold len in H. lia.
Qed.



Lemma getitem_defined {A} (l : list A) (i : Z) :
  (- len l <= i < len l -> exists x, getitem l i = Ok x) /\
  (i < - len l \/ len l <= i -> getitem l i = Raise IndexError).
Proof.
  unfold getitem. split.
  - intros H. destruct (i <? 0) eqn:E0.
    + apply Z.ltb_lt in E0.
      destruct (i + len l <? 0) eqn:E1; [apply Z.ltb_lt in E1; lia|].
      destruct (nth_error l (Z.to_nat (i + len l))) as [x|] eqn:En;
        [exists x; reflexivity|].
      apply nth_error_None in En. unfold len in *. lia.
    + rewrite E0. apply Z.ltb_ge in E0.
      destruct (nth_error l (Z.to_nat i)) as [x|] eqn:En;
        [exists x; reflexivity|].
      apply nth_error_None in En. unfold len in *. lia.
  - intros H. pose proof (len_nonneg l) as Hl. destruct (i <? 0) eqn:E0.
    + apply Z.ltb_lt in E0.
      destruct (i + len l <? 0) eqn:E1; [reflexivity|].
      apply Z.ltb_ge in E1. lia.
    + rewrite E0. apply Z.ltb_ge in E0.
      destruct (nth_error l (Z.to_nat i)) as [x|] eqn:En; [|reflexivity].
      assert (Z.to_nat i < List.length l)%nat by (apply nth_error_Some; congruence).
      unfold len in *. lia.
Qed.

Lemma getitem_ok_in {A} (l : list A) (i : Z) (x : A) :
  getitem l i = Ok x -> In x l.
Proof.
  unfold getitem.
  destruct ((if i <? 0 then i + len l else i) <? 0); [discriminate|].
  destruct (nth_error l _) eqn:E; [|discriminate].
  intros [= <-]. eapply nth_error_In. exact E.
Qed.


Lemma for_each_length {A B} (f : A -> result B) (l : list A) (out : list B) :
  for_each f l = Ok out -> List.length out = List.length l.
Proof.
  revert out. induction l as [|x rest IH]; intros out; simpl.
  - intros [= <-]. reflexivity.
  - destruct (f x) as [y|e]; [|discriminate]. cbn [bind].
    destruct (for_each f rest) as [ys|e]; [|discriminate]. cbn [bind].
    intros [= <-]. simpl. rewrite (IH ys eq_refl). reflexivity.
Qed.

Lemma for_each_nth {A B} (f : A -> result B) (l : list A) (out : list B)
    (k : nat) (x : A) :
  for_each f l = Ok out -> nth_error l k = Some x ->
  exists y, nth_error out k = Some y /\ f x = Ok y.
Proof.
  revert out k. induction l as [|x0 rest IH]; intros out k; simpl.
  - intros _ H. destruct k; discriminate.
  - destruct (f x0) as [y0|e] eqn:E0; [|discriminate]. cbn [bind].
    destruct (for_each f rest) as [ys|e]; [|discriminate]. cbn [bind].
    intros [= <-] Hk. destruct k as [|k]; simpl in *.
    + injection Hk as <-. exists y0. split; [reflexivity | exact E0].
    + apply (IH ys k eq_refl Hk).
Qed.

Lemma for_each_total {A B} (f : A -> result B) (l : list A) :
  (forall x, In x l -> exists y, f x = Ok y) ->
  exists out, for_each f l = Ok out.
Proof.
  induction l as [|x rest IH]; intros H; simpl.
  - eexists. reflexivity.
  - destruct (H x (or_introl eq_refl)) as (y & ->). cbn [bind].
    destruct IH as (ys & ->); [intros z Hz; apply H; right; exact Hz|].
    cbn [bind]. eexists. reflexivity.
Qed.

Lemma enumerate_from_length {A} (l : list A) (s : Z) :
  List.length (enumerate_from s l) = List.length l.
Proof.
  revert s. induction l as [|x rest IH]; intros s; simpl; [reflexivity|].
  rewrite IH. reflexivity.
Qed.

Lemma enumerate_from_nth {A} (l : list A) (s : Z) (k : nat) (x : A) :
  nth_error l k = Some x ->
  nth_error (enumerate_from s l) k = Some (s + Z.of_nat k, x).
Proof.
  revert s k. induction l as [|x0 rest IH]; intros s k H.
  - destruct k; discriminate.
  - destruct k as [|k]; simpl in *.
    + injection H as <-. f_equal. f_equal. lia.
    + rewrite (IH (s + 1) k H). f_equal. f_equal. lia.
Qed.

Lemma enumerate_from_in {A} (l : list A) (s i : Z) (x : A) :
  In (i, x) (enumerate_from s l) ->
  s <= i < s + len l /\ nth_error l (Z.to_nat (i - s)) = Some x.
Proof.
  revert s. induction l as [|x0 rest IH]; intros s H; simpl in H.
  - contradiction.
  - destruct H as [H|H].
    + injection H as <- <-. unfold len. simpl List.length.
      replace (s - s) with 0 by lia. split; [lia | reflexivity].
    + destruct (IH (s + 1) H) as [Hr Hn]. unfold len in *. simpl List.length.
      split; [lia|].
      replace (Z.to_nat (i - s)) with (S (Z.to_nat (i - (s + 1)))) by lia.
      exact Hn.
Qed.


Lemma range_length (n : Z) : List.length (range n) = Z.to_nat n.
Proof. unfold range. rewrite length_map, length_seq. reflexivity. Qed.

Lemma range_nth (n : Z) (k : nat) :
  (k < Z.to_nat n)%nat -> nth_error (range n) k = Some (Z.of_nat k).
Proof.
  intros H. unfold range. rewrite nth_error_map, nth_error_seq.
  destruct (Nat.ltb_spec k (Z.to_nat n)); [reflexivity | lia].
Qed.

Lemma range_in (n i : Z) : In i (range n) -> 0 <= i < n.
Proof.
  unfold range. rewrite in_map_iff. intros (k & <- & Hk).
  apply in_seq in Hk. lia.
Qed.


Lemma slice_to_length {A} (l : list A) (n : Z) :
  0 <= n -> len (slice_to l n) = Z.min n (len l).
Proof.
  intros H. unfold slice_to, len.
  destruct (n <? 0) eqn:E; [apply Z.ltb_lt in E; lia|].
  rewrite length_firstn. lia.
Qed.




End Py.

(* ================================================================== *)
(** * Calendar dates *)
(* ================================================================== *)

Module Calendar.
Import Py.

(** [datetime.date], identified by its proleptic Gregorian ordinal
    ([date.toordinal()]; 1 is 0001-01-01).  [date + timedelta] is computed on
    ordinals by the library, and so it is here; the year, month and day
    are read off the ordinal as the library's [_ord2ymd] does. *)
Definition date := Z.

Definition MAXORDINAL : Z := 3652059.

Definition is_leap (year : Z) : bool :=
  (year mod 4 =? 0) && (negb (year mod 100 =? 0) || (year mod 400 =? 0)).

Definition days_before_year (year : Z) : Z :=
  let y := year - 1 in y * 365 + y / 4 - y / 100 + y / 400.

Definition DAYS_IN_MONTH : list Z := [31; 28; 31; 30; 31; 30; 31; 31; 30; 31; 30; 31].
Definition DAYS_BEFORE_MONTH : list Z := [0; 31; 59; 90; 120; 151; 181; 212; 243; 273; 304; 334].

Definition month_entry (table : list Z) (month : Z) : Z :=
  nth (Z.to_nat (month - 1)) table 0.

Definition days_before_month (year month : Z) : Z :=
  month_entry DAYS_BEFORE_MONTH month + (if (2 <? month) && is_leap year then 1 else 0).

Definition ymd2ord (year month day : Z) : date :=
  days_before_year year + days_before_month year month + day.

Definition DI400Y : Z := 146097.
Definition DI100Y : Z := 36524.
Definition DI4Y : Z := 1461.

Definition ord2ymd (ordinal : date) : Z * Z * Z :=
  let n := ordinal - 1 in
  let n400 := n / DI400Y in let n := n mod DI400Y in
  let year := n400 * 400 + 1 in
  let n100 := n / DI100Y in let n := n mod DI100Y in
  let n4 := n / DI4Y in let n := n mod DI4Y in
  let n1 := n / 365 in let n := n mod 365 in
  let year := year + n100 * 100 + n4 * 4 + n1 in
  if (n1 =? 4) || (n100 =? 4) then (year - 1, 12, 31)
  else
    let leapyear := (n1 =? 3) && (negb (n4 =? 24) || (n100 =? 3)) in
    let month := Z.shiftr (n + 50) 5 in
    let preceding :=
      month_entry DAYS_BEFORE_MONTH month + (if (2 <? month) && leapyear then 1 else 0) in
    if n <? preceding then
      let month := month - 1 in
      let preceding :=
        preceding - (month_entry DAYS_IN_MONTH month +
                     (if (month =? 2) && leapyear then 1 else 0)) in
      (year, month, n - preceding + 1)
    else (year, month, n - preceding + 1).

(** ["%0{width}d" % n] for a non-negative [n]. *)
Fixpoint zeros (k : nat) : string :=
  match k with O => "" | S k' => String "0" (zeros k') end.

Definition zero_padded (width : nat) (n : Z) : string :=
  let digits := str_of_int n in
  (zeros (width - String.length digits) ++ digits)%string.

(** [date.isoformat()] *)
Definition isoformat (d : date) : string :=
  let '(y, m, dd) := ord2ymd d in
  (zero_padded 4 y ++ "-" ++ zero_padded 2 m ++ "-" ++ zero_padded 2 dd)%string.

(** [d + timedelta(days=n)]: out of the supported years it raises. *)
Definition add_days (d : date) (n : Z) : result date :=
  let o := d + n in
  if (0 <? o) && (o <=? MAXORDINAL) then Ok o else Raise OverflowError.

(** [datetime.datetime]: a date and the time of day.  [utcnow()] reads
    one from the clock. *)
Record datetime := mkDatetime {
  dt_date : date;
  hour : Z;
  minute : Z;
  second : Z
}.

(** [dt.date()] *)
Definition date_of (dt : datetime) : date := dt_date dt.

(** [dt + timedelta(days=n)] *)
Definition datetime_add_days (dt : datetime) (n : Z) : result datetime :=
  d <- add_days (dt_date dt) n ;;
  Ok {| dt_date := d; hour := hour dt; minute := minute dt; second := second dt |}.

(** [dt.strftime("%Y-%m-%dT%H:%M:%SZ")] *)
Definition strftime_utc (dt : datetime) : string :=
  (isoformat (dt_date dt) ++ "T" ++ zero_padded 2 (hour dt) ++ ":" ++
   zero_padded 2 (minute dt) ++ ":" ++ zero_padded 2 (second dt) ++ "Z")%string.

Example ord2ymd_leap_day : ord2ymd (ymd2ord 2024 2 29) = (2024, 2, 29).
Proof. vm_compute. reflexivity. Qed.
Example ord2ymd_last : ord2ymd MAXORDINAL = (9999, 12, 31).
Proof. vm_compute. reflexivity. Qed.
Example isoformat_first : isoformat 1 = "0001-01-01".
Proof. vm_compute. reflexivity. Qed.
Example add_days_across_february :
  option_map isoformat
    (match add_days (ymd2ord 2024 2 28) 2 with Ok d => Some d | Raise _ => None end)
  = Some "2024-03-01".
Proof. vm_compute. reflexivity. Qed.
Example add_days_across_new_year :
  option_map isoformat
    (match add_days (ymd2ord 2025 12 31) 1 with Ok d => Some d | Raise _ => None end)
  = Some "2026-01-01".
Proof. vm_compute. reflexivity. Qed.
Example add_days_out_of_range : add_days MAXORDINAL 1 = Raise OverflowError.
Proof. vm_compute. reflexivity. Qed.

Lemma add_days_in_range (d : date) (n : Z) :
  0 < d + n <= MAXORDINAL -> add_days d n = Ok (d + n).
Proof.
  intros [H1 H2]. unfold add_days.
  apply Z.ltb_lt in H1. apply Z.leb_le in H2. rewrite H1, H2. reflexivity.
Qed.

Lemma add_days_inv (d : date) (n : Z) (d' : date) :
  add_days d n = Ok d' -> d' = d + n /\ 0 < d + n <= MAXORDINAL.
Proof.
  unfold add_days.
  destruct (0 <? d + n) eqn:E1; [|discriminate].
  destruct (d + n <=? MAXORDINAL) eqn:E2; [|discriminate].
  apply Z.ltb_lt in E1. apply Z.leb_le in E2. cbn.
  intros [= <-]. split; [reflexivity | lia].
Qed.

End Calendar.

(* ================================================================== *)
(** * Pydantic records *)
(* ================================================================== *)

Module Schema.

(** [class POI(BaseModel)].  The handler passes [p.model_dump()] to
    [plan_blocks], a dict with exactly these four keys; the record is
    read both ways ([p.name] and [d["name"]]). *)
Record POI := mkPOI {
  name : string;
  summary : option string;
  distance_km : option float;
  url : option string
}.

(** [class Event(BaseModel)] *)
Record Event := mkEvent {
  title : string;
  start_local : string;
  venue : option string;
  ev_url : option string
}.

(** [class WeatherDaily(BaseModel)] *)
Record WeatherDaily := mkWeatherDaily {
  date : string;
  temp_day_c : float;
  temp_night_c : float;
  condition : string;
  precipitation_mm : float
}.

(** [class DayPlan(BaseModel)] *)
Record DayPlan := mkDayPlan {
  day : Z;
  dp_date : string;
  morning : string;
  afternoon : string;
  evening : string;
  meals : list string
}.

End Schema.

(* ================================================================== *)
(** * The packing-list builder *)
(* ================================================================== *)

Module Packing.
Import Schema.

(** A [Dict[str, List[str]]] written as a literal: the keys in insertion
    order, each with its list. *)
Definition packing_list := list (string * list string).

Definition base_essentials : list string :=
  ["Passport/ID"; "Wallet"; "Phone + charger"; "Meds"; "Reusable bottle"].
Definition base_clothing : list string :=
  ["Walking shoes"; "Socks/underwear"; "Tops/bottoms"].
Definition base_toiletries : list string :=
  ["Toothbrush/toothpaste"; "Deodorant"; "Sunscreen"].
Definition base_electronics : list string :=
  ["Power adapter"; "Power bank"].

Definition heat_item : string := "Hat & sunglasses; light fabrics".
Definition cold_item : string := "Warm layer / light jacket".
Definition rain_item : string := "Compact umbrella / rain jacket".

(** The three generator expressions under [any(...)]. *)
Definition is_hot (d : WeatherDaily) : bool := (27 <=? temp_day_c d)%float.
Definition is_cold (d : WeatherDaily) : bool := (temp_day_c d <=? 10)%float.
Definition is_wet (d : WeatherDaily) : bool := (2.0 <=? precipitation_mm d)%float.

(** [list.append] under an [if]. *)
Definition append_if (b : bool) (l : list string) (x : string) : list string :=
  if b then l ++ [x] else l.

(** The truth value of a list: [if forecast_days:]. *)
Definition nonempty {A} (l : list A) : bool :=
  match l with [] => false | _ :: _ => true end.

Definition build_packing_list (forecast_days : list WeatherDaily) : packing_list :=
  let essentials := base_essentials in
  let clothing := base_clothing in
  let toiletries := base_toiletries in
  let electronics := base_electronics in
  let '(essentials, clothing) :=
    if nonempty forecast_days then
      let hot := existsb is_hot forecast_days in
      let cold := existsb is_cold forecast_days in
      let wet := existsb is_wet forecast_days in
      let clothing := append_if hot clothing heat_item in
      let clothing := append_if cold clothing cold_item in
      let essentials := append_if wet essentials rain_item in
      (essentials, clothing)
    else (essentials, clothing) in
  [ ("essentials", essentials);
    ("clothing", clothing);
    ("toiletries", toiletries);
    ("electronics", electronics) ].

(** [d[k]] on the returned dict. *)
Fixpoint category (k : string) (pl : packing_list) : list string :=
  match pl with
  | [] => []
  | (k', items) :: rest => if String.eqb k k' then items else category k rest
  end.

(** Every item of the dict, over all categories. *)
Definition all_items (pl : packing_list) : list string := List.concat (map snd pl).

Definition keys (pl : packing_list) : list string := map fst pl.

Definition occurrences (x : string) (l : list string) : nat :=
  count_occ string_dec l x.

(** ** Running the builder *)

Definition wd (t p : float) : WeatherDaily :=
  mkWeatherDaily "2025-06-01" t 12 "Clear" p.

Example packing_spec_example :
  build_packing_list [wd 28 0; wd 9 0; wd 15 5] =
  [ ("essentials", base_essentials ++ [rain_item]);
    ("clothing", base_clothing ++ [heat_item; cold_item]);
    ("toiletries", base_toiletries);
    ("electronics", base_electronics) ].
Proof. vm_compute. reflexivity. Qed.

Example packing_five_hot_days :
  occurrences heat_item
    (category "clothing"
       (build_packing_list
          [wd 30 0; wd 20 0; wd 31 0; wd 20 0; wd 32 0;
           wd 20 0; wd 33 0; wd 20 0; wd 34 0; wd 20 0])) = 1%nat.
Proof. vm_compute. reflexivity. Qed.

(** A NaN temperature triggers nothing: every comparison with it is false. *)
Example packing_nan_day :
  build_packing_list [wd nan nan] = build_packing_list [].
Proof. vm_compute. reflexivity. Qed.

(** ** Properties *)

Lemma nonempty_existsb {A} (p : A -> bool) (l : list A) :
  nonempty l = false -> existsb p l = false.
Proof. destruct l; [reflexivity | discriminate]. Qed.

(** The result as a function of the three scans alone: the [if
    forecast_days:] guard is redundant with them. *)
Lemma build_packing_list_scans (l : list WeatherDaily) :
  build_packing_list l =
  [ ("essentials", append_if (existsb is_wet l) base_essentials rain_item);
    ("clothing",
     append_if (existsb is_cold l)
       (append_if (existsb is_hot l) base_clothing heat_item) cold_item);
    ("toiletries", base_toiletries);
    ("electronics", base_electronics) ].
Proof.
  unfold build_packing_list.
  destruct (nonempty l) eqn:E; [reflexivity|].
  rewrite !(nonempty_existsb _ l E). reflexivity.
Qed.

Lemma some_day (p : WeatherDaily -> bool) (l : list WeatherDaily) :
  existsb p l = true <-> exists d, In d l /\ p d = true.
Proof. apply existsb_exists. Qed.

(** C2. The heat item is in clothing iff some day of the whole sequence
    has day-temperature >= 27, the cold item iff some day has
    day-temperature <= 10, the rain item is in essentials iff some day has
    precipitation >= 2.0; and each of the three occurs at most once among
    all the items of the result. *)
Theorem build_packing_list_conditional_items (l : list WeatherDaily) :
  let pl := build_packing_list l in
  (In heat_item (category "clothing" pl) <->
     exists d, In d l /\ (27 <=? temp_day_c d)%float = true) /\
  (In cold_item (category "clothing" pl) <->
     exists d, In d l /\ (temp_day_c d <=? 10)%float = true) /\
  (In rain_item (category "essentials" pl) <->
     exists d, In d l /\ (2.0 <=? precipitation_mm d)%float = true) /\
  (occurrences heat_item (all_items pl) <= 1)%nat /\
  (occurrences cold_item (all_items pl) <= 1)%nat /\
  (occurrences rain_item (all_items pl) <= 1)%nat.
Proof.
  cbv zeta. rewrite build_packing_list_scans.
  change (fun d => (27 <=? temp_day_c d)%float) with is_hot.
  rewrite <- (some_day is_hot), <- (some_day is_cold), <- (some_day is_wet).
  destruct (existsb is_hot l), (existsb is_cold l), (existsb is_wet l);
    (repeat split; try (intros _; vm_compute; tauto);
     try (vm_compute; intuition discriminate);
     try (vm_compute; lia)).
Qed.

(** C7. With no weather at all the result is the four base categories
    with their base items and nothing else: none of the three conditional
    items is anywhere in it. *)
Theorem build_packing_list_empty :
  build_packing_list [] =
    [ ("essentials",
       ["Passport/ID"; "Wallet"; "Phone + charger"; "Meds"; "Reusable bottle"]);
      ("clothing", ["Walking shoes"; "Socks/underwear"; "Tops/bottoms"]);
      ("toiletries", ["Toothbrush/toothpaste"; "Deodorant"; "Sunscreen"]);
      ("electronics", ["Power adapter"; "Power bank"]) ] /\
  occurrences heat_item (all_items (build_packing_list [])) = 0%nat /\
  occurrences cold_item (all_items (build_packing_list [])) = 0%nat /\
  occurrences rain_item (all_items (build_packing_list [])) = 0%nat.
Proof.
  rewrite build_packing_list_scans. cbn [existsb append_if].
  split; [reflexivity|].
  repeat split; vm_compute; reflexivity.
Qed.

(** C8. For every weather sequence the keys are the four categories, the
    base items are a prefix of each category in their fixed order, and what
    follows them is drawn from the rain item (essentials) or the heat and
    cold items (clothing); toiletries and electronics never grow. *)
Theorem build_packing_list_shape (l : list WeatherDaily) :
  exists extra_e extra_c,
    build_packing_list l =
      [ ("essentials", base_essentials ++ extra_e);
        ("clothing", base_clothing ++ extra_c);
        ("toiletries", base_toiletries);
        ("electronics", base_electronics) ] /\
    keys (build_packing_list l) =
      ["essentials"; "clothing"; "toiletries"; "electronics"] /\
    incl extra_e [rain_item] /\
    incl extra_c [heat_item; cold_item].
Proof.
  rewrite build_packing_list_scans.
  exists (if existsb is_wet l then [rain_item] else []).
  exists ((if existsb is_hot l then [heat_item] else []) ++
          (if existsb is_cold l then [cold_item] else [])).
  destruct (existsb is_hot l), (existsb is_cold l), (existsb is_wet l);
    (split; [reflexivity|]; split; [reflexivity|];
     split; intros x Hx; simpl in *; tauto).
Qed.

(** ** More on the builder *)

Lemma existsb_incl {A} (p : A -> bool) (l l' : list A) :
  incl l l' -> existsb p l = true -> existsb p l' = true.
Proof.
  intros Hincl H. apply existsb_exists in H. destruct H as (x & Hx & Hp).
  apply existsb_exists. exists x. split; [apply Hincl; exact Hx | exact Hp].
Qed.

Lemma existsb_same_members {A} (p : A -> bool) (l l' : list A) :
  (forall x, In x l <-> In x l') -> existsb p l = existsb p l'.
Proof.
  intros H.
  destruct (existsb p l) eqn:E.
  - symmetry. apply (existsb_incl p l l'); [intros x Hx; apply H; exact Hx | exact E].
  - destruct (existsb p l') eqn:E'; [|reflexivity].
    rewrite (existsb_incl p l' l) in E;
      [discriminate E | intros x Hx; apply H; exact Hx | exact E'].
Qed.

(** X16. The packing list depends only on which days occur in the
    forecast, not on their order or on how often one occurs; and a forecast
    with more days never loses an item. *)
Theorem build_packing_list_members (l l' : list WeatherDaily) :
  ((forall d, In d l <-> In d l') -> build_packing_list l = build_packing_list l') /\
  (incl l l' ->
     forall k item, In item (category k (build_packing_list l)) ->
                    In item (category k (build_packing_list l'))).
Proof.
  rewrite !build_packing_list_scans. split.
  - intros H.
    rewrite (existsb_same_members is_hot l l' H),
            (existsb_same_members is_cold l l' H),
            (existsb_same_members is_wet l l' H).
    reflexivity.
  - intros Hincl k item.
    pose proof (existsb_incl is_hot l l' Hincl) as Hh.
    pose proof (existsb_incl is_cold l l' Hincl) as Hc.
    pose proof (existsb_incl is_wet l l' Hincl) as Hw.
    destruct (existsb is_hot l); [rewrite (Hh eq_refl)|];
    destruct (existsb is_cold l); [rewrite (Hc eq_refl)| |rewrite (Hc eq_refl)|];
    destruct (existsb is_wet l); try rewrite (Hw eq_refl);
    destruct (existsb is_hot l'); destruct (existsb is_cold l');
    destruct (existsb is_wet l');
    cbn [category append_if];
    repeat match goal with
           | |- context [String.eqb k ?s] => destruct (String.eqb k s)
           end;
    cbn; tauto.
Qed.

Lemma build_packing_list_members_witness :
  build_packing_list [wd 30 0; wd 5 3] = build_packing_list [wd 5 3; wd 30 0; wd 5 3].
Proof.
  apply (proj1 (build_packing_list_members [wd 30 0; wd 5 3]
                  [wd 5 3; wd 30 0; wd 5 3])).
  intros d. simpl. tauto.
Defined.

End Packing.

(* ================================================================== *)
(** * The itinerary synthesizer *)
(* ================================================================== *)

Module Synth.
Import Py Schema.

Definition fixed_meals : list string :=
  ["Local bakery breakfast"; "Regional specialty lunch"; "Well-reviewed dinner spot"].

(** The index expression [(day_idx * 3 + k) % max(1, len(pois))]. *)
Definition rotation (day_idx k : Z) (pois : list POI) : Z :=
  (day_idx * 3 + k) mod Z.max 1 (len pois).

(** [pois[...]["name"]] *)
Definition poi_name (pois : list POI) (i : Z) : result string :=
  p <- getitem pois i ;; Ok (name p).

Definition plan_blocks (day_idx : Z) (date_str : string)
    (pois : list POI) (events : list Event) : result DayPlan :=
  poi_m <- (if Packing.nonempty pois
            then poi_name pois (rotation day_idx 0 pois)
            else Ok "Neighborhood walk") ;;
  poi_a <- (if 1 <? len pois
            then poi_name pois (rotation day_idx 1 pois)
            else Ok "Museum or gallery") ;;
  evening_ev <- (if day_idx <? len events
                 then e <- getitem events day_idx ;; Ok (Some e)
                 else Ok None) ;;
  eve_text <- match evening_ev with
              | Some ev =>
                  Ok ("Attend: " ++ title ev ++ " @ " ++ str_of_optional (venue ev))%string
              | None =>
                  if 2 <? len pois
                  then poi_name pois (rotation day_idx 2 pois)
                  else Ok "Food market & riverfront"
              end ;;
  let meals := fixed_meals in
  Ok {| day := day_idx + 1;
        dp_date := date_str;
        morning := ("Explore: " ++ poi_m)%string;
        afternoon := ("Visit: " ++ poi_a)%string;
        evening := eve_text;
        meals := meals |}.

(** ** Running the synthesizer *)

Definition poi (n : string) : POI := mkPOI n None None None.
Definition four_pois : list POI := [poi "Louvre"; poi "Orsay"; poi "Pantheon"; poi "Sorbonne"].
Definition gig : Event := mkEvent "Jazz night" "2025-06-01" (Some "Le Caveau") None.
Definition open_air : Event := mkEvent "Open air" "2025-06-02" None None.

Example plan_blocks_day0 :
  plan_blocks 0 "2025-06-01" four_pois [gig] =
  Ok (mkDayPlan 1 "2025-06-01" "Explore: Louvre" "Visit: Orsay"
        "Attend: Jazz night @ Le Caveau" fixed_meals).
Proof. reflexivity. Qed.

Example plan_blocks_day1 :
  plan_blocks 1 "2025-06-02" four_pois [gig] =
  Ok (mkDayPlan 2 "2025-06-02" "Explore: Sorbonne" "Visit: Louvre" "Orsay" fixed_meals).
Proof. reflexivity. Qed.

Example plan_blocks_nothing :
  plan_blocks 5 "2025-06-06" [] [] =
  Ok (mkDayPlan 6 "2025-06-06" "Explore: Neighborhood walk" "Visit: Museum or gallery"
        "Food market & riverfront" fixed_meals).
Proof. reflexivity. Qed.

(** Below zero the index wraps around the end of the event list, as any
    Python index does; the handler only passes [enumerate] positions. *)
Example plan_blocks_negative_day :
  plan_blocks (-1) "d" [] [gig; open_air] =
  Ok (mkDayPlan 0 "d" "Explore: Neighborhood walk" "Visit: Museum or gallery"
        "Attend: Open air @ None" fixed_meals).
Proof. reflexivity. Qed.

(** ** Properties *)

Lemma rotation_in_range (day_idx k : Z) (pois : list POI) :
  0 < len pois -> 0 <= rotation day_idx k pois < len pois.
Proof.
  intros H. unfold rotation.
  replace (Z.max 1 (len pois)) with (len pois) by lia.
  apply Z.mod_pos_bound. exact H.
Qed.

Lemma poi_name_rotation (day_idx k : Z) (pois : list POI) :
  0 < len pois ->
  exists p, nth_error pois (Z.to_nat (rotation day_idx k pois)) = Some p /\
            poi_name pois (rotation day_idx k pois) = Ok (name p).
Proof.
  intros H.
  destruct (getitem_in_range pois _ (rotation_in_range day_idx k pois H))
    as (p & Hn & Hg).
  exists p. split; [exact Hn|]. unfold poi_name. rewrite Hg. reflexivity.
Qed.

Lemma nonempty_len {A} (l : list A) : Packing.nonempty l = (0 <? len l).
Proof. destruct l; [reflexivity|]. unfold len. simpl. reflexivity. Qed.

(** The morning, afternoon and evening texts as the slots describe them. *)
Definition morning_slot (i : Z) (pois : list POI) (text : string) : Prop :=
  (0 < len pois ->
     exists p, nth_error pois (Z.to_nat ((i * 3 + 0) mod Z.max 1 (len pois))) = Some p /\
               text = ("Explore: " ++ name p)%string) /\
  (len pois = 0 -> text = "Explore: Neighborhood walk").

Definition afternoon_slot (i : Z) (pois : list POI) (text : string) : Prop :=
  (1 < len pois ->
     exists p, nth_error pois (Z.to_nat ((i * 3 + 1) mod Z.max 1 (len pois))) = Some p /\
               text = ("Visit: " ++ name p)%string) /\
  (len pois <= 1 -> text = "Visit: Museum or gallery").

Definition evening_slot (i : Z) (pois : list POI) (events : list Event)
    (text : string) : Prop :=
  (i < len events ->
     exists e, nth_error events (Z.to_nat i) = Some e /\
               text = ("Attend: " ++ title e ++ " @ " ++ str_of_optional (venue e))%string) /\
  (len events <= i -> 2 < len pois ->
     exists p, nth_error pois (Z.to_nat ((i * 3 + 2) mod Z.max 1 (len pois))) = Some p /\
               text = name p) /\
  (len events <= i -> len pois <= 2 -> text = "Food market & riverfront").

(** The event looked up for day [i] is the same in the whole list and in
    any prefix of it that is longer than [i]. *)
Lemma event_at_prefix (i n : Z) (events : list Event) :
  0 <= i < n ->
  (if i <? len (slice_to events n)
   then e <- getitem (slice_to events n) i ;; Ok (Some e)
   else Ok None) =
  (if i <? len events then e <- getitem events i ;; Ok (Some e) else Ok None).
Proof.
  intros Hi. rewrite slice_to_length by lia.
  destruct (i <? len events) eqn:E.
  - apply Z.ltb_lt in E.
    replace (i <? Z.min n (len events)) with true by (symmetry; apply Z.ltb_lt; lia).
    f_equal. unfold getitem, slice_to.
    destruct (n <? 0) eqn:En; [apply Z.ltb_lt in En; lia|].
    destruct (i <? 0) eqn:E0; [apply Z.ltb_lt in E0; lia|]. rewrite E0.
    rewrite nth_error_firstn.
    destruct (Nat.ltb_spec (Z.to_nat i) (Z.to_nat n)); [reflexivity | lia].
  - apply Z.ltb_ge in E.
    replace (i <? Z.min n (len events)) with false by (symmetry; apply Z.ltb_ge; lia).
    reflexivity.
Qed.

Lemma plan_blocks_events_prefix (i n : Z) (date_str : string)
    (pois : list POI) (events : list Event) :
  0 <= i < n ->
  plan_blocks i date_str pois (slice_to events n) = plan_blocks i date_str pois events.
Proof.
  intros Hi. unfold plan_blocks. rewrite (event_at_prefix i n events Hi). reflexivity.
Qed.

(** For a day index [i >= 0] the synthesizer returns, and its three texts
    are the ones the slots describe. *)
Lemma plan_blocks_total (i : Z) (date_str : string)
    (pois : list POI) (events : list Event) :
  0 <= i ->
  exists dp,
    plan_blocks i date_str pois events = Ok dp /\
    morning_slot i pois (morning dp) /\
    afternoon_slot i pois (afternoon dp) /\
    evening_slot i pois events (evening dp).
Proof.
  intros Hi. pose proof (len_nonneg pois) as HP.
  unfold plan_blocks. rewrite nonempty_len.
  (* morning *)
  assert (Hm : exists m,
    (if 0 <? len pois then poi_name pois (rotation i 0 pois)
     else Ok "Neighborhood walk") = Ok m /\
    morning_slot i pois ("Explore: " ++ m)%string).
  { unfold morning_slot. destruct (0 <? len pois) eqn:E.
    - apply Z.ltb_lt in E.
      destruct (poi_name_rotation i 0 pois E) as (p & Hn & Hg).
      exists (name p). split; [exact Hg|]. split; [|lia].
      intros _. exists p. split; [exact Hn | reflexivity].
    - apply Z.ltb_ge in E. eexists. split; [reflexivity|].
      split; [lia | reflexivity]. }
  destruct Hm as (m & -> & Hm). cbn [bind].
  (* afternoon *)
  assert (Ha : exists a,
    (if 1 <? len pois then poi_name pois (rotation i 1 pois)
     else Ok "Museum or gallery") = Ok a /\
    afternoon_slot i pois ("Visit: " ++ a)%string).
  { unfold afternoon_slot. destruct (1 <? len pois) eqn:E.
    - apply Z.ltb_lt in E.
      destruct (poi_name_rotation i 1 pois ltac:(lia)) as (p & Hn & Hg).
      exists (name p). split; [exact Hg|]. split; [|lia].
      intros _. exists p. split; [exact Hn | reflexivity].
    - apply Z.ltb_ge in E. eexists. split; [reflexivity|].
      split; [lia | reflexivity]. }
  destruct Ha as (a & -> & Ha). cbn [bind].
  (* evening *)
  destruct (i <? len events) eqn:Ee.
  - apply Z.ltb_lt in Ee.
    destruct (getitem_in_range events i ltac:(lia)) as (e & Hn & ->).
    cbn [bind]. eexists. split; [reflexivity|]. cbn.
    split; [exact Hm|]. split; [exact Ha|].
    unfold evening_slot. split; [|split; lia].
    intros _. exists e. split; [exact Hn | reflexivity].
  - apply Z.ltb_ge in Ee. cbn [bind].
    destruct (2 <? len pois) eqn:E2.
    + apply Z.ltb_lt in E2.
      destruct (poi_name_rotation i 2 pois ltac:(lia)) as (p & Hn & ->).
      cbn [bind]. eexists. split; [reflexivity|]. cbn.
      split; [exact Hm|]. split; [exact Ha|].
      unfold evening_slot. split; [lia|]. split; [|lia].
      intros _ _. exists p. split; [exact Hn | reflexivity].
    + apply Z.ltb_ge in E2. cbn [bind].
      eexists. split; [reflexivity|]. cbn.
      split; [exact Hm|]. split; [exact Ha|].
      unfold evening_slot. split; [lia|]. split; [lia|]. reflexivity.
Qed.


Lemma event_in_the_evening (i : Z) (date_str : string)
    (pois : list POI) (events : list Event) :
  0 <= i ->
  exists dp,
    plan_blocks i date_str pois events = Ok dp /\
    (i < len events ->
       exists e, nth_error events (Z.to_nat i) = Some e /\
                 evening dp =
                 ("Attend: " ++ title e ++ " @ " ++ str_of_optional (venue e))%string).
Proof.
  intros Hi.
  destruct (plan_blocks_total i date_str pois events Hi)
    as (dp & Hdp & _ & _ & (Hev & _)).
  exists dp. split; [exact Hdp | exact Hev].
Qed.

(** C3. For a day index [i >= 0] the synthesizer returns a plan whose
    morning is the POI at [(i*3+0) mod max(1,P)] when [P > 0] and the
    neighborhood-walk placeholder otherwise, whose afternoon is the POI at
    [(i*3+1) mod max(1,P)] when [P > 1] and the museum placeholder otherwise,
    and whose evening is the event at list index [i] itself when
    [i < len(events)], otherwise the POI at [(i*3+2) mod max(1,P)] when
    [P > 2], otherwise the food-market placeholder.  The event index does
    not wrap: over the days [0 .. n-1] of a trip nothing but the first [n]
    events is looked at. *)
Theorem plan_blocks_slots (i : Z) (date_str : string)
    (pois : list POI) (events : list Event) :
  0 <= i ->
  (exists dp,
     plan_blocks i date_str pois events = Ok dp /\
     morning_slot i pois (morning dp) /\
     afternoon_slot i pois (afternoon dp) /\
     evening_slot i pois events (evening dp)) /\
  (forall n, i < n ->
     plan_blocks i date_str pois (slice_to events n) =
     plan_blocks i date_str pois events).
Proof.
  intros Hi. split.
  - apply plan_blocks_total. exact Hi.
  - intros n Hn. apply plan_blocks_events_prefix. lia.
Qed.

Lemma plan_blocks_slots_witness :
  0 <= 1 /\
  exists dp,
    plan_blocks 1 "2025-06-02" four_pois [gig] = Ok dp /\
    morning_slot 1 four_pois (morning dp) /\
    afternoon_slot 1 four_pois (afternoon dp) /\
    evening_slot 1 four_pois [gig] (evening dp).
Proof.
  split; [lia|].
  apply (proj1 (plan_blocks_slots 1 "2025-06-02" four_pois [gig] ltac:(lia))).
Defined.

(** C10. An event at the day's index whose venue is [None] still fills
    the evening: the text is ["Attend: {title} @ None"], whatever the
    POIs are. *)
Theorem plan_blocks_event_without_venue (i : Z) (date_str : string)
    (pois : list POI) (events : list Event) (e : Event) :
  0 <= i ->
  nth_error events (Z.to_nat i) = Some e ->
  venue e = None ->
  exists dp,
    plan_blocks i date_str pois events = Ok dp /\
    evening dp = ("Attend: " ++ title e ++ " @ None")%string.
Proof.
  intros Hi Hn Hv.
  destruct (event_in_the_evening i date_str pois events Hi)
    as (dp & Hdp & Hev).
  exists dp. split; [exact Hdp|].
  assert (Hlt : i < len events).
  { assert (Z.to_nat i < List.length events)%nat
      by (apply nth_error_Some; congruence).
    unfold len. lia. }
  destruct (Hev Hlt) as (e' & Hn' & ->).
  rewrite Hn in Hn'. injection Hn' as <-. rewrite Hv. reflexivity.
Qed.

(** The day number and the date of a plan are the index plus one and the
    date passed in. *)
Lemma plan_blocks_day_date (i : Z) (date_str : string)
    (pois : list POI) (events : list Event) (dp : DayPlan) :
  plan_blocks i date_str pois events = Ok dp ->
  day dp = i + 1 /\ dp_date dp = date_str.
Proof.
  unfold plan_blocks. intros H.
  repeat match type of H with
         | bind ?c _ = Ok _ =>
             destruct c eqn:?; cbn [bind] in H; [|discriminate H]
         end.
  injection H as <-. split; reflexivity.
Qed.

Lemma plan_blocks_event_without_venue_witness :
  exists dp,
    plan_blocks 1 "2025-06-02" four_pois [gig; open_air] = Ok dp /\
    evening dp = "Attend: Open air @ None".
Proof.
  apply (plan_blocks_event_without_venue 1 "2025-06-02" four_pois
           [gig; open_air] open_air); [lia | reflexivity | reflexivity].
Defined.

(** ** More on the synthesizer *)

Lemma poi_slot_returns (enough : bool) (i k : Z) (pois : list POI)
    (placeholder : string) :
  (enough = true -> 0 < len pois) ->
  exists text,
    (if enough then poi_name pois (rotation i k pois) else Ok placeholder) = Ok text.
Proof.
  intros H. destruct enough.
  - destruct (poi_name_rotation i k pois (H eq_refl)) as (p & _ & ->).
    eexists. reflexivity.
  - eexists. reflexivity.
Qed.

(** X13. [plan_blocks] raises exactly when the day index lies below
    [-len(events)], and then it raises [IndexError]; for every other index,
    negative ones included, it returns a plan. *)
Theorem plan_blocks_raises (i : Z) (date_str : string)
    (pois : list POI) (events : list Event) :
  (- len events <= i -> exists dp, plan_blocks i date_str pois events = Ok dp) /\
  (i < - len events -> plan_blocks i date_str pois events = Raise IndexError).
Proof.
  pose proof (len_nonneg events) as He.
  unfold plan_blocks. rewrite nonempty_len.
  destruct (poi_slot_returns (0 <? len pois) i 0 pois "Neighborhood walk")
    as (m & ->); [intros H; apply Z.ltb_lt in H; lia|].
  destruct (poi_slot_returns (1 <? len pois) i 1 pois "Museum or gallery")
    as (a & ->); [intros H; apply Z.ltb_lt in H; lia|].
  cbn [bind].
  destruct (poi_slot_returns (2 <? len pois) i 2 pois "Food market & riverfront")
    as (e & Hevening); [intros H; apply Z.ltb_lt in H; lia|].
  destruct (getitem_defined events i) as [Hin Hout].
  split; intros Hi.
  - destruct (i <? len events) eqn:E.
    + apply Z.ltb_lt in E. destruct (Hin ltac:(lia)) as (ev & ->).
      cbn [bind]. eexists. reflexivity.
    + cbn [bind]. rewrite Hevening. cbn [bind]. eexists. reflexivity.
  - replace (i <? len events) with true by (symmetry; apply Z.ltb_lt; lia).
    rewrite (Hout ltac:(lia)). reflexivity.
Qed.

Example plan_blocks_far_below_zero :
  plan_blocks (-3) "d" four_pois [gig; open_air] = Raise IndexError.
Proof. reflexivity. Qed.

(** X14. The rotation puts the slots of one day on different POIs: the
    morning and afternoon positions differ as soon as there are two POIs,
    and with three or more the evening position differs from both.  It has
    period [len(pois)]: day [i + len(pois)] visits the positions of day
    [i]. *)
Theorem rotation_positions (i : Z) (pois : list POI) :
  (2 <= len pois -> rotation i 0 pois <> rotation i 1 pois) /\
  (3 <= len pois ->
     rotation i 0 pois <> rotation i 2 pois /\
     rotation i 1 pois <> rotation i 2 pois) /\
  (forall k, rotation (i + len pois) k pois = rotation i k pois).
Proof.
  assert (Hdiff : forall a b P, 0 < b - a < P -> a mod P <> b mod P).
  { intros a b P Hab Heq.
    assert (H0 : (b - a) mod P = 0)
      by (rewrite Zminus_mod, Heq, Z.sub_diag; apply Z.mod_0_l; lia).
    rewrite Z.mod_small in H0 by lia. lia. }
  unfold rotation. split; [|split].
  - intros H. replace (Z.max 1 (len pois)) with (len pois) by lia.
    apply Hdiff. lia.
  - intros H. replace (Z.max 1 (len pois)) with (len pois) by lia.
    split; apply Hdiff; lia.
  - intros k. pose proof (len_nonneg pois) as HP.
    destruct (Z.eq_dec (len pois) 0) as [->|Hne].
    + rewrite Z.add_0_r. reflexivity.
    + replace (Z.max 1 (len pois)) with (len pois) by lia.
      replace ((i + len pois) * 3 + k) with (i * 3 + k + 3 * len pois) by lia.
      apply Z_mod_plus_full.
Qed.

(** With no POIs and no events every day of the trip is made of the
    three placeholders and the three fixed meals: the plans of any two days
    differ in nothing but the day number and the date. *)
Theorem plan_blocks_placeholders (i : Z) (date_str : string) :
  0 <= i ->
  plan_blocks i date_str [] [] =
  Ok {| day := i + 1;
        dp_date := date_str;
        morning := "Explore: Neighborhood walk";
        afternoon := "Visit: Museum or gallery";
        evening := "Food market & riverfront";
        meals := ["Local bakery breakfast"; "Regional specialty lunch";
                  "Well-reviewed dinner spot"] |}.
Proof.
  intros Hi. unfold plan_blocks. cbn [Packing.nonempty bind].
  change (len (@nil POI)) with 0. change (len (@nil Event)) with 0.
  replace (i <? 0) with false by (symmetry; apply Z.ltb_ge; lia).
  reflexivity.
Qed.

Lemma plan_blocks_raises_witness :
  plan_blocks (-3) "d" four_pois [gig; open_air] = Raise IndexError.
Proof.
  apply (proj2 (plan_blocks_raises (-3) "d" four_pois [gig; open_air])).
  vm_compute. reflexivity.
Defined.

Lemma rotation_positions_witness :
  rotation 5 0 four_pois <> rotation 5 1 four_pois.
Proof.
  apply (proj1 (rotation_positions 5 four_pois)). vm_compute. discriminate.
Defined.

Lemma plan_blocks_placeholders_witness :
  plan_blocks 4 "2025-06-05" [] [] =
  Ok (mkDayPlan 5 "2025-06-05" "Explore: Neighborhood walk"
        "Visit: Museum or gallery" "Food market & riverfront" fixed_meals).
Proof.
  apply (plan_blocks_placeholders 4 "2025-06-05"). lia.
Defined.

End Synth.

(* ================================================================== *)
(** * Settings, the outside world and the effect monad *)
(* ================================================================== *)

Module World.
Import Py Calendar.

(** [class Settings(BaseSettings)], read once from the environment. *)
Record Settings := mkSettings {
  OPENAI_API_KEY : option string;
  TICKETMASTER_API_KEY : option string;
  REQUEST_TIMEOUT_SECONDS : Z;
  MAX_RETRIES : Z;
  MODEL_NAME : string;
  MODEL_TEMPERATURE : float
}.

Definition default_settings : Settings :=
  {| OPENAI_API_KEY := None;
     TICKETMASTER_API_KEY := None;
     REQUEST_TIMEOUT_SECONDS := 8;
     MAX_RETRIES := 3;
     MODEL_NAME := "gpt-4o-mini";
     MODEL_TEMPERATURE := 0.2 |}.

(** [if not settings.KEY]: an unset key and an empty one are both falsy. *)
Definition configured (key : option string) : bool :=
  match key with
  | Some s => negb (String.eqb s "")
  | None => false
  end.

(** One [client.get(url, headers=..., params=..., timeout=...)]. *)
Record request := mkRequest {
  req_url : string;
  req_headers : option (list (string * string));
  req_params : list (string * json);
  req_timeout : Z
}.

(** An [httpx.Response]: its status and what [r.json()] yields ([None]
    when the body is not a JSON document and [r.json()] raises
    [ValueError]). *)
Record response := mkResponse {
  status_code : Z;
  json_body : option json
}.

(** What a [client.get] does: it returns a response or raises. *)
Inductive get_outcome : Type :=
| Responds (r : response)
| Fails (e : exn).

(** The behaviour of everything outside the process: the answer to the
    [k]-th request sent, the [k]-th reading of the clock, whether the
    optional language-model libraries could be imported ([ChatOpenAI is not
    None]), whether building the client [ChatOpenAI(...)] raises when [k]
    prompts have been made, and the outcome of the [k]-th invocation of the
    model (the content of the reply message, or the exception that
    [invoke] raises). *)
Record oracle := mkOracle {
  answer : nat -> request -> get_outcome;
  utcnow_at : nat -> datetime;
  llm_libraries : bool;
  llm_client : nat -> option exn;
  llm_reply : nat -> string -> result json
}.

(** What the process has done to the outside so far. *)
Record world := mkWorld {
  requests : list request;
  clock_reads : nat;
  llm_prompts : list string
}.

Definition initial_world : world :=
  {| requests := []; clock_reads := 0; llm_prompts := [] |}.

(** A computation: from the world before to its outcome and the world
    after. *)
Definition M (A : Type) : Type := world -> result A * world.

Definition ret {A} (a : A) : M A := fun w => (Ok a, w).
Definition raise {A} (e : exn) : M A := fun w => (Raise e, w).
Definition lift {A} (r : result A) : M A := fun w => (r, w).
Definition mbind {A B} (c : M A) (k : A -> M B) : M B :=
  fun w =>
    match c w with
    | (Ok a, w') => k a w'
    | (Raise e, w') => (Raise e, w')
    end.

Notation "x <~ c ;; k" := (mbind c (fun x => k))
  (at level 61, c at next level, right associativity).

(** A loop whose body has effects; it stops at the first exception. *)
Fixpoint mfor_each {A B} (body : A -> M B) (l : list A) : M (list B) :=
  match l with
  | [] => ret []
  | x :: rest =>
      y <~ body x ;;
      ys <~ mfor_each body rest ;;
      ret (y :: ys)
  end.

Definition ticked (w : world) : world :=
  {| requests := requests w;
     clock_reads := S (clock_reads w);
     llm_prompts := llm_prompts w |}.

Definition sent (req : request) (w : world) : world :=
  {| requests := requests w ++ [req];
     clock_reads := clock_reads w;
     llm_prompts := llm_prompts w |}.

Lemma mbind_ok {A B} (c : M A) (k : A -> M B) (w w' : world) (a : A) :
  c w = (Ok a, w') -> mbind c k w = k a w'.
Proof. intros H. unfold mbind. rewrite H. reflexivity. Qed.

Lemma mbind_raise {A B} (c : M A) (k : A -> M B) (w w' : world) (e : exn) :
  c w = (Raise e, w') -> mbind c k w = (Raise e, w').
Proof. intros H. unfold mbind. rewrite H. reflexivity. Qed.

Lemma mbind_inv {A B} (c : M A) (k : A -> M B) (w w' : world) (b : B) :
  mbind c k w = (Ok b, w') ->
  exists a w1, c w = (Ok a, w1) /\ k a w1 = (Ok b, w').
Proof.
  unfold mbind. destruct (c w) as [[a|e] w1]; [|discriminate].
  intros H. exists a, w1. split; [reflexivity | exact H].
Qed.

Lemma lift_inv {A} (r : result A) (w w' : world) (a : A) :
  lift r w = (Ok a, w') -> r = Ok a /\ w' = w.
Proof. unfold lift. intros [= -> ->]. split; reflexivity. Qed.

Lemma ret_inv {A} (a b : A) (w w' : world) :
  ret a w = (Ok b, w') -> b = a /\ w' = w.
Proof. unfold ret. intros [= -> ->]. split; reflexivity. Qed.

(** A loop that returns has an output for every item, in order. *)
Lemma mfor_each_nth {A B} (body : A -> M B) (l : list A) (w w' : world)
    (out : list B) :
  mfor_each body l w = (Ok out, w') ->
  List.length out = List.length l /\
  forall k x, nth_error l k = Some x ->
    exists y w1 w2, nth_error out k = Some y /\ body x w1 = (Ok y, w2).
Proof.
  revert w w' out. induction l as [|x0 rest IH]; intros w w' out H; simpl in H.
  - apply ret_inv in H. destruct H as [-> _].
    split; [reflexivity|]. intros k x Hk. destruct k; discriminate.
  - apply mbind_inv in H. destruct H as (y0 & w1 & H0 & H).
    apply mbind_inv in H. destruct H as (ys & w2 & Hrest & H).
    apply ret_inv in H. destruct H as [-> _].
    destruct (IH w1 w2 ys Hrest) as [Hlen Hnth].
    split; [simpl; rewrite Hlen; reflexivity|].
    intros k x Hk. destruct k as [|k]; simpl in *.
    + injection Hk as <-. exists y0, w, w1. split; [reflexivity | exact H0].
    + apply Hnth. exact Hk.
Qed.

(** A loop whose body always returns, returns. *)
Lemma mfor_each_total {A B} (body : A -> M B) (l : list A) (w : world) :
  (forall x w1, exists y w2, body x w1 = (Ok y, w2)) ->
  exists out w', mfor_each body l w = (Ok out, w').
Proof.
  intros Hbody. revert w. induction l as [|x rest IH]; intros w; simpl.
  - exists [], w. reflexivity.
  - destruct (Hbody x w) as (y & w1 & Hy).
    destruct (IH w1) as (ys & w2 & Hys).
    exists (y :: ys), w2.
    rewrite (mbind_ok _ _ _ _ _ Hy), (mbind_ok _ _ _ _ _ Hys). reflexivity.
Qed.

(** ** Footprints of computations *)

(** [c] sends at most [n] requests, all of them satisfying [P]. *)
Definition sends_within {A} (P : request -> Prop) (n : nat) (c : M A) : Prop :=
  forall w, exists l,
    requests (snd (c w)) = requests w ++ l /\
    Forall P l /\ (List.length l <= n)%nat.

(** [c] never prompts the model. *)
Definition quiet {A} (c : M A) : Prop :=
  forall w, llm_prompts (snd (c w)) = llm_prompts w.

Lemma sends_nothing {A} (P : request -> Prop) (c : M A) :
  (forall w, requests (snd (c w)) = requests w) -> sends_within P 0 c.
Proof.
  intros H w. exists []. rewrite app_nil_r.
  split; [apply H|]. split; [constructor | simpl; lia].
Qed.

Lemma sends_ret {A} (P : request -> Prop) (a : A) : sends_within P 0 (ret a).
Proof. apply sends_nothing. reflexivity. Qed.

Lemma sends_raise {A} (P : request -> Prop) (e : exn) :
  sends_within P 0 (@raise A e).
Proof. apply sends_nothing. reflexivity. Qed.

Lemma sends_lift {A} (P : request -> Prop) (r : result A) :
  sends_within P 0 (lift r).
Proof. apply sends_nothing. reflexivity. Qed.

Lemma sends_bind {A B} (P : request -> Prop) (n m : nat)
    (c : M A) (k : A -> M B) :
  sends_within P n c -> (forall a, sends_within P m (k a)) ->
  sends_within P (n + m) (mbind c k).
Proof.
  intros Hc Hk w. destruct (Hc w) as (l1 & H1 & HP1 & Hn1).
  unfold mbind. destruct (c w) as [[a|e] w1]; cbn [snd] in *.
  - destruct (Hk a w1) as (l2 & H2 & HP2 & Hn2).
    exists (l1 ++ l2). rewrite H2, H1, app_assoc.
    split; [reflexivity|]. split; [apply Forall_app; split; assumption|].
    rewrite length_app. lia.
  - exists l1. split; [exact H1|]. split; [exact HP1 | lia].
Qed.

Lemma sends_weaken {A} (P : request -> Prop) (n n' : nat) (c : M A) :
  sends_within P n c -> (n <= n')%nat -> sends_within P n' c.
Proof.
  intros Hc Hn w. destruct (Hc w) as (l & H1 & HP & Hl).
  exists l. split; [exact H1|]. split; [exact HP | lia].
Qed.

Lemma sends_mfor_each {A B} (P : request -> Prop) (body : A -> M B) (l : list A) :
  (forall x, sends_within P 0 (body x)) -> sends_within P 0 (mfor_each body l).
Proof.
  intros Hbody. induction l as [|x rest IH]; simpl.
  - apply sends_ret.
  - apply (sends_bind P 0 0); [apply Hbody|]. intros y.
    apply (sends_bind P 0 0); [exact IH|]. intros ys. apply sends_ret.
Qed.

(** [c] only adds requests to the log. *)
Definition grows {A} (c : M A) : Prop :=
  forall w, exists l, requests (snd (c w)) = requests w ++ l.

(** Whenever [c] returns, it has sent a request to [url]. *)
Definition asks {A} (url : string) (c : M A) : Prop :=
  forall w a w', c w = (Ok a, w') ->
    exists l, requests w' = requests w ++ l /\ In url (map req_url l).

Lemma sends_grows {A} (P : request -> Prop) (n : nat) (c : M A) :
  sends_within P n c -> grows c.
Proof. intros H w. destruct (H w) as (l & Hl & _). exists l. exact Hl. Qed.

Lemma grows_ret {A} (a : A) : grows (ret a).
Proof. intros w. exists []. rewrite app_nil_r. reflexivity. Qed.

Lemma grows_lift {A} (r : result A) : grows (lift r).
Proof. intros w. exists []. rewrite app_nil_r. reflexivity. Qed.

Lemma grows_bind {A B} (c : M A) (k : A -> M B) :
  grows c -> (forall a, grows (k a)) -> grows (mbind c k).
Proof.
  intros Hc Hk w. destruct (Hc w) as (l1 & H1).
  unfold mbind. destruct (c w) as [[a|e] w1]; cbn [snd] in *.
  - destruct (Hk a w1) as (l2 & H2). exists (l1 ++ l2).
    rewrite H2, H1, app_assoc. reflexivity.
  - exists l1. exact H1.
Qed.

Lemma asks_first {A B} (url : string) (c : M A) (k : A -> M B) :
  asks url c -> (forall a, grows (k a)) -> asks url (mbind c k).
Proof.
  intros Hc Hk w b w' H. apply mbind_inv in H. destruct H as (a & w1 & Ha & Hb).
  destruct (Hc w a w1 Ha) as (l1 & H1 & Hin).
  destruct (Hk a w1) as (l2 & H2). rewrite Hb in H2. cbn [snd] in H2.
  exists (l1 ++ l2). rewrite H2, H1, app_assoc. split; [reflexivity|].
  rewrite map_app. apply in_or_app. left. exact Hin.
Qed.

Lemma asks_later {A B} (url : string) (c : M A) (k : A -> M B) :
  grows c -> (forall a, asks url (k a)) -> asks url (mbind c k).
Proof.
  intros Hc Hk w b w' H. apply mbind_inv in H. destruct H as (a & w1 & Ha & Hb).
  destruct (Hc w) as (l1 & H1). rewrite Ha in H1. cbn [snd] in H1.
  destruct (Hk a w1 b w' Hb) as (l2 & H2 & Hin).
  exists (l1 ++ l2). rewrite H2, H1, app_assoc. split; [reflexivity|].
  rewrite map_app. apply in_or_app. right. exact Hin.
Qed.

Lemma quiet_ret {A} (a : A) : quiet (ret a).
Proof. intros w. reflexivity. Qed.

Lemma quiet_raise {A} (e : exn) : quiet (@raise A e).
Proof. intros w. reflexivity. Qed.

Lemma quiet_lift {A} (r : result A) : quiet (lift r).
Proof. intros w. reflexivity. Qed.

Lemma quiet_bind {A B} (c : M A) (k : A -> M B) :
  quiet c -> (forall a, quiet (k a)) -> quiet (mbind c k).
Proof.
  intros Hc Hk w. specialize (Hc w). unfold mbind.
  destruct (c w) as [[a|e] w1]; cbn [snd] in *.
  - rewrite (Hk a w1). exact Hc.
  - exact Hc.
Qed.

Lemma quiet_mfor_each {A B} (body : A -> M B) (l : list A) :
  (forall x, quiet (body x)) -> quiet (mfor_each body l).
Proof.
  intros Hbody. induction l as [|x rest IH]; simpl.
  - apply quiet_ret.
  - apply quiet_bind; [apply Hbody|]. intros y.
    apply quiet_bind; [exact IH|]. intros ys. apply quiet_ret.
Qed.

End World.

(* ================================================================== *)
(** * The fetch client: [_get_json] under [@retry] *)
(* ================================================================== *)

Module Fetch.
Import Py World.

Section Client.
Context {L : Library}.
Variable o : oracle.
Variable settings : Settings.

(** [await client.get(...)]: the request goes out and the world answers. *)
Definition client_get (req : request) : M response :=
  fun w =>
    match answer o (List.length (requests w)) req with
    | Responds r => (Ok r, sent req w)
    | Fails e => (Raise e, sent req w)
    end.

(** [r.raise_for_status()]: any status outside 2xx raises an
    [HTTPStatusError], an [httpx.HTTPError] that carries the response. *)
Definition raise_for_status (req : request) (r : response) : result unit :=
  if (200 <=? status_code r) && (status_code r <=? 299) then Ok tt
  else Raise (HTTPError (status_error_message (status_code r) (req_url req))
                        (ResponseAttr (Some (status_code r)))).

(** [r.json()] *)
Definition json_of (r : response) : result json :=
  match json_body r with
  | Some v => Ok v
  | None => Raise ValueError
  end.

(** The [try] block of [_get_json]. *)
Definition get_json_try (req : request) : M json :=
  r <~ client_get req ;;
  if 500 <=? status_code r
  then raise (ExternalError ("Server error " ++ str_of_int (status_code r)))
  else
    _ <~ lift (raise_for_status req r) ;;
    lift (json_of r).

(** The [except httpx.HTTPError as e] clause. *)
Definition get_json_except (msg : string) (resp : response_attr) : result json :=
  match resp with
  | NoResponseAttr => Raise (AttributeError "response")
  | ResponseAttr code =>
      match code with
      | Some 404 => Raise (HTTPError msg resp)
      | _ => Raise (ExternalError msg)
      end
  end.

(** The undecorated function: one attempt. *)
Definition get_json_once (req : request) : M json :=
  fun w =>
    match get_json_try req w with
    | (Raise (HTTPError msg resp), w') => (get_json_except msg resp, w')
    | other => other
    end.

(** The [@retry] decorator: an attempt that raises [ExternalError] is
    repeated until [stop_after_attempt] says stop, and then the last
    exception is raised again ([reraise=True]); anything else an attempt
    returns or raises goes to the caller at once.  [more] counts the
    attempts still allowed after the next one.  The waits between
    attempts take time and change nothing else. *)
Fixpoint retrying (more : nat) (req : request) : M json :=
  fun w =>
    match get_json_once req w with
    | (Raise (ExternalError msg), w') =>
        match more with
        | O => (Raise (ExternalError msg), w')
        | S k => retrying k req w'
        end
    | other => other
    end.

(** [stop_after_attempt(settings.MAX_RETRIES)]: the first attempt is always
    made. *)
Definition attempts_allowed : nat := S (Z.to_nat (MAX_RETRIES settings - 1)).

Definition _get_json (req : request) : M json :=
  retrying (Z.to_nat (MAX_RETRIES settings - 1)) req.

(** [_timeout()] *)
Definition _timeout : Z := REQUEST_TIMEOUT_SECONDS settings.

(** ** One attempt *)

(** A status in 400..499. *)
Definition client_error (code : Z) : Prop := 400 <= code <= 499.

(** Every attempt sends exactly one request. *)
Lemma get_json_once_sends_one (req : request) (w : world) :
  snd (get_json_once req w) = sent req w.
Proof.
  unfold get_json_once, get_json_try, mbind, client_get, lift, raise.
  destruct (answer o (List.length (requests w)) req) as [r|e].
  - destruct (500 <=? status_code r); [reflexivity|].
    destruct (raise_for_status req r) as [[]|e].
    + destruct (json_of r) as [v|e]; [reflexivity|]. destruct e; reflexivity.
    + destruct e; reflexivity.
  - destruct e; reflexivity.
Qed.

(** A status that is an error and is not 404: anything outside 2xx but
    404, the other 4xx and the 5xx among them. *)
Definition retried_status (code : Z) : Prop :=
  (code < 200 \/ 300 <= code) /\ code <> 404.

Lemma get_json_except_other (msg : string) (code : Z) :
  code <> 404 ->
  get_json_except msg (ResponseAttr (Some code)) = Raise (ExternalError msg).
Proof.
  intros Hne. unfold get_json_except.
  destruct code as [|c|c]; try reflexivity.
  destruct (Pos.eq_dec c 404) as [->|Hc]; [contradiction Hne; reflexivity|].
  repeat (destruct c as [c|c|]; try reflexivity; try congruence).
Qed.

(** The handler lets an [httpx] exception through only when its response
    has status 404. *)
Lemma get_json_except_http (msg msg' : string) (resp resp' : response_attr) :
  get_json_except msg resp = Raise (HTTPError msg' resp') ->
  resp' = ResponseAttr (Some 404).
Proof.
  destruct resp as [|[code|]]; try (cbn; discriminate).
  destruct (Z.eq_dec code 404) as [->|Hne].
  - cbn. intros [= _ <-]. reflexivity.
  - rewrite (get_json_except_other msg code Hne). discriminate.
Qed.

Lemma get_json_once_retried (req : request) (w : world) (r : response) :
  answer o (List.length (requests w)) req = Responds r ->
  retried_status (status_code r) ->
  exists msg, get_json_once req w = (Raise (ExternalError msg), sent req w).
Proof.
  intros Ha [Hout Hne].
  unfold get_json_once, get_json_try, mbind, client_get. rewrite Ha.
  destruct (500 <=? status_code r) eqn:E5; [eexists; reflexivity|].
  unfold lift, raise_for_status.
  replace ((200 <=? status_code r) && (status_code r <=? 299)) with false
    by (symmetry; apply andb_false_iff;
        destruct Hout; [left; apply Z.leb_gt | right; apply Z.leb_gt]; lia).
  cbn [mbind]. rewrite (get_json_except_other _ _ Hne).
  eexists. reflexivity.
Qed.

Lemma get_json_once_http_error (req : request) (w : world)
    (msg : string) (resp : response_attr) :
  fst (get_json_once req w) = Raise (HTTPError msg resp) ->
  resp = ResponseAttr (Some 404).
Proof.
  unfold get_json_once.
  destruct (get_json_try req w) as [[v|e] w']; [discriminate|].
  destruct e; try discriminate.
  cbn [fst]. apply get_json_except_http.
Qed.

Lemma get_json_once_not_found (req : request) (w : world) (r : response) :
  answer o (List.length (requests w)) req = Responds r ->
  status_code r = 404 ->
  get_json_once req w =
    (Raise (HTTPError (status_error_message 404 (req_url req))
                      (ResponseAttr (Some 404))),
     sent req w).
Proof.
  intros Ha Hc.
  unfold get_json_once, get_json_try, mbind, client_get. rewrite Ha.
  unfold lift, raise_for_status. rewrite Hc. reflexivity.
Qed.

Lemma get_json_once_server_error (req : request) (w : world) (r : response) :
  answer o (List.length (requests w)) req = Responds r ->
  500 <= status_code r ->
  get_json_once req w =
    (Raise (ExternalError ("Server error " ++ str_of_int (status_code r))),
     sent req w).
Proof.
  intros Ha Hc.
  unfold get_json_once, get_json_try, mbind, client_get. rewrite Ha.
  apply Z.leb_le in Hc. rewrite Hc. reflexivity.
Qed.

Lemma get_json_once_success (req : request) (w : world) (r : response) (v : json) :
  answer o (List.length (requests w)) req = Responds r ->
  200 <= status_code r <= 299 -> json_body r = Some v ->
  get_json_once req w = (Ok v, sent req w).
Proof.
  intros Ha [Hlo Hhi] Hb.
  unfold get_json_once, get_json_try, mbind, client_get. rewrite Ha.
  destruct (500 <=? status_code r) eqn:E5; [apply Z.leb_le in E5; lia|].
  unfold lift, raise_for_status, json_of.
  apply Z.leb_le in Hlo. apply Z.leb_le in Hhi. rewrite Hlo, Hhi, Hb.
  reflexivity.
Qed.

(** ** The retry loop *)

(** Only an [ExternalError] starts another attempt. *)
Definition is_external (r : result json) : bool :=
  match r with
  | Raise (ExternalError _) => true
  | _ => false
  end.

Lemma retrying_stops (more : nat) (req : request) (w : world) :
  is_external (fst (get_json_once req w)) = false ->
  retrying more req w = get_json_once req w.
Proof.
  intros H. destruct more; simpl;
    destruct (get_json_once req w) as [[v|e] w']; try reflexivity;
    destruct e; try reflexivity; discriminate.
Qed.

Lemma retrying_again (more : nat) (req : request) (w : world) :
  is_external (fst (get_json_once req w)) = true ->
  retrying (S more) req w = retrying more req (sent req w).
Proof.
  intros H. rewrite <- get_json_once_sends_one. simpl.
  destruct (get_json_once req w) as [[v|e] w']; [discriminate|].
  destruct e; try discriminate. reflexivity.
Qed.

Lemma retrying_last (req : request) (w : world) :
  retrying 0 req w = get_json_once req w.
Proof.
  simpl. destruct (get_json_once req w) as [[v|e] w']; [reflexivity|].
  destruct e; reflexivity.
Qed.

Fixpoint sent_times (n : nat) (req : request) (w : world) : world :=
  match n with
  | O => w
  | S k => sent_times k req (sent req w)
  end.

Lemma sent_times_requests (n : nat) (req : request) (w : world) :
  requests (sent_times n req w) = requests w ++ repeat req n.
Proof.
  revert w. induction n as [|n IH]; intros w; simpl.
  - rewrite app_nil_r. reflexivity.
  - rewrite IH. simpl. rewrite <- app_assoc. reflexivity.
Qed.

Lemma sent_requests_length (req : request) (w : world) :
  List.length (requests (sent req w)) = S (List.length (requests w)).
Proof. unfold sent. cbn. rewrite length_app. simpl. lia. Qed.

Lemma retrying_footprint (more : nat) (req : request) (w : world) :
  exists n, (1 <= n <= S more)%nat /\
            snd (retrying more req w) = sent_times n req w.
Proof.
  revert w. induction more as [|more IH]; intros w.
  - exists 1%nat. split; [lia|].
    rewrite retrying_last. apply get_json_once_sends_one.
  - destruct (is_external (fst (get_json_once req w))) eqn:E.
    + rewrite (retrying_again more req w E).
      destruct (IH (sent req w)) as (n & Hn & ->).
      exists (S n). split; [lia | reflexivity].
    + rewrite (retrying_stops (S more) req w E).
      exists 1%nat. split; [lia | apply get_json_once_sends_one].
Qed.

(** When each of the answers consulted is an error other than 404, every
    allowed attempt is made and the caller gets the [ExternalError] of the
    last one. *)
Lemma retrying_errors (more : nat) (req : request) (w : world) :
  (forall j, (j <= more)%nat ->
     exists r, answer o (List.length (requests w) + j) req = Responds r /\
               retried_status (status_code r)) ->
  exists msg,
    retrying more req w = (Raise (ExternalError msg), sent_times (S more) req w).
Proof.
  revert w. induction more as [|more IH]; intros w Hall.
  - destruct (Hall 0%nat ltac:(lia)) as (r & Ha & Hc).
    rewrite Nat.add_0_r in Ha.
    destruct (get_json_once_retried req w r Ha Hc) as (msg & H1).
    rewrite retrying_last, H1. exists msg. reflexivity.
  - destruct (Hall 0%nat ltac:(lia)) as (r & Ha & Hc).
    rewrite Nat.add_0_r in Ha.
    destruct (get_json_once_retried req w r Ha Hc) as (msg0 & H1).
    rewrite retrying_again by (rewrite H1; reflexivity).
    destruct (IH (sent req w)) as (msg & ->).
    + intros j Hj. rewrite sent_requests_length.
      destruct (Hall (S j) ltac:(lia)) as (r' & Hr' & Hc').
      exists r'. split; [|exact Hc'].
      replace (S (List.length (requests w)) + j)%nat
        with (List.length (requests w) + S j)%nat by lia.
      exact Hr'.
    + exists msg. reflexivity.
Qed.

Lemma sent_times_last (k : nat) (req : request) (w : world) :
  sent req (sent_times k req w) = sent_times (S k) req w.
Proof.
  revert w. induction k as [|k IH]; intros w; [reflexivity|].
  cbn [sent_times]. rewrite IH. reflexivity.
Qed.

Lemma sent_times_length (k : nat) (req : request) (w : world) :
  List.length (requests (sent_times k req w)) = (List.length (requests w) + k)%nat.
Proof. rewrite sent_times_requests, length_app, repeat_length. reflexivity. Qed.

(** Attempts answered with errors other than 404 are used up one by
    one. *)
Lemma retrying_after_errors (k more : nat) (req : request) (w : world) :
  (forall j, (j < k)%nat ->
     exists r, answer o (List.length (requests w) + j) req = Responds r /\
               retried_status (status_code r)) ->
  retrying (k + more) req w = retrying more req (sent_times k req w).
Proof.
  revert w. induction k as [|k IH]; intros w Hall; [reflexivity|].
  destruct (Hall 0%nat ltac:(lia)) as (r & Ha & Hc).
  rewrite Nat.add_0_r in Ha.
  destruct (get_json_once_retried req w r Ha Hc) as (msg0 & H1).
  cbn [Nat.add]. rewrite retrying_again by (rewrite H1; reflexivity).
  cbn [sent_times]. apply IH.
  intros j Hj. rewrite sent_requests_length.
  destruct (Hall (S j) ltac:(lia)) as (r' & Hr' & Hc').
  exists r'. split; [|exact Hc'].
  replace (S (List.length (requests w)) + j)%nat
    with (List.length (requests w) + S j)%nat by lia.
  exact Hr'.
Qed.

(** Whatever the attempts were, an [httpx] exception that comes out of the
    loop carries a 404 response. *)
Lemma retrying_http_error (more : nat) (req : request) (w : world)
    (msg : string) (resp : response_attr) :
  fst (retrying more req w) = Raise (HTTPError msg resp) ->
  resp = ResponseAttr (Some 404).
Proof.
  revert w. induction more as [|more IH]; intros w H.
  - rewrite retrying_last in H. apply (get_json_once_http_error req w msg). exact H.
  - destruct (is_external (fst (get_json_once req w))) eqn:E.
    + rewrite (retrying_again more req w E) in H. apply (IH _ H).
    + rewrite (retrying_stops (S more) req w E) in H.
      apply (get_json_once_http_error req w msg). exact H.
Qed.

Lemma attempts_allowed_max : attempts_allowed = Z.to_nat (Z.max 1 (MAX_RETRIES settings)).
Proof. unfold attempts_allowed. lia. Qed.

(** C4, as the code has it.  An answer whose status is an error other
    than 404, a 4xx included, is turned into the transient [ExternalError]
    and retried like a 5xx: the attempt raises [ExternalError], a second
    request follows as soon as two attempts are allowed, and when each of
    the [max(1, MAX_RETRIES)] answers is such an error all attempts are
    made and the caller gets the [ExternalError] of the last.  Only a 404
    reaches the caller as the [httpx] exception itself: a 404 answer ends
    the call at once, on the first attempt after a single request and on
    a later attempt without a further one, and an [httpx] exception that
    comes out of the call, after however many attempts, carries a 404
    response.  A
    further attempt is made only after an [ExternalError]: any other
    outcome of the first attempt is the outcome of the call, and more than
    one request means the first attempt raised [ExternalError]. *)
Theorem get_json_error_classes (req : request) (w : world) :
  (forall r, answer o (List.length (requests w)) req = Responds r ->
             retried_status (status_code r) ->
     (exists msg,
        get_json_once req w = (Raise (ExternalError msg), sent req w)) /\
     (2 <= MAX_RETRIES settings ->
        exists n, (2 <= n <= attempts_allowed)%nat /\
                  requests (snd (_get_json req w)) = requests w ++ repeat req n)) /\
  ((forall j, (j < attempts_allowed)%nat ->
      exists r, answer o (List.length (requests w) + j) req = Responds r /\
                retried_status (status_code r)) ->
   exists msg,
     _get_json req w =
       (Raise (ExternalError msg), sent_times attempts_allowed req w)) /\
  (forall k r,
     (k < attempts_allowed)%nat ->
     (forall j, (j < k)%nat ->
        exists r', answer o (List.length (requests w) + j) req = Responds r' /\
                   retried_status (status_code r')) ->
     answer o (List.length (requests w) + k) req = Responds r ->
     status_code r = 404 ->
     _get_json req w =
       (Raise (HTTPError (status_error_message 404 (req_url req))
                         (ResponseAttr (Some 404))),
        sent_times (S k) req w)) /\
  (forall msg resp, fst (_get_json req w) = Raise (HTTPError msg resp) ->
     resp = ResponseAttr (Some 404)) /\
  (is_external (fst (get_json_once req w)) = false ->
     _get_json req w = get_json_once req w /\
     snd (_get_json req w) = sent req w) /\
  (snd (_get_json req w) <> sent req w ->
     is_external (fst (get_json_once req w)) = true).
Proof.
  assert (Hstop : is_external (fst (get_json_once req w)) = false ->
                  _get_json req w = get_json_once req w /\
                  snd (_get_json req w) = sent req w).
  { intros H. unfold _get_json. rewrite (retrying_stops _ req w H).
    split; [reflexivity | apply get_json_once_sends_one]. }
  split; [|split; [|split; [|split; [|split]]]].
  - intros r Ha Hc.
    destruct (get_json_once_retried req w r Ha Hc) as (msg & H1).
    split; [exists msg; exact H1|].
    intros Hmax. unfold _get_json, attempts_allowed.
    destruct (Z.to_nat (MAX_RETRIES settings - 1)) as [|more] eqn:Emore; [lia|].
    rewrite retrying_again by (rewrite H1; reflexivity).
    destruct (retrying_footprint more req (sent req w)) as (n & Hn & ->).
    exists (S n). split; [lia|].
    rewrite sent_times_requests. cbn [sent requests repeat].
    rewrite <- app_assoc. reflexivity.
  - intros Hall. unfold _get_json, attempts_allowed.
    apply retrying_errors. intros j Hj. apply Hall.
    unfold attempts_allowed. lia.
  - intros k r Hk Hbefore Ha Hc. unfold _get_json.
    replace (Z.to_nat (MAX_RETRIES settings - 1))
      with (k + (Z.to_nat (MAX_RETRIES settings - 1) - k))%nat
      by (unfold attempts_allowed in Hk; lia).
    rewrite (retrying_after_errors k _ req w Hbefore).
    rewrite <- sent_times_length with (req := req) in Ha.
    pose proof (get_json_once_not_found req _ r Ha Hc) as H1.
    rewrite retrying_stops by (rewrite H1; reflexivity).
    rewrite H1, sent_times_last. reflexivity.
  - intros msg resp. unfold _get_json. apply retrying_http_error.
  - exact Hstop.
  - intros Hmore.
    destruct (is_external (fst (get_json_once req w))) eqn:E; [reflexivity|].
    destruct (Hstop eq_refl) as [_ H]. contradiction.
Qed.

End Client.

(** ** Running the client *)

Definition midnight : Calendar.datetime := Calendar.mkDatetime 739403 0 0 0.

(** A world where every request gets the same answer. *)
Definition always (out : get_outcome) : oracle :=
  {| answer := fun _ _ => out;
     utcnow_at := fun _ => midnight;
     llm_libraries := false;
     llm_client := fun _ => None;
     llm_reply := fun _ _ => Raise (OtherError "no model") |}.

Definition status_only (code : Z) : get_outcome :=
  Responds {| status_code := code; json_body := None |}.

Definition ping : request :=
  {| req_url := "https://api.example/v1";
     req_headers := None;
     req_params := [];
     req_timeout := 8 |}.

Example forbidden_is_retried :
  @_get_json plain_library (always (status_only 403)) default_settings ping initial_world =
  (Raise (ExternalError "HTTP status 403 for url https://api.example/v1"),
   {| requests := [ping; ping; ping]; clock_reads := 0; llm_prompts := [] |}).
Proof. vm_compute. reflexivity. Qed.

Example not_found_is_not_retried :
  @_get_json plain_library (always (status_only 404)) default_settings ping initial_world =
  (Raise (HTTPError "HTTP status 404 for url https://api.example/v1"
                    (ResponseAttr (Some 404))),
   {| requests := [ping]; clock_reads := 0; llm_prompts := [] |}).
Proof. vm_compute. reflexivity. Qed.

Example server_error_is_retried :
  @_get_json plain_library (always (status_only 503)) default_settings ping initial_world =
  (Raise (ExternalError "Server error 503"),
   {| requests := [ping; ping; ping]; clock_reads := 0; llm_prompts := [] |}).
Proof. vm_compute. reflexivity. Qed.

(** A transport failure whose exception has no [response] attribute ends
    in the [AttributeError] of the handler's [e.response]. *)
Example transport_error_without_response :
  @_get_json plain_library
     (always (Fails (HTTPError "timed out" NoResponseAttr)))
     default_settings ping initial_world =
  (Raise (AttributeError "response"),
   {| requests := [ping]; clock_reads := 0; llm_prompts := [] |}).
Proof. vm_compute. reflexivity. Qed.

Example zero_retries_still_one_attempt :
  snd (@_get_json plain_library (always (status_only 500))
         (mkSettings None None 8 0 "m" 0) ping initial_world) =
  {| requests := [ping]; clock_reads := 0; llm_prompts := [] |}.
Proof. vm_compute. reflexivity. Qed.

Lemma get_json_error_classes_witness :
  exists msg,
    @_get_json plain_library (always (status_only 403)) default_settings ping initial_world =
    (Raise (ExternalError msg),
     sent_times (attempts_allowed default_settings) ping initial_world).
Proof.
  apply (proj1 (proj2 (@get_json_error_classes plain_library
                         (always (status_only 403))
                         default_settings ping initial_world))).
  intros j _. eexists. split; [reflexivity|].
  unfold retried_status. simpl. split; [lia | discriminate].
Defined.

(** The sentence under test: a 4xx answer other than 404 reaches the
    caller as the [httpx] exception that [raise_for_status] built, after a
    single request. *)
Definition client_errors_are_permanent : Prop :=
  forall (L : Library) (o : oracle) (settings : Settings)
         (req : request) (w : world) (r : response),
    answer o (List.length (requests w)) req = Responds r ->
    client_error (status_code r) -> status_code r <> 404 ->
    _get_json o settings req w =
      (Raise (HTTPError (status_error_message (status_code r) (req_url req))
                        (ResponseAttr (Some (status_code r)))),
       sent req w).

(** C4, counterexample: with the default settings a 403 is requested three
    times and comes back as an [ExternalError]. *)
Lemma client_errors_are_not_permanent : ~ client_errors_are_permanent.
Proof.
  intros H.
  specialize (H plain_library (always (status_only 403)) default_settings
                ping initial_world {| status_code := 403; json_body := None |}
                eq_refl).
  rewrite forbidden_is_retried in H.
  assert (Hc : client_error 403) by (unfold client_error; lia).
  specialize (H Hc ltac:(discriminate)).
  discriminate H.
Qed.

(** ** More on the retry loop *)

Section Retries.
Context {L : Library}.
Variable o : oracle.
Variable settings : Settings.

Lemma sent_times_fields (n : nat) (req : request) (w : world) :
  requests (sent_times n req w) = requests w ++ repeat req n /\
  clock_reads (sent_times n req w) = clock_reads w /\
  llm_prompts (sent_times n req w) = llm_prompts w.
Proof.
  split; [apply sent_times_requests|].
  revert w. induction n as [|n IH]; intros w; simpl; [split; reflexivity|].
  destruct (IH (sent req w)) as [H1 H2]. rewrite H1, H2. split; reflexivity.
Qed.

Lemma get_json_sends (P : request -> Prop) (req : request) :
  P req ->
  sends_within P (Z.to_nat (Z.max 1 (MAX_RETRIES settings)))
    (_get_json o settings req).
Proof.
  intros HP w. unfold _get_json.
  destruct (retrying_footprint o (Z.to_nat (MAX_RETRIES settings - 1)) req w)
    as (n & Hn & ->).
  exists (repeat req n). split; [apply sent_times_requests|].
  split; [|rewrite repeat_length; lia].
  apply Forall_forall. intros x Hx. apply repeat_spec in Hx. subst x. exact HP.
Qed.

Lemma get_json_quiet (req : request) : quiet (_get_json o settings req).
Proof.
  intros w. unfold _get_json.
  destruct (retrying_footprint o (Z.to_nat (MAX_RETRIES settings - 1)) req w)
    as (n & _ & ->).
  apply sent_times_fields.
Qed.

(** X1. Whatever the provider answers, one call of [_get_json] sends the
    same request at least once and at most [max(1, MAX_RETRIES)] times, and
    does nothing else to the world: it reads no clock and prompts no
    model. *)
Theorem get_json_footprint (req : request) (w : world) :
  exists n,
    (1 <= n <= Z.to_nat (Z.max 1 (MAX_RETRIES settings)))%nat /\
    requests (snd (_get_json o settings req w)) = requests w ++ repeat req n /\
    clock_reads (snd (_get_json o settings req w)) = clock_reads w /\
    llm_prompts (snd (_get_json o settings req w)) = llm_prompts w.
Proof.
  unfold _get_json.
  destruct (retrying_footprint o (Z.to_nat (MAX_RETRIES settings - 1)) req w)
    as (n & Hn & ->).
  exists n. split; [lia|]. apply sent_times_fields.
Qed.

Lemma retrying_exhausted (more : nat) (req : request) (w : world) (msg : string) :
  fst (retrying o more req w) = Raise (ExternalError msg) ->
  snd (retrying o more req w) = sent_times (S more) req w.
Proof.
  revert w. induction more as [|more IH]; intros w H.
  - rewrite retrying_last. apply get_json_once_sends_one.
  - destruct (is_external (fst (get_json_once o req w))) eqn:E.
    + rewrite (retrying_again o more req w E) in *.
      rewrite (IH (sent req w) H). reflexivity.
    + rewrite (retrying_stops o (S more) req w E) in H.
      rewrite H in E. discriminate E.
Qed.

(** X2. An [ExternalError] reaches the caller of [_get_json] only when
    the attempts are used up: exactly [max(1, MAX_RETRIES)] requests have
    then been sent. *)
Theorem get_json_external_error_is_last_resort (req : request) (w : world)
    (msg : string) :
  fst (_get_json o settings req w) = Raise (ExternalError msg) ->
  requests (snd (_get_json o settings req w)) =
    requests w ++ repeat req (Z.to_nat (Z.max 1 (MAX_RETRIES settings))).
Proof.
  unfold _get_json. intros H.
  rewrite (retrying_exhausted _ req w msg H), sent_times_requests.
  f_equal. f_equal. lia.
Qed.

Lemma retrying_recovers (k more : nat) (req : request) (w : world)
    (r : response) (data : json) :
  (k <= more)%nat ->
  (forall j, (j < k)%nat ->
     exists r', answer o (List.length (requests w) + j) req = Responds r' /\
                500 <= status_code r') ->
  answer o (List.length (requests w) + k) req = Responds r ->
  200 <= status_code r <= 299 -> json_body r = Some data ->
  retrying o more req w = (Ok data, sent_times (S k) req w).
Proof.
  revert more w. induction k as [|k IH]; intros more w Hk Hbad Hgood Hc Hb.
  - rewrite Nat.add_0_r in Hgood.
    pose proof (get_json_once_success o req w r data Hgood Hc Hb) as H1.
    rewrite retrying_stops by (rewrite H1; reflexivity). exact H1.
  - destruct more as [|more]; [lia|].
    destruct (Hbad 0%nat ltac:(lia)) as (r0 & H0 & Hc0).
    rewrite Nat.add_0_r in H0.
    rewrite retrying_again
      by (rewrite (get_json_once_server_error o req w r0 H0 Hc0); reflexivity).
    apply (IH more (sent req w)); [lia| | |exact Hc|exact Hb].
    + intros j Hj. rewrite sent_requests_length.
      destruct (Hbad (S j) ltac:(lia)) as (r' & Hr' & Hc').
      exists r'. split; [|exact Hc'].
      replace (S (List.length (requests w)) + j)%nat
        with (List.length (requests w) + S j)%nat by lia.
      exact Hr'.
    + rewrite sent_requests_length.
      replace (S (List.length (requests w)) + k)%nat
        with (List.length (requests w) + S k)%nat by lia.
      exact Hgood.
Qed.

(** X3. A provider that answers 5xx [k] times and then with a 2xx JSON
    document is waited for, as long as [k] is below [max(1, MAX_RETRIES)]:
    [_get_json] returns that document after [k + 1] requests. *)
Theorem get_json_recovers (k : nat) (req : request) (w : world)
    (r : response) (data : json) :
  (k < Z.to_nat (Z.max 1 (MAX_RETRIES settings)))%nat ->
  (forall j, (j < k)%nat ->
     exists r', answer o (List.length (requests w) + j) req = Responds r' /\
                500 <= status_code r') ->
  answer o (List.length (requests w) + k) req = Responds r ->
  200 <= status_code r <= 299 -> json_body r = Some data ->
  fst (_get_json o settings req w) = Ok data /\
  requests (snd (_get_json o settings req w)) = requests w ++ repeat req (S k).
Proof.
  intros Hk Hbad Hgood Hc Hb. unfold _get_json.
  assert (Hk' : (k <= Z.to_nat (MAX_RETRIES settings - 1))%nat) by lia.
  rewrite (retrying_recovers k _ req w r data Hk' Hbad Hgood Hc Hb).
  split; [reflexivity | apply sent_times_requests].
Qed.

(** X4. A 2xx answer ends the call after a single request, whatever its
    body: the JSON document when there is one, and otherwise the
    [ValueError] of [r.json()], which is not retried. *)
Theorem get_json_success_is_final (req : request) (w : world) (r : response) :
  answer o (List.length (requests w)) req = Responds r ->
  200 <= status_code r <= 299 ->
  _get_json o settings req w =
    (match json_body r with Some data => Ok data | None => Raise ValueError end,
     sent req w).
Proof.
  intros Ha [Hlo Hhi].
  assert (H1 : get_json_once o req w = (json_of r, sent req w)).
  { unfold get_json_once, get_json_try, mbind, client_get. rewrite Ha.
    destruct (500 <=? status_code r) eqn:E5; [apply Z.leb_le in E5; lia|].
    unfold lift, raise_for_status.
    apply Z.leb_le in Hlo. apply Z.leb_le in Hhi. rewrite Hlo, Hhi. cbn.
    unfold json_of. destruct (json_body r); reflexivity. }
  unfold _get_json. rewrite retrying_stops.
  - rewrite H1. unfold json_of. destruct (json_body r); reflexivity.
  - rewrite H1. unfold json_of. destruct (json_body r); reflexivity.
Qed.

End Retries.

(** An oracle that answers the first [k] requests with [bad] and every
    later one with [good]. *)
Definition after_failures (k : nat) (bad good : get_outcome) : oracle :=
  {| answer := fun i _ => if (i <? k)%nat then bad else good;
     utcnow_at := fun _ => midnight;
     llm_libraries := false;
     llm_client := fun _ => None;
     llm_reply := fun _ _ => Raise (OtherError "no model") |}.

Definition pong : json := JDict [("ok", JBool true)].

Example recovery_on_third_attempt :
  @_get_json plain_library
     (after_failures 2 (status_only 503) (Responds (mkResponse 200 (Some pong))))
     default_settings ping initial_world =
  (Ok pong, {| requests := [ping; ping; ping]; clock_reads := 0; llm_prompts := [] |}).
Proof. vm_compute. reflexivity. Qed.

Example no_recovery_on_fourth_attempt :
  fst (@_get_json plain_library
         (after_failures 3 (status_only 503) (Responds (mkResponse 200 (Some pong))))
         default_settings ping initial_world) =
  Raise (ExternalError "Server error 503").
Proof. vm_compute. reflexivity. Qed.

(** A 403 is tried again like a 503, and the 404 that follows ends the
    call. *)
Example forbidden_then_not_found :
  @_get_json plain_library
     (after_failures 1 (status_only 403) (status_only 404))
     default_settings ping initial_world =
  (Raise (HTTPError "HTTP status 404 for url https://api.example/v1"
                    (ResponseAttr (Some 404))),
   {| requests := [ping; ping]; clock_reads := 0; llm_prompts := [] |}).
Proof. vm_compute. reflexivity. Qed.

(** A redirect that is not followed is an error status like the others. *)
Example redirect_is_retried :
  @_get_json plain_library
     (after_failures 1 (status_only 301) (Responds (mkResponse 200 (Some pong))))
     default_settings ping initial_world =
  (Ok pong, {| requests := [ping; ping]; clock_reads := 0; llm_prompts := [] |}).
Proof. vm_compute. reflexivity. Qed.

Lemma get_json_external_error_is_last_resort_witness :
  requests (snd (@_get_json plain_library (always (status_only 503))
                   default_settings ping initial_world)) =
  requests initial_world ++ repeat ping (Z.to_nat (Z.max 1 (MAX_RETRIES default_settings))).
Proof.
  apply (@get_json_external_error_is_last_resort plain_library
           (always (status_only 503)) default_settings ping initial_world
           "Server error 503").
  vm_compute. reflexivity.
Defined.

Lemma get_json_recovers_witness :
  fst (@_get_json plain_library
         (after_failures 2 (status_only 503) (Responds (mkResponse 200 (Some pong))))
         default_settings ping initial_world) = Ok pong /\
  requests (snd (@_get_json plain_library
         (after_failures 2 (status_only 503) (Responds (mkResponse 200 (Some pong))))
         default_settings ping initial_world)) =
    requests initial_world ++ repeat ping 3.
Proof.
  apply (@get_json_recovers plain_library
           (after_failures 2 (status_only 503) (Responds (mkResponse 200 (Some pong))))
           default_settings 2 ping initial_world (mkResponse 200 (Some pong)) pong).
  - vm_compute. lia.
  - intros j Hj. exists (mkResponse 503 None).
    destruct j as [|[|j]]; [| |lia]; (split; [reflexivity | simpl; lia]).
  - reflexivity.
  - simpl. lia.
  - reflexivity.
Defined.

Lemma get_json_success_is_final_witness :
  @_get_json plain_library (always (Responds (mkResponse 204 None)))
     default_settings ping initial_world =
  (Raise ValueError, sent ping initial_world).
Proof.
  apply (@get_json_success_is_final plain_library
           (always (Responds (mkResponse 204 None))) default_settings ping
           initial_world (mkResponse 204 None) eq_refl).
  simpl. lia.
Defined.

End Fetch.

(* ================================================================== *)
(** * Provider adapters *)
(* ================================================================== *)

Module Adapters.
Import Py Calendar Schema World Fetch.

Definition GEOCODE_URL : string := "https://geocoding-api.open-meteo.com/v1/search".
Definition FORECAST_URL : string := "https://api.open-meteo.com/v1/forecast".
Definition WIKI_SEARCH_URL (lang : string) : string :=
  ("https://" ++ lang ++ ".wikipedia.org/w/api.php")%string.
Definition TICKETMASTER_URL : string :=
  "https://app.ticketmaster.com/discovery/v2/events.json".
Definition HEADERS_WIKI : list (string * string) :=
  [("User-Agent", "TripPlanner/1.0 (github.com/example)")].

(** The dict that [geocode] returns; its values are whatever the
    upstream document holds. *)
Record GeoPlace := mkGeoPlace {
  geo_name : json;
  geo_country : json;
  geo_lat : json;
  geo_lon : json;
  geo_timezone : json
}.

(** ** Pydantic validation of the normalized records *)

Definition required_str (model : string) (v : json) : result string :=
  match v with
  | JStr s => Ok s
  | _ => Raise (ValidationError model)
  end.

Definition optional_str (model : string) (v : json) : result (option string) :=
  match v with
  | JNull => Ok None
  | JStr s => Ok (Some s)
  | _ => Raise (ValidationError model)
  end.

(** [code_to_text], the local function of [forecast]. *)
Definition code_to_text (c : Z) : string :=
  if c =? 0 then "Clear"
  else if existsb (Z.eqb c) [1; 2; 3] then "Partly cloudy"
  else if existsb (Z.eqb c) [45; 48] then "Fog"
  else if existsb (Z.eqb c) [51; 53; 55; 56; 57] then "Drizzle"
  else if existsb (Z.eqb c) [61; 63; 65; 66; 67] then "Rain"
  else if existsb (Z.eqb c) [71; 73; 75; 77] then "Snow"
  else if existsb (Z.eqb c) [80; 81; 82] then "Rain showers"
  else if existsb (Z.eqb c) [85; 86] then "Snow showers"
  else if existsb (Z.eqb c) [95; 96; 99] then "Thunderstorm"
  else "Mixed".

Section Normalize.
Context {L : Library}.

(** The body of the [for i, d in enumerate(dates[:days])] loop: the
    keyword arguments are evaluated in the order written, then the model
    is validated. *)
Definition weather_row (maxs mins precs codes : json) (row : Z * json)
    : result WeatherDaily :=
  let '(i, d) := row in
  mx <- getitem_int maxs i ;;
  temp_day <- to_float mx ;;
  mn <- getitem_int mins i ;;
  temp_night <- to_float mn ;;
  pr <- getitem_int precs i ;;
  precipitation <- to_float pr ;;
  cd <- getitem_int codes i ;;
  c <- to_int cd ;;
  let condition := code_to_text c in
  date_str <- required_str "WeatherDaily" d ;;
  Ok {| date := date_str;
        temp_day_c := temp_day;
        temp_night_c := temp_night;
        condition := condition;
        precipitation_mm := precipitation |}.

(** The loop of [forecast] over the five arrays. *)
Definition forecast_rows (dates maxs mins precs codes : json) (days : Z)
    : result (list WeatherDaily) :=
  items <- sliced_items dates days ;;
  for_each (weather_row maxs mins precs codes) (enumerate items).

(** [forecast] after the fetch. *)
Definition normalize_forecast (data : json) (days : Z) : result (list WeatherDaily) :=
  d0 <- get data "daily" JNull ;;
  let daily := py_or d0 (JDict []) in
  dates <- get daily "time" (JList []) ;;
  maxs <- get daily "temperature_2m_max" (JList []) ;;
  mins <- get daily "temperature_2m_min" (JList []) ;;
  precs <- get daily "precipitation_sum" (JList []) ;;
  codes <- get daily "weathercode" (JList []) ;;
  forecast_rows dates maxs mins precs codes days.

(** The body of the [for e in events] loop of [ticketmaster_events]. *)
Definition event_of (e : json) : result Event :=
  title <- get e "name" JNull ;;
  url <- get e "url" JNull ;;
  d0 <- get e "dates" (JDict []) ;;
  dates <- get d0 "start" (JDict []) ;;
  local_date <- get dates "localDate" JNull ;;
  date_time <- get dates "dateTime" JNull ;;
  let start_local := py_or local_date (py_or date_time (JStr "")) in
  e0 <- get e "_embedded" (JDict []) ;;
  ev <- get e0 "venues" (JList []) ;;
  venue <- (if truthy ev
            then v0 <- getitem_int ev 0 ;; get v0 "name" JNull
            else Ok JNull) ;;
  title' <- required_str "Event" title ;;
  start_local' <- required_str "Event" start_local ;;
  venue' <- optional_str "Event" venue ;;
  url' <- optional_str "Event" url ;;
  Ok {| title := title'; start_local := start_local'; venue := venue'; ev_url := url' |}.

(** [data.get("_embedded", {}).get("events", [])] *)
Definition embedded_events (data : json) : result json :=
  emb <- get data "_embedded" (JDict []) ;;
  get emb "events" (JList []).

(** [ticketmaster_events] after the fetch. *)
Definition normalize_events (data : json) : result (list Event) :=
  events <- embedded_events data ;;
  items <- iter_items events ;;
  for_each event_of items.

(** [geocode] after the fetch. *)
Definition normalize_geocode (data : json) : result GeoPlace :=
  r0 <- get data "results" JNull ;;
  let results := py_or r0 (JList []) in
  if negb (truthy results)
  then Raise (HTTPException 404 "Destination not found")
  else
    top <- getitem_int results 0 ;;
    nm <- get top "name" JNull ;;
    country <- get top "country" JNull ;;
    lat <- getitem_key top "latitude" ;;
    lon <- getitem_key top "longitude" ;;
    tz <- get top "timezone" JNull ;;
    Ok {| geo_name := nm;
          geo_country := country;
          geo_lat := lat;
          geo_lon := lon;
          geo_timezone := py_or tz (JStr "UTC") |}.

(** The inner [for g in pages] loop of [wiki_pois]: the distance of the
    first page of the search with the same page id. *)
Fixpoint distance_of (pages : list json) (p : json) : result (option float) :=
  match pages with
  | [] => Ok None
  | g :: rest =>
      gid <- getitem_key g "pageid" ;;
      pid <- getitem_key p "pageid" ;;
      if py_eq gid pid
      then
        dist <- get g "dist" (JFloat 0) ;;
        km <- true_div dist 1000 ;;
        Ok (Some (round_to km 2))
      else distance_of rest p
  end.

(** The body of the [for p in pages_det] loop of [wiki_pois]. *)
Definition poi_of (pages : list json) (p : json) : result POI :=
  nm <- get p "title" JNull ;;
  extract <- get p "extract" JNull ;;
  summary <- match py_or extract (JStr "") with
             | JStr s => Ok (str_strip s)
             | _ => Raise (AttributeError "strip")
             end ;;
  url <- get p "fullurl" JNull ;;
  dkm <- distance_of pages p ;;
  nm' <- required_str "POI" nm ;;
  url' <- optional_str "POI" url ;;
  Ok {| name := nm';
        summary := Some (str_prefix summary 600);
        distance_km := dkm;
        url := url' |}.

(** [.values()] of a dict. *)
Definition values (v : json) : result (list json) :=
  match v with
  | JDict d => Ok (map snd d)
  | _ => Raise (AttributeError "values")
  end.

(** ** The forecast loop and the lengths of the arrays *)

(** The [daily] object of an Open-Meteo answer with its five arrays. *)
Definition daily_document (ds ms ns ps cs : list json) : json :=
  JDict [("daily",
          JDict [("time", JList ds);
                 ("temperature_2m_max", JList ms);
                 ("temperature_2m_min", JList ns);
                 ("precipitation_sum", JList ps);
                 ("weathercode", JList cs)])].















(** ** The first read that fails *)





End Normalize.

(** ** Running the forecast normalization *)

Definition two_dates : list json := [JStr "2025-06-01"; JStr "2025-06-02"].

Example forecast_two_days :
  @normalize_forecast plain_library
    (daily_document two_dates [JFloat 28.5; JInt 9] [JFloat 17; JFloat 3.5]
       [JFloat 0; JFloat 5.2] [JInt 0; JInt 63; JInt 95]) 2 =
  Ok [mkWeatherDaily "2025-06-01" 28.5 17 "Clear" 0;
      mkWeatherDaily "2025-06-02" 9 3.5 "Rain" 5.2].
Proof. vm_compute. reflexivity. Qed.

(** More dates than requested: the rest is cut off. *)
Example forecast_truncates :
  @normalize_forecast plain_library
    (daily_document two_dates [JFloat 28.5; JInt 9] [JFloat 17; JFloat 3.5]
       [JFloat 0; JFloat 5.2] [JInt 0; JInt 63]) 1 =
  Ok [mkWeatherDaily "2025-06-01" 28.5 17 "Clear" 0].
Proof. vm_compute. reflexivity. Qed.

(** Fewer dates than requested: the shorter sequence is returned. *)
Example forecast_fewer_dates :
  @normalize_forecast plain_library
    (daily_document [JStr "2025-06-01"] [JFloat 28.5] [JFloat 17] [JFloat 0] [JInt 0]) 3 =
  Ok [mkWeatherDaily "2025-06-01" 28.5 17 "Clear" 0].
Proof. vm_compute. reflexivity. Qed.

Example forecast_short_precipitation :
  @normalize_forecast plain_library
    (daily_document two_dates [JFloat 28.5; JInt 9] [JFloat 17; JFloat 3.5]
       [JFloat 0] [JInt 0; JInt 63]) 2 =
  Raise IndexError.
Proof. vm_compute. reflexivity. Qed.


(** The minimum array has no entry at all: the first row already fails
    with [IndexError], and the [null] of the second row is never read. *)
Example forecast_short_before_null :
  @normalize_forecast plain_library
    (daily_document two_dates [JFloat 1; JNull] [] [JFloat 0] [JInt 0]) 2 =
  Raise IndexError.
Proof. vm_compute. reflexivity. Qed.




Section Calls.
Context {L : Library}.
Variable o : oracle.
Variable settings : Settings.

Definition fetch (url : string) (headers : option (list (string * string)))
    (params : list (string * json)) : M json :=
  _get_json o settings
    {| req_url := url;
       req_headers := headers;
       req_params := params;
       req_timeout := _timeout settings |}.

Definition geocode (place : string) : M GeoPlace :=
  let params := [("name", JStr place); ("count", JInt 1);
                 ("language", JStr "en"); ("format", JStr "json")] in
  data <~ fetch GEOCODE_URL None params ;;
  lift (normalize_geocode data).

Definition forecast (lat lon : json) (days : Z) (timezone : json)
    : M (list WeatherDaily) :=
  let params :=
    [("latitude", lat); ("longitude", lon);
     ("daily", JStr "weathercode,temperature_2m_max,temperature_2m_min,precipitation_sum");
     ("timezone", timezone)] in
  data <~ fetch FORECAST_URL None params ;;
  lift (normalize_forecast data days).

Definition wiki_pois (lat lon : json) (radius_m max_items : Z) (lang : string)
    : M (list POI) :=
  let params :=
    [("action", JStr "query"); ("list", JStr "geosearch");
     ("gscoord", JStr (str_of lat ++ "|" ++ str_of lon));
     ("gsradius", JInt radius_m); ("gslimit", JInt max_items);
     ("format", JStr "json")] in
  let base := WIKI_SEARCH_URL lang in
  geo <~ fetch base (Some HEADERS_WIKI) params ;;
  q <~ lift (get geo "query" (JDict [])) ;;
  pages <~ lift (get q "geosearch" (JList [])) ;;
  if negb (truthy pages) then ret []
  else
    page_items <~ lift (iter_items pages) ;;
    pageids <~ lift (for_each (fun p => id <- getitem_key p "pageid" ;; Ok (str_of id))
                       page_items) ;;
    let params2 :=
      [("action", JStr "query"); ("prop", JStr "extracts|info");
       ("pageids", JStr (String.concat "|" pageids));
       ("exintro", JInt 1); ("explaintext", JInt 1);
       ("inprop", JStr "url"); ("format", JStr "json")] in
    det <~ fetch base (Some HEADERS_WIKI) params2 ;;
    q2 <~ lift (get det "query" (JDict [])) ;;
    pg <~ lift (get q2 "pages" JNull) ;;
    pages_det <~ lift (values (py_or pg (JDict []))) ;;
    lift (for_each (poi_of page_items) pages_det).

(** The value of an optional setting passed on as a parameter. *)
Definition key_value (key : option string) : json :=
  match key with Some k => JStr k | None => JNull end.

Definition events_params (lat lon : json) (start finish : datetime)
    (radius_km : Z) : list (string * json) :=
  [("apikey", key_value (TICKETMASTER_API_KEY settings));
   ("latlong", JStr (str_of lat ++ "," ++ str_of lon));
   ("radius", JInt radius_km); ("unit", JStr "km"); ("locale", JStr "*");
   ("startDateTime", JStr (strftime_utc start));
   ("endDateTime", JStr (strftime_utc finish));
   ("size", JInt 20); ("sort", JStr "date,asc")].

Definition ticketmaster_events (lat lon : json) (start finish : datetime)
    (radius_km : Z) : M (list Event) :=
  if negb (configured (TICKETMASTER_API_KEY settings)) then ret []
  else
    let params := events_params lat lon start finish radius_km in
    data <~ fetch TICKETMASTER_URL None params ;;
    lift (normalize_events data).

(** A 2xx answer with a JSON body is what [fetch] returns, after one
    request. *)
Lemma fetch_success (url : string) (headers : option (list (string * string)))
    (params : list (string * json)) (w : world) (r : response) (data : json) :
  answer o (List.length (requests w))
    (mkRequest url headers params (_timeout settings)) = Responds r ->
  200 <= status_code r <= 299 -> json_body r = Some data ->
  fetch url headers params w =
    (Ok data, sent (mkRequest url headers params (_timeout settings)) w).
Proof.
  intros Ha Hc Hb. unfold fetch, _get_json.
  pose proof (get_json_once_success o _ w r data Ha Hc Hb) as H1.
  rewrite retrying_stops by (rewrite H1; reflexivity).
  exact H1.
Qed.

Definition events_request (lat lon : json) (start finish : datetime)
    (radius_km : Z) : request :=
  mkRequest TICKETMASTER_URL None
    (events_params lat lon start finish radius_km) (_timeout settings).

Lemma ticketmaster_events_unconfigured (lat lon : json) (start finish : datetime)
    (radius_km : Z) (w : world) :
  configured (TICKETMASTER_API_KEY settings) = false ->
  ticketmaster_events lat lon start finish radius_km w = (Ok [], w).
Proof. intros H. unfold ticketmaster_events. rewrite H. reflexivity. Qed.

Lemma ticketmaster_events_no_match (lat lon : json) (start finish : datetime)
    (radius_km : Z) (w : world) (r : response) (data : json) :
  configured (TICKETMASTER_API_KEY settings) = true ->
  answer o (List.length (requests w))
    (events_request lat lon start finish radius_km) = Responds r ->
  200 <= status_code r <= 299 -> json_body r = Some data ->
  embedded_events data = Ok (JList []) ->
  ticketmaster_events lat lon start finish radius_km w =
    (Ok [], sent (events_request lat lon start finish radius_km) w).
Proof.
  intros Hk Ha Hc Hb He. unfold ticketmaster_events. rewrite Hk. cbn [negb].
  cbn zeta. rewrite (mbind_ok _ _ _ _ _ (fetch_success _ _ _ w r data Ha Hc Hb)).
  unfold lift, normalize_events. rewrite He. reflexivity.
Qed.

End Calls.

(** C6. Without a Ticketmaster key the events adapter returns the empty
    list and leaves the world as it was: no request is sent and nothing is
    raised.  A configured adapter whose answer holds no events returns the
    same value, so the synthesizer is given the same input in both cases,
    and with it every evening falls back to a POI or to the placeholder. *)
Theorem events_adapter_without_key {L : Library} (o : oracle) (settings : Settings)
    (lat lon : json) (start finish : datetime) (radius_km : Z) (w : world) :
  configured (TICKETMASTER_API_KEY settings) = false ->
  ticketmaster_events o settings lat lon start finish radius_km w = (Ok [], w) /\
  (forall (o' : oracle) (settings' : Settings) (w' : world)
          (r : response) (data : json),
     configured (TICKETMASTER_API_KEY settings') = true ->
     answer o' (List.length (requests w'))
       (events_request settings' lat lon start finish radius_km) = Responds r ->
     200 <= status_code r <= 299 -> json_body r = Some data ->
     embedded_events data = Ok (JList []) ->
     fst (ticketmaster_events o' settings' lat lon start finish radius_km w') =
     fst (ticketmaster_events o settings lat lon start finish radius_km w)) /\
  (forall (events : list Event) (i : Z) (date_str : string) (pois : list POI),
     fst (ticketmaster_events o settings lat lon start finish radius_km w) = Ok events ->
     0 <= i ->
     exists dp,
       Synth.plan_blocks i date_str pois events = Ok dp /\
       (2 < len pois ->
          exists p, nth_error pois (Z.to_nat ((i * 3 + 2) mod Z.max 1 (len pois))) = Some p /\
                    evening dp = name p) /\
       (len pois <= 2 -> evening dp = "Food market & riverfront")).
Proof.
  intros Hkey.
  pose proof (ticketmaster_events_unconfigured o settings lat lon start finish
                radius_km w Hkey) as Hoff.
  split; [exact Hoff|]. split.
  - intros o' settings' w' r data Hk Ha Hc Hb He.
    rewrite Hoff,
      (ticketmaster_events_no_match o' settings' _ _ _ _ _ w' r data Hk Ha Hc Hb He).
    reflexivity.
  - intros events i date_str pois Hev Hi. rewrite Hoff in Hev.
    injection Hev as <-.
    destruct (Synth.plan_blocks_total i date_str pois [] Hi)
      as (dp & Hdp & _ & _ & (_ & Hpoi & Hph)).
    exists dp. split; [exact Hdp|].
    assert (Hnone : len (@nil Event) <= i) by (unfold len; simpl; lia).
    split; [apply Hpoi | apply Hph]; exact Hnone.
Qed.

(** ** Running the events adapter *)

Definition with_ticketmaster (key : string) : Settings :=
  mkSettings None (Some key) 8 3 "gpt-4o-mini" 0.2.

Definition paris_lat : json := JFloat 48.85.
Definition paris_lon : json := JFloat 2.35.

Example events_no_key_no_request :
  @ticketmaster_events plain_library (always (status_only 500)) default_settings
    paris_lat paris_lon midnight midnight 25 initial_world =
  (Ok [], initial_world).
Proof. vm_compute. reflexivity. Qed.

Example events_empty_key_no_request :
  @ticketmaster_events plain_library (always (status_only 500)) (with_ticketmaster "")
    paris_lat paris_lon midnight midnight 25 initial_world =
  (Ok [], initial_world).
Proof. vm_compute. reflexivity. Qed.

Definition one_event_document : json :=
  JDict [("_embedded",
          JDict [("events",
                  JList [JDict [("name", JStr "Jazz night");
                                ("url", JStr "https://tm.example/1");
                                ("dates", JDict [("start", JDict [("localDate", JStr "2025-06-01")])]);
                                ("_embedded", JDict [("venues", JList [JDict [("name", JStr "Le Caveau")]])])];
                         JDict [("name", JStr "Open air");
                                ("dates", JDict [("start", JDict [("dateTime", JStr "2025-06-02T19:00:00Z")])])]])])].

Example events_normalized :
  normalize_events one_event_document =
  Ok [mkEvent "Jazz night" "2025-06-01" (Some "Le Caveau") (Some "https://tm.example/1");
      mkEvent "Open air" "2025-06-02T19:00:00Z" None None].
Proof. vm_compute. reflexivity. Qed.

Example events_with_key_no_match :
  fst (@ticketmaster_events plain_library
         (always (Responds (mkResponse 200 (Some (JDict [("page", JDict [])])))))
         (with_ticketmaster "k3y") paris_lat paris_lon midnight midnight 25 initial_world) =
  Ok [].
Proof. vm_compute. reflexivity. Qed.

Lemma events_adapter_without_key_witness :
  @ticketmaster_events plain_library (always (status_only 500)) default_settings
    paris_lat paris_lon midnight midnight 25 initial_world =
  (Ok [], initial_world).
Proof.
  apply (proj1 (@events_adapter_without_key plain_library (always (status_only 500))
                  default_settings paris_lat paris_lon midnight midnight 25
                  initial_world eq_refl)).
Defined.

(** ** The geocoding adapter *)

(** [d.get(k)] on the items of a dict. *)
Definition field (k : string) (d : list (string * json)) : json :=
  match assoc k d with Some x => x | None => JNull end.

Lemma get_field (k : string) (d : list (string * json)) :
  get (JDict d) k JNull = Ok (field k d).
Proof. reflexivity. Qed.

Lemma py_or_truthy (v w : json) : truthy v = true -> py_or v w = v.
Proof. intros H. unfold py_or. rewrite H. reflexivity. Qed.

Lemma py_or_falsy (v w : json) : truthy v = false -> py_or v w = w.
Proof. intros H. unfold py_or. rewrite H. reflexivity. Qed.

Lemma normalize_geocode_empty (d : list (string * json)) :
  truthy (field "results" d) = false ->
  normalize_geocode (JDict d) = Raise (HTTPException 404 "Destination not found").
Proof.
  intros H. unfold normalize_geocode. rewrite get_field. cbn [bind].
  rewrite (py_or_falsy _ _ H). reflexivity.
Qed.

Section GeocodeCall.
Context {L : Library}.
Variable o : oracle.
Variable settings : Settings.

Definition geocode_request (place : string) : request :=
  mkRequest GEOCODE_URL None
    [("name", JStr place); ("count", JInt 1);
     ("language", JStr "en"); ("format", JStr "json")]
    (_timeout settings).

(** X5. When the geocoder answers 2xx with a document whose [results] are
    missing, [null] or empty, [geocode] raises the 404 [HTTPException]
    "Destination not found" after that one request: the answer is not
    retried. *)
Theorem geocode_unknown_destination (place : string) (w : world)
    (r : response) (d : list (string * json)) :
  answer o (List.length (requests w)) (geocode_request place) = Responds r ->
  200 <= status_code r <= 299 ->
  json_body r = Some (JDict d) ->
  truthy (field "results" d) = false ->
  geocode o settings place w =
    (Raise (HTTPException 404 "Destination not found"),
     sent (geocode_request place) w).
Proof.
  intros Ha Hc Hb Hres. unfold geocode. cbn zeta.
  rewrite (mbind_ok _ _ _ _ _
             (fetch_success o settings _ _ _ w r (JDict d) Ha Hc Hb)).
  unfold lift. rewrite (normalize_geocode_empty d Hres). reflexivity.
Qed.

End GeocodeCall.

Lemma geocode_unknown_destination_witness :
  @geocode plain_library (always (Responds (mkResponse 200 (Some (JDict [("results", JList [])])))))
    default_settings "Nowhereistan123xyz" initial_world =
  (Raise (HTTPException 404 "Destination not found"),
   sent (geocode_request default_settings "Nowhereistan123xyz") initial_world).
Proof.
  apply (@geocode_unknown_destination plain_library
           (always (Responds (mkResponse 200 (Some (JDict [("results", JList [])])))))
           default_settings "Nowhereistan123xyz" initial_world
           (mkResponse 200 (Some (JDict [("results", JList [])])))
           [("results", JList [])] eq_refl);
    [simpl; lia | reflexivity | reflexivity].
Defined.

(** X6. Whenever the geocoding normalization returns a place, the place
    is read off the first result: its latitude and longitude are that
    result's [latitude] and [longitude] entries, its name and country the
    result's [name] and [country] (or [None]); and its timezone is never
    empty or [None], "UTC" standing in for a missing one. *)
Theorem normalize_geocode_first_result (data : json) (geo : GeoPlace) :
  normalize_geocode data = Ok geo ->
  truthy (geo_timezone geo) = true /\
  exists d top,
    data = JDict d /\
    getitem_int (field "results" d) 0 = Ok top /\
    getitem_key top "latitude" = Ok (geo_lat geo) /\
    getitem_key top "longitude" = Ok (geo_lon geo) /\
    get top "name" JNull = Ok (geo_name geo) /\
    get top "country" JNull = Ok (geo_country geo) /\
    (forall tz, get top "timezone" JNull = Ok tz ->
       geo_timezone geo = if truthy tz then tz else JStr "UTC").
Proof.
  unfold normalize_geocode. intros H.
  destruct data as [| | | | |l|d]; try discriminate H.
  rewrite get_field in H. cbn [bind] in H.
  destruct (truthy (field "results" d)) eqn:Et;
    [rewrite (py_or_truthy _ _ Et) in H | rewrite (py_or_falsy _ _ Et) in H;
                                             discriminate H].
  rewrite Et in H. cbn [negb] in H.
  destruct (getitem_int (field "results" d) 0) as [top|] eqn:Etop;
    [|discriminate H]. cbn [bind] in H.
  destruct (get top "name" JNull) as [nm|] eqn:En; [|discriminate H].
  cbn [bind] in H.
  destruct (get top "country" JNull) as [co|] eqn:Eco; [|discriminate H].
  cbn [bind] in H.
  destruct (getitem_key top "latitude") as [lat|] eqn:Elat; [|discriminate H].
  cbn [bind] in H.
  destruct (getitem_key top "longitude") as [lon|] eqn:Elon; [|discriminate H].
  cbn [bind] in H.
  destruct (get top "timezone" JNull) as [tz|] eqn:Etz; [|discriminate H].
  cbn [bind] in H. injection H as <-. cbn.
  split.
  - unfold py_or. destruct (truthy tz) eqn:E; [exact E | reflexivity].
  - exists d, top. repeat (split; [first [reflexivity | assumption]|]).
    intros tz' Heq. rewrite Etz in Heq. injection Heq as <-. reflexivity.
Qed.

Lemma normalize_geocode_first_result_witness :
  truthy (JStr "UTC") = true /\
  exists d top,
    JDict [("results", JList [JDict [("latitude", JInt 1); ("longitude", JInt 2)]])] = JDict d /\
    getitem_int (field "results" d) 0 = Ok top /\
    getitem_key top "latitude" = Ok (JInt 1) /\
    getitem_key top "longitude" = Ok (JInt 2) /\
    get top "name" JNull = Ok JNull /\
    get top "country" JNull = Ok JNull /\
    (forall tz, get top "timezone" JNull = Ok tz ->
       JStr "UTC" = if truthy tz then tz else JStr "UTC").
Proof.
  apply (normalize_geocode_first_result
           (JDict [("results", JList [JDict [("latitude", JInt 1); ("longitude", JInt 2)]])])
           (mkGeoPlace JNull JNull (JInt 1) (JInt 2) (JStr "UTC"))).
  reflexivity.
Defined.

Example geocode_missing_longitude :
  normalize_geocode (JDict [("results", JList [JDict [("latitude", JInt 1)]])]) =
  Raise (KeyError "longitude").
Proof. reflexivity. Qed.

(** ** The weather conditions *)

Definition conditions : list string :=
  ["Clear"; "Partly cloudy"; "Fog"; "Drizzle"; "Rain"; "Snow"; "Rain showers";
   "Snow showers"; "Thunderstorm"; "Mixed"].

Definition mapped_codes : list Z :=
  [0; 1; 2; 3; 45; 48; 51; 53; 55; 56; 57; 61; 63; 65; 66; 67; 71; 73; 75; 77;
   80; 81; 82; 85; 86; 95; 96; 99].

Lemma code_to_text_in_conditions (c : Z) : In (code_to_text c) conditions.
Proof.
  unfold code_to_text.
  repeat match goal with
         | |- context [if ?b then _ else _] => destruct b
         end;
    simpl; tauto.
Qed.

Lemma code_to_text_unmapped (c : Z) :
  code_to_text c = "Mixed" <-> ~ In c mapped_codes.
Proof.
  split.
  - intros H Hin. unfold mapped_codes in Hin. simpl in Hin.
    repeat (destruct Hin as [<-|Hin]; [vm_compute in H; discriminate H|]).
    exact Hin.
  - intros H. unfold code_to_text. cbn [existsb].
    repeat match goal with
           | |- context [c =? ?k] =>
               destruct (Z.eqb_spec c k);
               [exfalso; apply H; subst c; vm_compute; tauto|]
           end.
    reflexivity.
Qed.

(** X7. The forecast adapter labels every day with one of the ten fixed
    conditions, and with "Mixed" exactly when the weather code is none of
    the 28 codes it knows. *)
Theorem forecast_conditions {L : Library} (data : json) (days : Z)
    (out : list WeatherDaily) :
  normalize_forecast data days = Ok out ->
  (forall row, In row out -> In (condition row) conditions) /\
  (forall c, In (code_to_text c) conditions) /\
  (forall c, code_to_text c = "Mixed" <-> ~ In c mapped_codes).
Proof.
  intros H.
  split; [|split; [exact code_to_text_in_conditions | exact code_to_text_unmapped]].
  unfold normalize_forecast in H.
  repeat match type of H with
         | bind ?c _ = Ok _ => destruct c eqn:?; cbn [bind] in H; [|discriminate H]
         end.
  unfold forecast_rows in H.
  destruct (sliced_items _ days) as [items|]; [|discriminate H]. cbn [bind] in H.
  intros row Hrow. apply In_nth_error in Hrow. destruct Hrow as (k & Hk).
  assert (Hlen : (k < List.length (enumerate items))%nat).
  { rewrite <- (for_each_length _ _ _ H). apply nth_error_Some. congruence. }
  destruct (nth_error (enumerate items) k) as [[i d]|] eqn:Ek;
    [|apply nth_error_None in Ek; lia].
  destruct (for_each_nth _ _ _ _ _ H Ek) as (row' & Hrow' & Hbody).
  rewrite Hk in Hrow'. injection Hrow' as <-.
  unfold weather_row in Hbody.
  repeat match type of Hbody with
         | bind ?c _ = Ok _ =>
             destruct c eqn:?; cbn [bind] in Hbody; [|discriminate Hbody]
         end.
  injection Hbody as <-. cbn. apply code_to_text_in_conditions.
Qed.

Lemma forecast_conditions_witness :
  (forall row,
     In row [mkWeatherDaily "2025-06-01" 28.5 17 "Clear" 0] ->
     In (condition row) conditions) /\
  (forall c, In (code_to_text c) conditions) /\
  (forall c, code_to_text c = "Mixed" <-> ~ In c mapped_codes).
Proof.
  apply (@forecast_conditions plain_library
           (daily_document [JStr "2025-06-01"] [JFloat 28.5] [JFloat 17] [JFloat 0] [JInt 0])
           3).
  vm_compute. reflexivity.
Defined.

(** X8. An answer without a [daily] object (missing, [null] or empty), or
    with one that has no [time] array, is a forecast of no days: the
    adapter returns the empty list, whatever [days] is and whatever the
    other arrays hold. *)
Theorem forecast_without_dates {L : Library} (d : list (string * json)) (days : Z) :
  (truthy (field "daily" d) = false -> normalize_forecast (JDict d) days = Ok []) /\
  (forall dd, field "daily" d = JDict dd -> assoc "time" dd = None ->
     normalize_forecast (JDict d) days = Ok []).
Proof.
  assert (Hnil : forall n, slice_to (@nil json) n = []).
  { intros n. unfold slice_to. destruct (n <? 0); apply firstn_nil. }
  split.
  - intros H. unfold normalize_forecast. rewrite get_field. cbn [bind].
    rewrite (py_or_falsy _ _ H). cbn. rewrite Hnil. reflexivity.
  - intros dd Hdd Htime. unfold normalize_forecast. rewrite get_field, Hdd.
    cbn [bind]. destruct dd as [|kv dd'].
    + cbn. rewrite Hnil. reflexivity.
    + rewrite py_or_truthy by reflexivity.
      unfold get at 1. rewrite Htime. cbn [bind get].
      unfold forecast_rows. cbn [sliced_items bind]. rewrite Hnil. reflexivity.
Qed.

Example forecast_of_empty_document :
  @normalize_forecast plain_library (JDict []) 5 = Ok [].
Proof. reflexivity. Qed.

Lemma forecast_without_dates_witness :
  @normalize_forecast plain_library
    (JDict [("daily", JDict [("temperature_2m_max", JList [JFloat 20])])]) 5 = Ok [].
Proof.
  apply (proj2 (@forecast_without_dates plain_library
                  [("daily", JDict [("temperature_2m_max", JList [JFloat 20])])] 5)
           [("temperature_2m_max", JList [JFloat 20])]);
    reflexivity.
Defined.

(** ** The events normalization *)

Lemma event_of_dict (e : json) (ev : Event) :
  event_of e = Ok ev -> exists d, e = JDict d.
Proof.
  unfold event_of. destruct e; try discriminate. intros _. eexists. reflexivity.
Qed.

Lemma event_of_title (d : list (string * json)) (ev : Event) :
  event_of (JDict d) = Ok ev -> field "name" d = JStr (title ev).
Proof.
  unfold event_of. rewrite get_field. cbn [bind]. intros H.
  repeat match type of H with
         | bind ?c _ = Ok _ => destruct c eqn:?; cbn [bind] in H; [|discriminate H]
         end.
  injection H as <-. cbn.
  match goal with
  | E : required_str "Event" (field "name" d) = Ok _ |- _ =>
      destruct (field "name" d); try discriminate E; injection E as <-
  end.
  reflexivity.
Qed.

(** X9. The events adapter returns one [Event] for each entry of the
    upstream [events] array, in the same order, titled with the entry's
    [name]; it returns nothing at all unless every entry is an object whose
    [name] is a string. *)
Theorem normalize_events_entries (data : json) (evs : list Event) :
  normalize_events data = Ok evs ->
  exists events items,
    embedded_events data = Ok events /\
    iter_items events = Ok items /\
    List.length evs = List.length items /\
    forall k item, nth_error items k = Some item ->
      exists ev d, nth_error evs k = Some ev /\
                   item = JDict d /\
                   field "name" d = JStr (title ev).
Proof.
  unfold normalize_events. intros H.
  destruct (embedded_events data) as [events|] eqn:Ee; [|discriminate H].
  cbn [bind] in H.
  destruct (iter_items events) as [items|] eqn:Ei; [|discriminate H].
  cbn [bind] in H.
  exists events, items. split; [reflexivity|]. split; [exact Ei|].
  split; [apply (for_each_length _ _ _ H)|].
  intros k item Hk.
  destruct (for_each_nth _ _ _ _ _ H Hk) as (ev & Hev & Hbody).
  destruct (event_of_dict _ _ Hbody) as (d & ->).
  exists ev, d. split; [exact Hev|]. split; [reflexivity|].
  apply event_of_title. exact Hbody.
Qed.

Lemma normalize_events_entries_witness :
  exists events items,
    embedded_events one_event_document = Ok events /\
    iter_items events = Ok items /\
    List.length
      [mkEvent "Jazz night" "2025-06-01" (Some "Le Caveau") (Some "https://tm.example/1");
       mkEvent "Open air" "2025-06-02T19:00:00Z" None None] = List.length items /\
    forall k item, nth_error items k = Some item ->
      exists ev d,
        nth_error
          [mkEvent "Jazz night" "2025-06-01" (Some "Le Caveau") (Some "https://tm.example/1");
           mkEvent "Open air" "2025-06-02T19:00:00Z" None None] k = Some ev /\
        item = JDict d /\
        field "name" d = JStr (title ev).
Proof.
  apply (normalize_events_entries one_event_document). exact events_normalized.
Defined.

Example event_without_name :
  normalize_events
    (JDict [("_embedded", JDict [("events", JList [JDict [("url", JStr "u")]])])]) =
  Raise (ValidationError "Event").
Proof. reflexivity. Qed.

(** X10. The start of an event is its [localDate] when that is present and
    not empty, else its [dateTime] when that is, else the empty string; the
    venue is the [name] of the first entry of [venues], and [None] when the
    event embeds no venues. *)
Theorem event_of_start_and_venue (d : list (string * json)) (ev : Event) :
  event_of (JDict d) = Ok ev ->
  (forall dd sd,
     assoc "dates" d = Some (JDict dd) -> assoc "start" dd = Some (JDict sd) ->
     JStr (start_local ev) =
       if truthy (field "localDate" sd) then field "localDate" sd
       else if truthy (field "dateTime" sd) then field "dateTime" sd
       else JStr "") /\
  (assoc "dates" d = None -> start_local ev = "") /\
  (assoc "_embedded" d = None -> venue ev = None) /\
  (forall ed v rest,
     assoc "_embedded" d = Some (JDict ed) ->
     assoc "venues" ed = Some (JList (JDict v :: rest)) ->
     optional_str "Event" (field "name" v) = Ok (venue ev)).
Proof.
  intros H. unfold event_of in H. rewrite !get_field in H. cbn [bind] in H.
  split; [|split; [|split]].
  - intros dd sd Hdates Hstart. cbn [get] in H. rewrite Hdates in H.
    cbn [bind get] in H. rewrite Hstart in H. cbn [bind get] in H.
    fold (field "localDate" sd) in H. fold (field "dateTime" sd) in H.
    repeat match type of H with
           | bind ?c _ = Ok _ => destruct c eqn:?; cbn [bind] in H; [|discriminate H]
           end.
    injection H as <-. cbn.
    match goal with
    | E : required_str "Event" (py_or _ _) = Ok ?s |- _ =>
        unfold py_or in E;
        destruct (truthy (field "localDate" sd));
        [|destruct (truthy (field "dateTime" sd))];
        match type of E with
        | required_str _ ?v = _ => destruct v; try discriminate E; injection E as <-
        end; reflexivity
    end.
  - intros Hdates. cbn [get] in H. rewrite Hdates in H. cbn [bind get assoc] in H.
    repeat match type of H with
           | bind ?c _ = Ok _ => destruct c eqn:?; cbn [bind] in H; [|discriminate H]
           end.
    injection H as <-. cbn.
    match goal with
    | E : required_str "Event" _ = Ok ?s |- _ => cbn in E; injection E as <-
    end.
    reflexivity.
  - intros Hemb. cbn [get] in H. rewrite Hemb in H.
    destruct (match assoc "dates" d with Some x => x | None => JDict [] end)
      as [| | | | | |dd]; try discriminate H.
    cbn [bind get assoc truthy] in H.
    repeat match type of H with
           | bind ?c _ = Ok _ => destruct c eqn:?; cbn [bind] in H; [|discriminate H]
           end.
    injection H as <-. cbn.
    match goal with
    | E : optional_str "Event" JNull = Ok ?s |- _ => cbn in E; injection E as <-
    end.
    reflexivity.
  - intros ed v rest Hemb Hven. cbn [get] in H. rewrite Hemb in H.
    destruct (match assoc "dates" d with Some x => x | None => JDict [] end)
      as [| | | | | |dd]; try discriminate H.
    cbn [bind get] in H. rewrite Hven in H.
    cbn [bind get truthy getitem_int] in H.
    change (getitem (JDict v :: rest) 0) with (Ok (A := json) (JDict v)) in H.
    cbn [bind get] in H. fold (field "name" v) in H.
    repeat match type of H with
           | bind ?c _ = Ok _ => destruct c eqn:?; cbn [bind] in H; [|discriminate H]
           end.
    injection H as <-. cbn. reflexivity.
Qed.

Lemma event_of_start_and_venue_witness :
  JStr "2025-06-02T19:00:00Z" =
    (if truthy (field "localDate" [("dateTime", JStr "2025-06-02T19:00:00Z")])
     then field "localDate" [("dateTime", JStr "2025-06-02T19:00:00Z")]
     else if truthy (field "dateTime" [("dateTime", JStr "2025-06-02T19:00:00Z")])
          then field "dateTime" [("dateTime", JStr "2025-06-02T19:00:00Z")]
          else JStr "").
Proof.
  apply (proj1 (event_of_start_and_venue
                  [("name", JStr "Open air");
                   ("dates", JDict [("start", JDict [("dateTime", JStr "2025-06-02T19:00:00Z")])])]
                  (mkEvent "Open air" "2025-06-02T19:00:00Z" None None) eq_refl)
           [("start", JDict [("dateTime", JStr "2025-06-02T19:00:00Z")])]
           [("dateTime", JStr "2025-06-02T19:00:00Z")] eq_refl eq_refl).
Defined.

(** ** The points-of-interest adapter *)

Section Wiki.
Context {L : Library}.
Variable o : oracle.
Variable settings : Settings.

Definition geosearch_request (lat lon : json) (radius_m max_items : Z)
    (lang : string) : request :=
  mkRequest (WIKI_SEARCH_URL lang) (Some HEADERS_WIKI)
    [("action", JStr "query"); ("list", JStr "geosearch");
     ("gscoord", JStr (str_of lat ++ "|" ++ str_of lon));
     ("gsradius", JInt radius_m); ("gslimit", JInt max_items);
     ("format", JStr "json")]
    (_timeout settings).

(** [geo.get("query", {}).get("geosearch", [])] *)
Definition geosearch_pages (geo : json) : result json :=
  q <- get geo "query" (JDict []) ;;
  get q "geosearch" (JList []).

(** X11. When the nearby-pages search answers 2xx with no pages (the
    [geosearch] array missing or empty), [wiki_pois] returns the empty list
    after that single request: the details request is never sent. *)
Theorem wiki_pois_no_pages (lat lon : json) (radius_m max_items : Z)
    (lang : string) (w : world) (r : response) (geo pages : json) :
  answer o (List.length (requests w))
    (geosearch_request lat lon radius_m max_items lang) = Responds r ->
  200 <= status_code r <= 299 ->
  json_body r = Some geo ->
  geosearch_pages geo = Ok pages ->
  truthy pages = false ->
  wiki_pois o settings lat lon radius_m max_items lang w =
    (Ok [], sent (geosearch_request lat lon radius_m max_items lang) w).
Proof.
  intros Ha Hc Hb Hpages Hempty. unfold wiki_pois. cbn zeta.
  rewrite (mbind_ok _ _ _ _ _ (fetch_success o settings _ _ _ w r geo Ha Hc Hb)).
  unfold geosearch_pages in Hpages.
  destruct (get geo "query" (JDict [])) as [q|] eqn:Eq; [|discriminate Hpages].
  cbn [bind] in Hpages.
  unfold mbind at 1. unfold lift at 1.
  unfold mbind at 1. unfold lift at 1. rewrite Hpages, Hempty.
  reflexivity.
Qed.

(** X12. The distance of a POI is taken from the first page of the search
    whose [pageid] equals the detail page's: its [dist] (0.0 when missing)
    divided by 1000 and rounded to two places.  It is [None] exactly when
    no page of the search has that id. *)
Theorem distance_of_first_match (pages : list json) (p : json)
    (found : option float) :
  distance_of pages p = Ok found ->
  match found with
  | None =>
      forall g, In g pages ->
        exists gid pid,
          getitem_key g "pageid" = Ok gid /\ getitem_key p "pageid" = Ok pid /\
          py_eq gid pid = false
  | Some x =>
      exists before g after gid pid dist km,
        pages = before ++ g :: after /\
        (forall g', In g' before ->
           exists gid' pid',
             getitem_key g' "pageid" = Ok gid' /\ getitem_key p "pageid" = Ok pid' /\
             py_eq gid' pid' = false) /\
        getitem_key g "pageid" = Ok gid /\ getitem_key p "pageid" = Ok pid /\
        py_eq gid pid = true /\
        get g "dist" (JFloat 0) = Ok dist /\
        true_div dist 1000 = Ok km /\
        x = round_to km 2
  end.
Proof.
  revert found. induction pages as [|g rest IH]; intros found H; simpl in H.
  - injection H as <-. intros g [].
  - destruct (getitem_key g "pageid") as [gid|] eqn:Eg; [|discriminate H].
    cbn [bind] in H.
    destruct (getitem_key p "pageid") as [pid|] eqn:Ep; [|discriminate H].
    cbn [bind] in H.
    destruct (py_eq gid pid) eqn:Eeq.
    + destruct (get g "dist" (JFloat 0)) as [dist|] eqn:Ed; [|discriminate H].
      cbn [bind] in H.
      destruct (true_div dist 1000) as [km|] eqn:Ek; [|discriminate H].
      cbn [bind] in H. injection H as <-.
      exists [], g, rest, gid, pid, dist, km.
      split; [reflexivity|]. split; [intros g' []|].
      repeat (split; [first [assumption | reflexivity]|]). reflexivity.
    + specialize (IH found H). destruct found as [x|].
      * destruct IH as (before & g0 & after & gid0 & pid0 & dist & km &
                        -> & Hbefore & Hrest).
        exists (g :: before), g0, after, gid0, pid0, dist, km.
        split; [reflexivity|]. split; [|exact Hrest].
        intros g' [<-|Hin]; [|apply Hbefore; exact Hin].
        exists gid, pid. repeat split; first [assumption | reflexivity].
      * intros g' [<-|Hin]; [|apply IH; exact Hin].
        exists gid, pid. repeat split; first [assumption | reflexivity].
Qed.

End Wiki.

Lemma wiki_pois_no_pages_witness :
  @wiki_pois plain_library
    (always (Responds (mkResponse 200 (Some (JDict [("batchcomplete", JStr "")])))))
    default_settings paris_lat paris_lon 3000 8 "en" initial_world =
  (Ok [], sent (@geosearch_request plain_library default_settings
                  paris_lat paris_lon 3000 8 "en") initial_world).
Proof.
  apply (@wiki_pois_no_pages plain_library
           (always (Responds (mkResponse 200 (Some (JDict [("batchcomplete", JStr "")])))))
           default_settings paris_lat paris_lon 3000 8 "en" initial_world
           (mkResponse 200 (Some (JDict [("batchcomplete", JStr "")])))
           (JDict [("batchcomplete", JStr "")]) (JList []) eq_refl);
    [simpl; lia | reflexivity | reflexivity | reflexivity].
Defined.

Definition louvre_hit : json :=
  JDict [("pageid", JInt 11); ("title", JStr "Louvre"); ("dist", JInt 1200)].
Definition pont_neuf_hit : json :=
  JDict [("pageid", JInt 12); ("title", JStr "Pont Neuf"); ("dist", JFloat 800)].

Example distance_of_second_page :
  @distance_of plain_library [louvre_hit; pont_neuf_hit]
    (JDict [("pageid", JInt 12); ("title", JStr "Pont Neuf")]) =
  Ok (Some 0.8%float).
Proof. vm_compute. reflexivity. Qed.

Example distance_of_unknown_page :
  @distance_of plain_library [louvre_hit; pont_neuf_hit]
    (JDict [("pageid", JInt 13)]) = Ok None.
Proof. vm_compute. reflexivity. Qed.

Lemma distance_of_first_match_witness :
  exists before g after gid pid dist km,
    [louvre_hit; pont_neuf_hit] = before ++ g :: after /\
    (forall g', In g' before ->
       exists gid' pid',
         getitem_key g' "pageid" = Ok gid' /\
         getitem_key (JDict [("pageid", JInt 12)]) "pageid" = Ok pid' /\
         @py_eq plain_library gid' pid' = false) /\
    getitem_key g "pageid" = Ok gid /\
    getitem_key (JDict [("pageid", JInt 12)]) "pageid" = Ok pid /\
    @py_eq plain_library gid pid = true /\
    get g "dist" (JFloat 0) = Ok dist /\
    true_div dist 1000 = Ok km /\
    0.8%float = @round_to plain_library km 2.
Proof.
  apply (@distance_of_first_match plain_library [louvre_hit; pont_neuf_hit]
           (JDict [("pageid", JInt 12)]) (Some 0.8%float)).
  vm_compute. reflexivity.
Defined.

(** ** The requests of the adapters *)

Section Footprints.
Context {L : Library}.
Variable o : oracle.
Variable settings : Settings.

(** [max(1, MAX_RETRIES)], the attempts one [_get_json] may make. *)
Definition attempts : nat := Z.to_nat (Z.max 1 (MAX_RETRIES settings)).

Variable P : request -> Prop.

Lemma fetch_sends (url : string) (headers : option (list (string * string)))
    (params : list (string * json)) :
  (forall r, req_url r = url -> P r) ->
  sends_within P attempts (fetch o settings url headers params).
Proof. intros HP. unfold fetch. apply get_json_sends. apply HP. reflexivity. Qed.

Lemma fetch_quiet (url : string) (headers : option (list (string * string)))
    (params : list (string * json)) :
  quiet (fetch o settings url headers params).
Proof. unfold fetch. apply get_json_quiet. Qed.

Lemma geocode_sends (place : string) :
  (forall r, req_url r = GEOCODE_URL -> P r) ->
  sends_within P attempts (geocode o settings place).
Proof.
  intros HP. unfold geocode. cbn zeta.
  eapply sends_weaken;
    [eapply sends_bind; [apply fetch_sends; exact HP | intros; apply sends_lift]
    | lia].
Qed.

Lemma forecast_sends (lat lon : json) (days : Z) (tz : json) :
  (forall r, req_url r = FORECAST_URL -> P r) ->
  sends_within P attempts (forecast o settings lat lon days tz).
Proof.
  intros HP. unfold forecast. cbn zeta.
  eapply sends_weaken;
    [eapply sends_bind; [apply fetch_sends; exact HP | intros; apply sends_lift]
    | lia].
Qed.

Lemma wiki_pois_sends (lat lon : json) (radius_m max_items : Z) (lang : string) :
  (forall r, req_url r = WIKI_SEARCH_URL lang -> P r) ->
  sends_within P (2 * attempts) (wiki_pois o settings lat lon radius_m max_items lang).
Proof.
  intros HP. unfold wiki_pois. cbn zeta.
  eapply sends_weaken.
  - eapply sends_bind; [apply fetch_sends; exact HP | intros geo].
    eapply sends_bind; [apply sends_lift | intros q].
    eapply sends_bind; [apply sends_lift | intros pages].
    instantiate (1 := (attempts + 0)%nat).
    destruct (negb (truthy pages)).
    + eapply sends_weaken; [apply sends_ret | lia].
    + eapply sends_weaken.
      * eapply sends_bind; [apply sends_lift | intros page_items].
        eapply sends_bind; [apply sends_lift | intros pageids].
        eapply sends_bind; [apply fetch_sends; exact HP | intros det].
        eapply sends_bind; [apply sends_lift | intros q2].
        eapply sends_bind; [apply sends_lift | intros pg].
        eapply sends_bind; [apply sends_lift | intros pages_det].
        apply sends_lift.
      * lia.
  - lia.
Qed.

Lemma ticketmaster_events_sends (lat lon : json) (start finish : datetime)
    (radius_km : Z) :
  (forall r, req_url r = TICKETMASTER_URL -> P r) ->
  sends_within P attempts
    (ticketmaster_events o settings lat lon start finish radius_km).
Proof.
  intros HP. unfold ticketmaster_events.
  destruct (negb (configured (TICKETMASTER_API_KEY settings))).
  - eapply sends_weaken; [apply sends_ret | lia].
  - cbn zeta. eapply sends_weaken;
      [eapply sends_bind; [apply fetch_sends; exact HP | intros; apply sends_lift]
      | lia].
Qed.

Lemma ticketmaster_events_sends_nothing (lat lon : json) (start finish : datetime)
    (radius_km : Z) :
  configured (TICKETMASTER_API_KEY settings) = false ->
  sends_within P 0 (ticketmaster_events o settings lat lon start finish radius_km).
Proof.
  intros H. unfold ticketmaster_events. rewrite H. apply sends_ret.
Qed.

Lemma geocode_quiet (place : string) : quiet (geocode o settings place).
Proof.
  unfold geocode. cbn zeta.
  apply quiet_bind; [apply fetch_quiet | intros; apply quiet_lift].
Qed.

Lemma forecast_quiet (lat lon : json) (days : Z) (tz : json) :
  quiet (forecast o settings lat lon days tz).
Proof.
  unfold forecast. cbn zeta.
  apply quiet_bind; [apply fetch_quiet | intros; apply quiet_lift].
Qed.

Lemma wiki_pois_quiet (lat lon : json) (radius_m max_items : Z) (lang : string) :
  quiet (wiki_pois o settings lat lon radius_m max_items lang).
Proof.
  unfold wiki_pois. cbn zeta.
  apply quiet_bind; [apply fetch_quiet | intros geo].
  apply quiet_bind; [apply quiet_lift | intros q].
  apply quiet_bind; [apply quiet_lift | intros pages].
  destruct (negb (truthy pages)); [apply quiet_ret|].
  apply quiet_bind; [apply quiet_lift | intros page_items].
  apply quiet_bind; [apply quiet_lift | intros pageids].
  apply quiet_bind; [apply fetch_quiet | intros det].
  apply quiet_bind; [apply quiet_lift | intros q2].
  apply quiet_bind; [apply quiet_lift | intros pg].
  apply quiet_bind; [apply quiet_lift | intros pages_det].
  apply quiet_lift.
Qed.

Lemma ticketmaster_events_quiet (lat lon : json) (start finish : datetime)
    (radius_km : Z) :
  quiet (ticketmaster_events o settings lat lon start finish radius_km).
Proof.
  unfold ticketmaster_events.
  destruct (negb (configured (TICKETMASTER_API_KEY settings))); [apply quiet_ret|].
  cbn zeta. apply quiet_bind; [apply fetch_quiet | intros; apply quiet_lift].
Qed.

(** ** The requests an adapter cannot do without *)

Lemma fetch_grows (url : string) (headers : option (list (string * string)))
    (params : list (string * json)) :
  grows (fetch o settings url headers params).
Proof.
  apply (sends_grows (fun _ => True) attempts).
  unfold fetch. apply get_json_sends. exact I.
Qed.

Lemma fetch_asks (url : string) (headers : option (list (string * string)))
    (params : list (string * json)) :
  asks url (fetch o settings url headers params).
Proof.
  intros w a w' H. unfold fetch, _get_json in H.
  destruct (retrying_footprint o (Z.to_nat (MAX_RETRIES settings - 1))
              (mkRequest url headers params (_timeout settings)) w)
    as (n & Hn & Hw).
  rewrite H in Hw. cbn [snd] in Hw. subst w'.
  exists (repeat (mkRequest url headers params (_timeout settings)) n).
  split; [apply sent_times_requests|].
  destruct n as [|n]; [lia|]. left. reflexivity.
Qed.

Lemma geocode_asks (place : string) : asks GEOCODE_URL (geocode o settings place).
Proof.
  unfold geocode. cbn zeta.
  apply asks_first; [apply fetch_asks | intros data; apply grows_lift].
Qed.

Lemma forecast_asks (lat lon : json) (days : Z) (tz : json) :
  asks FORECAST_URL (forecast o settings lat lon days tz).
Proof.
  unfold forecast. cbn zeta.
  apply asks_first; [apply fetch_asks | intros data; apply grows_lift].
Qed.

Lemma wiki_pois_asks (lat lon : json) (radius_m max_items : Z) (lang : string) :
  asks (WIKI_SEARCH_URL lang) (wiki_pois o settings lat lon radius_m max_items lang).
Proof.
  unfold wiki_pois. cbn zeta.
  apply asks_first; [apply fetch_asks | intros geo].
  apply grows_bind; [apply grows_lift | intros q].
  apply grows_bind; [apply grows_lift | intros pages].
  destruct (negb (truthy pages)); [apply grows_ret|].
  apply grows_bind; [apply grows_lift | intros page_items].
  apply grows_bind; [apply grows_lift | intros pageids].
  apply grows_bind; [apply fetch_grows | intros det].
  apply grows_bind; [apply grows_lift | intros q2].
  apply grows_bind; [apply grows_lift | intros pg].
  apply grows_bind; [apply grows_lift | intros pages_det].
  apply grows_lift.
Qed.

Lemma ticketmaster_events_asks (lat lon : json) (start finish : datetime)
    (radius_km : Z) :
  configured (TICKETMASTER_API_KEY settings) = true ->
  asks TICKETMASTER_URL
    (ticketmaster_events o settings lat lon start finish radius_km).
Proof.
  intros H. unfold ticketmaster_events. rewrite H. cbn [negb]. cbn zeta.
  apply asks_first; [apply fetch_asks | intros data; apply grows_lift].
Qed.

(** A forecast that is returned has at most [days] days. *)
Lemma forecast_length (lat lon : json) (days : Z) (tz : json)
    (w w' : world) (out : list WeatherDaily) :
  0 <= days ->
  forecast o settings lat lon days tz w = (Ok out, w') -> len out <= days.
Proof.
  intros Hdays H. unfold forecast in H. cbn zeta in H.
  apply mbind_inv in H. destruct H as (data & w1 & _ & H).
  apply lift_inv in H. destruct H as [H _].
  unfold normalize_forecast in H.
  repeat match type of H with
         | bind ?c _ = Ok _ => destruct c eqn:?; cbn [bind] in H; [|discriminate H]
         end.
  unfold forecast_rows in H.
  destruct (sliced_items _ days) as [items|] eqn:Es; [|discriminate H].
  cbn [bind] in H.
  pose proof (for_each_length _ _ _ H) as Hlen.
  unfold enumerate in Hlen. rewrite enumerate_from_length in Hlen.
  assert (Hitems : len items <= days).
  { unfold sliced_items in Es.
    match type of Es with
    | match ?v with _ => _ end = _ => destruct v; try discriminate Es
    end; injection Es as <-; rewrite slice_to_length by exact Hdays; lia. }
  unfold len in *. lia.
Qed.

End Footprints.

End Adapters.

(* ================================================================== *)
(** * The optional polish step *)
(* ================================================================== *)

Module Polish.
Import Py World.

Section Polish.
Context {L : Library}.
Variable o : oracle.
Variable settings : Settings.

Definition prompted (text : string) (w : world) : world :=
  {| requests := requests w;
     clock_reads := clock_reads w;
     llm_prompts := llm_prompts w ++ [text] |}.

(** [ChatOpenAI(model=..., temperature=...)]: building the client may
    raise, and asks nothing of the model. *)
Definition chat_openai : M unit :=
  fun w =>
    match llm_client o (List.length (llm_prompts w)) with
    | Some e => (Raise e, w)
    | None => (Ok tt, w)
    end.

(** [llm.invoke([SystemMessage(...), HumanMessage(content=text)])]: the
    model is prompted with [text]; the result is the [content] of the
    reply. *)
Definition invoke (text : string) : M json :=
  fun w => (llm_reply o (List.length (llm_prompts w)) text, prompted text w).

(** [msg.content.strip()]: only a [str] has [strip]. *)
Definition content_strip (content : json) : result string :=
  match content with
  | JStr s => Ok (str_strip s)
  | _ => Raise (AttributeError "strip")
  end.

(** The [try] block: build the client, invoke it on the two messages and
    strip the content of the reply. *)
Definition llm_polish (text : string) : M string :=
  _ <~ chat_openai ;;
  content <~ invoke text ;;
  lift (content_strip content).

Definition maybe_polish (text : string) : M string :=
  if negb (configured (OPENAI_API_KEY settings)) || negb (llm_libraries o)
  then ret text
  else
    fun w =>
      match llm_polish text w with
      | (Ok polished, w') => (Ok polished, w')
      | (Raise _, w') => (Ok text, w')
      end.

(** ** Properties *)

(** The model call either stops at the construction of the client, having
    asked nothing, or makes its one prompt. *)
Lemma llm_polish_cases (text : string) (w : world) :
  (exists e, llm_client o (List.length (llm_prompts w)) = Some e /\
             llm_polish text w = (Raise e, w)) \/
  (llm_client o (List.length (llm_prompts w)) = None /\
   snd (llm_polish text w) = prompted text w).
Proof.
  unfold llm_polish, mbind, chat_openai, invoke, lift.
  destruct (llm_client o (List.length (llm_prompts w))) as [e|].
  - left. exists e. split; reflexivity.
  - right. split; [reflexivity|].
    destruct (llm_reply o (List.length (llm_prompts w)) text); reflexivity.
Qed.

Lemma maybe_polish_returns (text : string) (w : world) :
  exists s w', maybe_polish text w = (Ok s, w').
Proof.
  unfold maybe_polish.
  destruct (negb (configured (OPENAI_API_KEY settings)) || negb (llm_libraries o)).
  - exists text, w. reflexivity.
  - destruct (llm_polish text w) as [[s|e] w'].
    + exists s, w'. reflexivity.
    + exists text, w'. reflexivity.
Qed.

(** C5. The polish step always returns a text.  Without a key, or
    without the model libraries, it returns its input and does nothing
    else; and whenever the model call fails, with whatever exception, it
    returns its input. *)
Theorem maybe_polish_never_raises (text : string) (w : world) :
  (exists s, fst (maybe_polish text w) = Ok s) /\
  (configured (OPENAI_API_KEY settings) = false \/ llm_libraries o = false ->
     maybe_polish text w = (Ok text, w)) /\
  (forall e, fst (llm_polish text w) = Raise e ->
     fst (maybe_polish text w) = Ok text).
Proof.
  split; [|split].
  - destruct (maybe_polish_returns text w) as (s & w' & ->). exists s. reflexivity.
  - intros H. unfold maybe_polish.
    destruct H as [-> | ->]; [reflexivity|].
    rewrite orb_true_r. reflexivity.
  - intros e He. unfold maybe_polish.
    destruct (negb (configured (OPENAI_API_KEY settings)) || negb (llm_libraries o));
      [reflexivity|].
    destruct (llm_polish text w) as [[s|e'] w']; [discriminate He | reflexivity].
Qed.

Lemma maybe_polish_disabled (text : string) (w : world) :
  configured (OPENAI_API_KEY settings) && llm_libraries o = false ->
  maybe_polish text w = (Ok text, w).
Proof.
  intros H. unfold maybe_polish.
  destruct (configured (OPENAI_API_KEY settings)), (llm_libraries o);
    try discriminate H; reflexivity.
Qed.

Lemma maybe_polish_sends_nothing (P : request -> Prop) (text : string) :
  sends_within P 0 (maybe_polish text).
Proof.
  apply sends_nothing. intros w. unfold maybe_polish.
  destruct (negb (configured (OPENAI_API_KEY settings)) || negb (llm_libraries o));
    [reflexivity|].
  destruct (llm_polish_cases text w) as [(e & _ & ->) | [_ Hw]]; [reflexivity|].
  destruct (llm_polish text w) as [[s|e] w']; cbn in Hw |- *; rewrite Hw;
    reflexivity.
Qed.

Lemma maybe_polish_quiet (text : string) :
  configured (OPENAI_API_KEY settings) && llm_libraries o = false ->
  quiet (maybe_polish text).
Proof. intros H w. rewrite (maybe_polish_disabled text w H). reflexivity. Qed.

(** X17. One call of the polish step sends no request and reads no
    clock.  It prompts the model at most once, with the text it was given:
    exactly once when a key is configured, the libraries are there and the
    client can be built; and not at all when the key or the libraries are
    missing, or when building the client raises, in which case the text
    comes back and the world is as before. *)
Theorem maybe_polish_footprint (text : string) (w : world) :
  requests (snd (maybe_polish text w)) = requests w /\
  clock_reads (snd (maybe_polish text w)) = clock_reads w /\
  (configured (OPENAI_API_KEY settings) && llm_libraries o = true ->
   llm_client o (List.length (llm_prompts w)) = None ->
     llm_prompts (snd (maybe_polish text w)) = llm_prompts w ++ [text]) /\
  (forall e, llm_client o (List.length (llm_prompts w)) = Some e ->
     maybe_polish text w = (Ok text, w)) /\
  (configured (OPENAI_API_KEY settings) && llm_libraries o = false ->
     maybe_polish text w = (Ok text, w)).
Proof.
  assert (Hoff : configured (OPENAI_API_KEY settings) && llm_libraries o = false ->
                 maybe_polish text w = (Ok text, w)).
  { intros H. unfold maybe_polish.
    destruct (configured (OPENAI_API_KEY settings)), (llm_libraries o);
      try discriminate H; reflexivity. }
  destruct (configured (OPENAI_API_KEY settings) && llm_libraries o) eqn:Eon.
  - assert (Hrun : maybe_polish text w =
                   match llm_polish text w with
                   | (Ok polished, w') => (Ok polished, w')
                   | (Raise _, w') => (Ok text, w')
                   end).
    { unfold maybe_polish. apply andb_prop in Eon. destruct Eon as [-> ->].
      reflexivity. }
    rewrite Hrun.
    destruct (llm_polish_cases text w) as [(e & He & ->) | [Hnone Hw]].
    + split; [reflexivity|]. split; [reflexivity|]. split; [|split].
      * intros _ H. rewrite H in He. discriminate He.
      * intros e' _. reflexivity.
      * intros H. discriminate H.
    + assert (Hsnd : snd (match llm_polish text w with
                          | (Ok polished, w') => (Ok polished, w')
                          | (Raise _, w') => (Ok text, w')
                          end) = prompted text w)
        by (destruct (llm_polish text w) as [[s|e] w']; exact Hw).
      rewrite Hsnd.
      split; [reflexivity|]. split; [reflexivity|]. split; [|split].
      * intros _ _. reflexivity.
      * intros e' He'. rewrite He' in Hnone. discriminate Hnone.
      * intros H. discriminate H.
  - rewrite (Hoff eq_refl).
    split; [reflexivity|]. split; [reflexivity|]. split; [|split].
    + intros H. discriminate H.
    + intros e' _. reflexivity.
    + intros _. reflexivity.
Qed.

End Polish.

(** ** Running the polish step *)

Definition with_openai (key : string) : Settings :=
  mkSettings (Some key) None 8 3 "gpt-4o-mini" 0.2.

(** A world with the model libraries, whose model answers every prompt
    with [reply]. *)
Definition model (reply : result json) : oracle :=
  {| answer := fun _ _ => Fails (OtherError "offline");
     utcnow_at := fun _ => Fetch.midnight;
     llm_libraries := true;
     llm_client := fun _ => None;
     llm_reply := fun _ _ => reply |}.

Example polish_rewrites :
  fst (@maybe_polish plain_library (model (Ok (JStr "Paris in three days.")))
         (with_openai "sk-1") "raw text" initial_world) =
  Ok "Paris in three days.".
Proof. reflexivity. Qed.

Example polish_swallows_failure :
  fst (@maybe_polish plain_library (model (Raise (OtherError "rate limited")))
         (with_openai "sk-1") "raw text" initial_world) =
  Ok "raw text".
Proof. reflexivity. Qed.

Example polish_swallows_odd_content :
  fst (@maybe_polish plain_library (model (Ok (JList [JStr "part"])))
         (with_openai "sk-1") "raw text" initial_world) =
  Ok "raw text".
Proof. reflexivity. Qed.

Example polish_without_key :
  @maybe_polish plain_library (model (Ok (JStr "never asked")))
    default_settings "raw text" initial_world =
  (Ok "raw text", initial_world).
Proof. reflexivity. Qed.

Lemma maybe_polish_never_raises_witness :
  fst (@maybe_polish plain_library (model (Raise (OtherError "rate limited")))
         (with_openai "sk-1") "raw text" initial_world) =
  Ok "raw text".
Proof.
  apply (proj2 (proj2 (@maybe_polish_never_raises plain_library
                         (model (Raise (OtherError "rate limited")))
                         (with_openai "sk-1") "raw text" initial_world))
           (OtherError "rate limited")).
  reflexivity.
Defined.

(** A world with the model libraries in which the client cannot be
    built: the key is in the settings and not in the environment. *)
Definition no_client (e : exn) : oracle :=
  {| answer := fun _ _ => Fails (OtherError "offline");
     utcnow_at := fun _ => Fetch.midnight;
     llm_libraries := true;
     llm_client := fun _ => Some e;
     llm_reply := fun _ _ => Ok (JStr "never asked") |}.

Example polish_without_client :
  @maybe_polish plain_library (no_client (OtherError "api_key must be set"))
    (with_openai "sk-1") "raw text" initial_world =
  (Ok "raw text", initial_world).
Proof. reflexivity. Qed.

Lemma maybe_polish_footprint_witness :
  llm_prompts
    (snd (@maybe_polish plain_library (model (Raise (OtherError "rate limited")))
            (with_openai "sk-1") "raw text" initial_world)) =
  llm_prompts initial_world ++ ["raw text"] /\
  @maybe_polish plain_library (no_client (OtherError "api_key must be set"))
    (with_openai "sk-1") "raw text" initial_world =
  (Ok "raw text", initial_world).
Proof.
  split.
  - apply (proj1 (proj2 (proj2 (@maybe_polish_footprint plain_library
                                  (model (Raise (OtherError "rate limited")))
                                  (with_openai "sk-1") "raw text" initial_world))));
      reflexivity.
  - apply (proj1 (proj2 (proj2 (proj2 (@maybe_polish_footprint plain_library
                                  (no_client (OtherError "api_key must be set"))
                                  (with_openai "sk-1") "raw text" initial_world))))
             (OtherError "api_key must be set")).
    reflexivity.
Defined.

End Polish.

(* ================================================================== *)
(** * The request handler *)
(* ================================================================== *)

Module App.
Import Py Calendar Schema World Adapters.

(** [class TripRequest(BaseModel)]; FastAPI validates it before the handler
    runs. *)
Record TripRequest := mkTripRequest {
  destination : string;
  days : Z
}.

(** The constraint on [days]: [Field(ge=1, le=21)]. *)
Definition valid_days (req : TripRequest) : Prop := 1 <= days req <= 21.

(** The [context] dict of the response. *)
Record TripContext := mkTripContext {
  ctx_geo : GeoPlace;
  ctx_forecast : list WeatherDaily;
  ctx_pois : list POI;
  ctx_events : list Event
}.

(** [class TripResponse(BaseModel)] *)
Record TripResponse := mkTripResponse {
  resp_destination : string;
  resp_days : Z;
  resp_summary : string;
  daily_itinerary : list DayPlan;
  packing_list : Packing.packing_list;
  context : TripContext
}.

Section Handler.
Context {L : Library}.
Variable o : oracle.
Variable settings : Settings.

Definition summarize_context (dest_label : string)
    (forecast_days : list WeatherDaily) (pois : list POI) (events : list Event)
    : string :=
  let weather_line :=
    match forecast_days with
    | [] => "Weather: (not available)"
    | first :: _ =>
        let temps := (format_fixed0 (temp_day_c first) ++ "/" ++
                      format_fixed0 (temp_night_c first) ++ "Â°C")%string in
        ("First day looks " ++ str_lower (condition first) ++ ", " ++ temps ++
         " with " ++ format_fixed0 (precipitation_mm first) ++ "mm precip.")%string
    end in
  (dest_label ++ ": " ++ weather_line ++ ". " ++ str_of_int (len pois) ++
   " sights nearby, " ++ str_of_int (len events) ++ " events found.")%string.

(** [datetime.utcnow()] *)
Definition utcnow : M datetime :=
  fun w => (Ok (utcnow_at o (clock_reads w)), ticked w).

(** [[(today + timedelta(days=i)).isoformat() for i in range(days)]] *)
Definition trip_dates (today : Calendar.date) (days : Z) : result (list string) :=
  for_each (fun i => d <- add_days today i ;; Ok (isoformat d)) (range days).

Definition polish : string -> M string := Polish.maybe_polish o settings.

(** The [DayPlan(...)] of the response comprehension. *)
Definition polished_day (dp : DayPlan) : M DayPlan :=
  m <~ polish (morning dp) ;;
  a <~ polish (afternoon dp) ;;
  e <~ polish (evening dp) ;;
  ms <~ mfor_each polish (meals dp) ;;
  ret {| day := day dp;
         dp_date := dp_date dp;
         morning := m;
         afternoon := a;
         evening := e;
         meals := ms |}.

(** [plan_trip].  The three tasks that the handler creates and gathers are
    run here one after the other, in the order of their creation.  The
    event loop may interleave their requests differently.  For a run in
    which all three return this changes the order of the requests in the
    log and nothing else: the answers are whatever the oracle says, so
    every such run of the program is a run of this definition up to that
    order.  For a run in which one of the three raises, the program may by
    then have sent requests of the other two that this definition does not
    log, and when more than one fails the event loop decides whose
    exception the handler sees.  What is proved below about the requests of
    a run is therefore proved of runs that return, or of runs that stop
    before the tasks are created, and does not depend on the order of the
    log. *)
Definition plan_trip (req : TripRequest) : M TripResponse :=
  let destination := str_strip (destination req) in
  let days := days req in
  now <~ utcnow ;;
  let today := date_of now in
  dates <~ lift (trip_dates today days) ;;
  (* 1) geocode *)
  geo <~ geocode o settings destination ;;
  let label := (str_of (geo_name geo) ++ ", " ++ str_of (geo_country geo))%string in
  let lat := geo_lat geo in
  let lon := geo_lon geo in
  let tz := geo_timezone geo in
  (* 2) forecast, POIs, events *)
  start_dt <~ utcnow ;;
  end_dt <~ lift (datetime_add_days start_dt (days + 1)) ;;
  forecast_days <~ forecast o settings lat lon days tz ;;
  pois <~ wiki_pois o settings lat lon 3000 8 "en" ;;
  events <~ ticketmaster_events o settings lat lon start_dt end_dt 25 ;;
  (* 3) itinerary blocks *)
  daily <~ lift (for_each (fun row => Synth.plan_blocks (fst row) (snd row) pois events)
                   (enumerate dates)) ;;
  (* 4) summary and packing *)
  let summary_raw := summarize_context label forecast_days pois events in
  summary <~ polish summary_raw ;;
  let packing := Packing.build_packing_list forecast_days in
  (* 5) response *)
  itinerary <~ mfor_each polished_day daily ;;
  ret {| resp_destination := label;
         resp_days := days;
         resp_summary := summary;
         daily_itinerary := itinerary;
         packing_list := packing;
         context := {| ctx_geo := geo;
                       ctx_forecast := forecast_days;
                       ctx_pois := pois;
                       ctx_events := events |} |}.

(** ** The dates of the trip *)

Lemma trip_dates_nth (today : Calendar.date) (days : Z) (dates : list string) :
  trip_dates today days = Ok dates ->
  List.length dates = Z.to_nat days /\
  forall k, (k < Z.to_nat days)%nat ->
    nth_error dates k = Some (isoformat (today + Z.of_nat k)) /\
    0 < today + Z.of_nat k <= MAXORDINAL.
Proof.
  unfold trip_dates. intros H.
  split; [rewrite (for_each_length _ _ _ H); apply range_length|].
  intros k Hk.
  destruct (for_each_nth _ _ _ k _ H (range_nth days k Hk)) as (y & Hy & Hbody).
  destruct (add_days today (Z.of_nat k)) as [d|] eqn:Ed; [|discriminate].
  cbn [bind] in Hbody. injection Hbody as <-.
  apply add_days_inv in Ed. destruct Ed as [-> Hr].
  split; [exact Hy | exact Hr].
Qed.

Lemma trip_dates_total (today : Calendar.date) (days : Z) :
  0 < today -> today + days - 1 <= MAXORDINAL ->
  exists dates, trip_dates today days = Ok dates.
Proof.
  intros H0 H1. unfold trip_dates. apply for_each_total.
  intros i Hi. apply range_in in Hi.
  rewrite add_days_in_range by lia. eexists. reflexivity.
Qed.

(** ** The polished copy of a day *)

Lemma polished_day_keeps (dp dp' : DayPlan) (w w' : world) :
  polished_day dp w = (Ok dp', w') ->
  day dp' = day dp /\ dp_date dp' = dp_date dp.
Proof.
  unfold polished_day. intros H.
  apply mbind_inv in H. destruct H as (m & w1 & _ & H).
  apply mbind_inv in H. destruct H as (a & w2 & _ & H).
  apply mbind_inv in H. destruct H as (e & w3 & _ & H).
  apply mbind_inv in H. destruct H as (ms & w4 & _ & H).
  apply ret_inv in H. destruct H as [-> _]. split; reflexivity.
Qed.

Lemma polish_returns (text : string) (w : world) :
  exists s w', polish text w = (Ok s, w').
Proof. apply Polish.maybe_polish_returns. Qed.

Lemma polished_day_returns (dp : DayPlan) (w : world) :
  exists dp' w', polished_day dp w = (Ok dp', w').
Proof.
  unfold polished_day.
  destruct (polish_returns (morning dp) w) as (m & w1 & H1).
  destruct (polish_returns (afternoon dp) w1) as (a & w2 & H2).
  destruct (polish_returns (evening dp) w2) as (e & w3 & H3).
  destruct (mfor_each_total polish (meals dp) w3 polish_returns) as (ms & w4 & H4).
  rewrite (mbind_ok _ _ _ _ _ H1), (mbind_ok _ _ _ _ _ H2),
          (mbind_ok _ _ _ _ _ H3), (mbind_ok _ _ _ _ _ H4).
  eexists. eexists. reflexivity.
Qed.

(** ** The handler *)

(** What a returning run of the handler went through. *)
Lemma plan_trip_inv (req : TripRequest) (w w' : world) (resp : TripResponse) :
  plan_trip req w = (Ok resp, w') ->
  exists dates pois events daily w1,
    trip_dates (date_of (utcnow_at o (clock_reads w))) (days req) = Ok dates /\
    for_each (fun row => Synth.plan_blocks (fst row) (snd row) pois events)
      (enumerate dates) = Ok daily /\
    mfor_each polished_day daily w1 = (Ok (daily_itinerary resp), w').
Proof.
  unfold plan_trip. cbn zeta. intros H.
  apply mbind_inv in H. destruct H as (now & w1 & Hnow & H).
  unfold utcnow in Hnow. injection Hnow as <- <-.
  apply mbind_inv in H. destruct H as (dates & w2 & Hdates & H).
  apply lift_inv in Hdates. destruct Hdates as [Hdates ->].
  apply mbind_inv in H. destruct H as (geo & w3 & _ & H).
  apply mbind_inv in H. destruct H as (start_dt & w4 & _ & H).
  apply mbind_inv in H. destruct H as (end_dt & w5 & _ & H).
  apply mbind_inv in H. destruct H as (forecast_days & w6 & _ & H).
  apply mbind_inv in H. destruct H as (pois & w7 & _ & H).
  apply mbind_inv in H. destruct H as (events & w8 & _ & H).
  apply mbind_inv in H. destruct H as (daily & w9 & Hdaily & H).
  apply lift_inv in Hdaily. destruct Hdaily as [Hdaily ->].
  apply mbind_inv in H. destruct H as (summary & w10 & _ & H).
  apply mbind_inv in H. destruct H as (itinerary & w11 & Hit & H).
  apply ret_inv in H. destruct H as [-> ->].
  exists dates, pois, events, daily, w10.
  split; [exact Hdates|]. split; [exact Hdaily | exact Hit].
Qed.

(** C1. For a request with [days] in 1..21: once the four adapters have
    answered (and the trip lies within the calendar), the handler returns;
    and whenever it returns, the daily itinerary has exactly [days] entries,
    the entry at position [i] has day number [i + 1] and its date is the ISO
    text of the [i]-th day after today, today being the UTC date read when
    the handler starts. *)
Theorem plan_trip_daily_itinerary (req : TripRequest) (w : world) :
  valid_days req ->
  let today := date_of (utcnow_at o (clock_reads w)) in
  (forall geo w1 end_dt forecast_days w2 pois w3 events w4,
     0 < today -> today + days req - 1 <= MAXORDINAL ->
     geocode o settings (str_strip (destination req)) (ticked w) = (Ok geo, w1) ->
     datetime_add_days (utcnow_at o (clock_reads w1)) (days req + 1) = Ok end_dt ->
     forecast o settings (geo_lat geo) (geo_lon geo) (days req) (geo_timezone geo)
       (ticked w1) = (Ok forecast_days, w2) ->
     wiki_pois o settings (geo_lat geo) (geo_lon geo) 3000 8 "en" w2 = (Ok pois, w3) ->
     ticketmaster_events o settings (geo_lat geo) (geo_lon geo)
       (utcnow_at o (clock_reads w1)) end_dt 25 w3 = (Ok events, w4) ->
     exists resp w', plan_trip req w = (Ok resp, w')) /\
  (forall resp w',
     plan_trip req w = (Ok resp, w') ->
     len (daily_itinerary resp) = days req /\
     forall i, 0 <= i < days req ->
       exists dp,
         nth_error (daily_itinerary resp) (Z.to_nat i) = Some dp /\
         day dp = i + 1 /\
         dp_date dp = isoformat (today + i)).
Proof.
  intros [Hlo Hhi] today. split.
  - intros geo w1 end_dt forecast_days w2 pois w3 events w4
           Ht0 Ht1 Hgeo Hadd Hfc Hpoi Hev.
    destruct (trip_dates_total today (days req) Ht0 Ht1) as (dates & Hdates).
    assert (Hdaily : exists daily,
              for_each (fun row => Synth.plan_blocks (fst row) (snd row) pois events)
                (enumerate dates) = Ok daily).
    { apply for_each_total. intros [i d] Hin.
      apply enumerate_from_in in Hin. destruct Hin as [Hi _].
      destruct (Synth.plan_blocks_total i d pois events ltac:(lia)) as (dp & Hdp & _).
      exists dp. exact Hdp. }
    destruct Hdaily as (daily & Hdaily).
    unfold plan_trip. cbn zeta.
    unfold mbind at 1. unfold utcnow at 1. fold today.
    rewrite Hdates. unfold mbind at 1. unfold lift at 1.
    rewrite (mbind_ok _ _ _ _ _ Hgeo).
    unfold mbind at 1. unfold utcnow at 1.
    rewrite Hadd. unfold mbind at 1. unfold lift at 1.
    rewrite (mbind_ok _ _ _ _ _ Hfc), (mbind_ok _ _ _ _ _ Hpoi),
            (mbind_ok _ _ _ _ _ Hev).
    rewrite Hdaily. unfold mbind at 1. unfold lift at 1.
    match goal with
    | |- context [polish ?t] =>
        destruct (polish_returns t w4) as (summary & w5 & Hsum)
    end.
    rewrite (mbind_ok _ _ _ _ _ Hsum).
    destruct (mfor_each_total polished_day daily w5 polished_day_returns)
      as (itinerary & w6 & Hit).
    rewrite (mbind_ok _ _ _ _ _ Hit).
    eexists. eexists. reflexivity.
  - intros resp w' Hrun.
    destruct (plan_trip_inv req w w' resp Hrun)
      as (dates & pois & events & daily & w1 & Hdates & Hdaily & Hit).
    fold today in Hdates.
    destruct (trip_dates_nth today (days req) dates Hdates) as [Hlen_dates Hnth_dates].
    destruct (mfor_each_nth _ _ _ _ _ Hit) as [Hlen_it Hnth_it].
    pose proof (for_each_length _ _ _ Hdaily) as Hlen_daily.
    unfold enumerate in Hlen_daily. rewrite enumerate_from_length in Hlen_daily.
    split; [unfold len; lia|].
    intros i Hi.
    assert (Hk : (Z.to_nat i < Z.to_nat (days req))%nat) by lia.
    destruct (Hnth_dates _ Hk) as [Hd _]. rewrite Z2Nat.id in Hd by lia.
    pose proof (enumerate_from_nth dates 0 _ _ Hd) as He.
    destruct (for_each_nth _ _ _ _ _ Hdaily He) as (dp0 & Hdp0 & Hblocks).
    cbn [fst snd] in Hblocks.
    apply Synth.plan_blocks_day_date in Hblocks. destruct Hblocks as [Hday Hdate].
    destruct (Hnth_it _ _ Hdp0) as (dp & wa & wb & Hdp & Hpol).
    apply polished_day_keeps in Hpol. destruct Hpol as [Hday' Hdate'].
    exists dp. split; [exact Hdp|].
    rewrite Hday', Hdate', Hday, Hdate. split; [lia | reflexivity].
Qed.

End Handler.

(** ** Running the handler *)

Definition paris_geocode : json :=
  JDict [("results",
          JList [JDict [("name", JStr "Paris"); ("country", JStr "France");
                        ("latitude", JFloat 48.85); ("longitude", JFloat 2.35);
                        ("timezone", JStr "Europe/Paris")]])].

Definition paris_forecast : json :=
  daily_document
    [JStr "2025-06-01"; JStr "2025-06-02"; JStr "2025-06-03"; JStr "2025-06-04"]
    [JFloat 28; JInt 9; JFloat 15; JFloat 20]
    [JFloat 17; JFloat 3.5; JFloat 8; JFloat 11]
    [JFloat 0; JFloat 0; JFloat 5; JFloat 0]
    [JInt 0; JInt 3; JInt 63; JInt 1].

Definition paris_geosearch : json :=
  JDict [("query",
          JDict [("geosearch",
                  JList [JDict [("pageid", JInt 11); ("title", JStr "Louvre");
                                ("dist", JFloat 1200)];
                         JDict [("pageid", JInt 12); ("title", JStr "Pont Neuf");
                                ("dist", JInt 800)]])])].

Definition paris_pages : json :=
  JDict [("query",
          JDict [("pages",
                  JDict [("11", JDict [("pageid", JInt 11); ("title", JStr "Louvre");
                                       ("extract", JStr "Museum on the Seine.");
                                       ("fullurl", JStr "https://en.wikipedia.org/wiki/Louvre")]);
                         ("12", JDict [("pageid", JInt 12); ("title", JStr "Pont Neuf");
                                       ("extract", JNull)])])])].

Definition ok_json (doc : json) : get_outcome :=
  Responds {| status_code := 200; json_body := Some doc |}.

(** A world on 1 June 2025 in which every provider answers. *)
Definition paris : oracle :=
  {| answer := fun _ req =>
       if String.eqb (req_url req) GEOCODE_URL then ok_json paris_geocode
       else if String.eqb (req_url req) FORECAST_URL then ok_json paris_forecast
       else if String.eqb (req_url req) (WIKI_SEARCH_URL "en") then
         match assoc "list" (req_params req) with
         | Some _ => ok_json paris_geosearch
         | None => ok_json paris_pages
         end
       else Fails (OtherError "unexpected request");
     utcnow_at := fun _ => mkDatetime (ymd2ord 2025 6 1) 9 30 0;
     llm_libraries := false;
     llm_client := fun _ => None;
     llm_reply := fun _ _ => Raise (OtherError "no model") |}.

Definition three_days : TripRequest := mkTripRequest "Paris, France" 3.

Definition paris_run : result TripResponse * world :=
  @plan_trip plain_library paris default_settings three_days initial_world.

Definition itinerary_of (run : result TripResponse * world) : list DayPlan :=
  match fst run with
  | Ok resp => daily_itinerary resp
  | Raise _ => []
  end.

Example paris_itinerary :
  itinerary_of paris_run =
  [ mkDayPlan 1 "2025-06-01" "Explore: Louvre" "Visit: Pont Neuf"
      "Food market & riverfront" Synth.fixed_meals;
    mkDayPlan 2 "2025-06-02" "Explore: Pont Neuf" "Visit: Louvre"
      "Food market & riverfront" Synth.fixed_meals;
    mkDayPlan 3 "2025-06-03" "Explore: Louvre" "Visit: Pont Neuf"
      "Food market & riverfront" Synth.fixed_meals ].
Proof. vm_compute. reflexivity. Qed.

Example paris_requests :
  map req_url (requests (snd paris_run)) =
  [GEOCODE_URL; FORECAST_URL; WIKI_SEARCH_URL "en"; WIKI_SEARCH_URL "en"].
Proof. vm_compute. reflexivity. Qed.

Example paris_packing :
  match fst paris_run with
  | Ok resp => packing_list resp
  | Raise _ => []
  end =
  [ ("essentials", Packing.base_essentials ++ [Packing.rain_item]);
    ("clothing", Packing.base_clothing ++ [Packing.heat_item; Packing.cold_item]);
    ("toiletries", Packing.base_toiletries);
    ("electronics", Packing.base_electronics) ].
Proof. vm_compute. reflexivity. Qed.

(** A destination the geocoder does not know: a 404 for the client, and
    no other provider is asked. *)
Example nowhere_is_not_found :
  @plan_trip plain_library (Fetch.always (ok_json (JDict [("generationtime_ms", JFloat 0.5)])))
    default_settings (mkTripRequest "Nowhereistan123xyz" 3) initial_world =
  (Raise (HTTPException 404 "Destination not found"),
   {| requests :=
        [mkRequest GEOCODE_URL None
           [("name", JStr "Nowhereistan123xyz"); ("count", JInt 1);
            ("language", JStr "en"); ("format", JStr "json")] 8];
      clock_reads := 1;
      llm_prompts := [] |}).
Proof. vm_compute. reflexivity. Qed.

Lemma plan_trip_daily_itinerary_witness :
  valid_days three_days /\
  exists resp w',
    paris_run = (Ok resp, w') /\
    len (daily_itinerary resp) = 3 /\
    forall i, 0 <= i < 3 ->
      exists dp,
        nth_error (daily_itinerary resp) (Z.to_nat i) = Some dp /\
        day dp = i + 1 /\
        dp_date dp = isoformat (ymd2ord 2025 6 1 + i).
Proof.
  assert (Hvalid : valid_days three_days) by (unfold valid_days; simpl; lia).
  split; [exact Hvalid|].
  assert (Hrun : exists resp w', paris_run = (Ok resp, w'))
    by (vm_compute; eexists; eexists; reflexivity).
  destruct Hrun as (resp & w' & Hrun).
  exists resp, w'. split; [exact Hrun|].
  exact (proj2 (@plan_trip_daily_itinerary plain_library paris default_settings
                  three_days initial_world Hvalid) resp w' Hrun).
Defined.

(** ** More on the handler *)

Section HandlerRuns.
Context {L : Library}.
Variable o : oracle.
Variable settings : Settings.

Definition endpoints : list string :=
  [GEOCODE_URL; FORECAST_URL; WIKI_SEARCH_URL "en"; TICKETMASTER_URL].

Lemma utcnow_sends (P : request -> Prop) : sends_within P 0 (utcnow o).
Proof. apply sends_nothing. reflexivity. Qed.

Lemma utcnow_quiet : quiet (utcnow o).
Proof. intros w. reflexivity. Qed.

Lemma polished_day_sends (P : request -> Prop) (dp : DayPlan) :
  sends_within P 0 (polished_day o settings dp).
Proof.
  unfold polished_day, polish.
  apply (sends_bind P 0 0); [apply Polish.maybe_polish_sends_nothing | intros m].
  apply (sends_bind P 0 0); [apply Polish.maybe_polish_sends_nothing | intros a].
  apply (sends_bind P 0 0); [apply Polish.maybe_polish_sends_nothing | intros e].
  apply (sends_bind P 0 0);
    [apply sends_mfor_each; intros x; apply Polish.maybe_polish_sends_nothing
    | intros ms].
  apply sends_ret.
Qed.

(** The requests of a run of the handler, with the events adapter counted
    apart. *)
Lemma plan_trip_sends (P : request -> Prop) (n : nat) (req : TripRequest) :
  (forall r, In (req_url r) [GEOCODE_URL; FORECAST_URL; WIKI_SEARCH_URL "en"] -> P r) ->
  (forall lat lon start finish,
     sends_within P n (ticketmaster_events o settings lat lon start finish 25)) ->
  sends_within P (4 * attempts settings + n) (plan_trip o settings req).
Proof.
  intros HP Hev. unfold plan_trip. cbn zeta.
  eapply sends_weaken.
  - eapply sends_bind; [apply utcnow_sends | intros now].
    eapply sends_bind; [apply sends_lift | intros dates].
    eapply sends_bind;
      [apply geocode_sends; intros r Hr; apply HP; rewrite Hr; simpl; tauto
      | intros geo].
    eapply sends_bind; [apply utcnow_sends | intros start_dt].
    eapply sends_bind; [apply sends_lift | intros end_dt].
    eapply sends_bind;
      [apply forecast_sends; intros r Hr; apply HP; rewrite Hr; simpl; tauto
      | intros forecast_days].
    eapply sends_bind;
      [apply wiki_pois_sends; intros r Hr; apply HP; rewrite Hr; simpl; tauto
      | intros pois].
    eapply sends_bind; [apply Hev | intros events].
    eapply sends_bind; [apply sends_lift | intros daily].
    eapply sends_bind; [apply Polish.maybe_polish_sends_nothing | intros summary].
    eapply sends_bind;
      [apply sends_mfor_each; intros dp; apply polished_day_sends
      | intros itinerary].
    apply sends_ret.
  - lia.
Qed.

Ltac grows_leaf :=
  first
    [ apply grows_ret
    | apply grows_lift
    | apply (sends_grows (fun _ => True) 0);
      first [ apply utcnow_sends
            | apply Polish.maybe_polish_sends_nothing
            | apply sends_mfor_each; intros; apply polished_day_sends ]
    | eapply (sends_grows (fun _ => True));
      first [ apply geocode_sends | apply forecast_sends
            | apply wiki_pois_sends | apply ticketmaster_events_sends ];
      intros; exact I ].

Ltac grows_tail :=
  repeat (apply grows_bind; [grows_leaf | intros ?]); grows_leaf.

Ltac asks_skip := apply asks_later; [grows_leaf | intros ?].

(** A run that returns has been through every adapter: each of them has
    sent its request. *)
Lemma plan_trip_asks (req : TripRequest) :
  asks GEOCODE_URL (plan_trip o settings req) /\
  asks FORECAST_URL (plan_trip o settings req) /\
  asks (WIKI_SEARCH_URL "en") (plan_trip o settings req) /\
  (configured (TICKETMASTER_API_KEY settings) = true ->
     asks TICKETMASTER_URL (plan_trip o settings req)).
Proof.
  unfold plan_trip. cbn zeta. split; [|split; [|split]].
  - do 2 asks_skip.
    apply asks_first; [apply geocode_asks | intros geo]. grows_tail.
  - do 5 asks_skip.
    apply asks_first; [apply forecast_asks | intros forecast_days]. grows_tail.
  - do 6 asks_skip.
    apply asks_first; [apply wiki_pois_asks | intros pois]. grows_tail.
  - intros Hkey. do 7 asks_skip.
    apply asks_first; [apply ticketmaster_events_asks; exact Hkey | intros events].
    grows_tail.
Qed.

(** X18. A run of the handler that returns has sent at most
    [5 * max(1, MAX_RETRIES)] requests, every one of them to the geocoding,
    forecast, Wikipedia or Ticketmaster endpoint, and among them at least
    one to each of the first three, and one to Ticketmaster when its key is
    configured.  Nothing here depends on the order in which the requests
    of the three gathered tasks went out. *)
Theorem plan_trip_requests (req : TripRequest) (w w' : world)
    (resp : TripResponse) :
  plan_trip o settings req w = (Ok resp, w') ->
  exists l,
    requests w' = requests w ++ l /\
    Forall (fun r => In (req_url r) endpoints) l /\
    (List.length l <= 5 * Z.to_nat (Z.max 1 (MAX_RETRIES settings)))%nat /\
    In GEOCODE_URL (map req_url l) /\
    In FORECAST_URL (map req_url l) /\
    In (WIKI_SEARCH_URL "en") (map req_url l) /\
    (configured (TICKETMASTER_API_KEY settings) = true ->
       In TICKETMASTER_URL (map req_url l)).
Proof.
  intros Hrun.
  destruct (plan_trip_sends (fun r => In (req_url r) endpoints)
              (attempts settings) req) with (w := w) as (l & Hl & HP & Hn).
  - intros r Hr. unfold endpoints. simpl in *. tauto.
  - intros lat lon start finish. apply ticketmaster_events_sends.
    intros r Hr. rewrite Hr. unfold endpoints. simpl. tauto.
  - rewrite Hrun in Hl. cbn [snd] in Hl.
    assert (Hsame : forall url, asks url (plan_trip o settings req) ->
                                In url (map req_url l)).
    { intros url Hasks. destruct (Hasks w resp w' Hrun) as (l' & Hl' & Hin).
      rewrite Hl in Hl'. apply app_inv_head in Hl'. subst l'. exact Hin. }
    destruct (plan_trip_asks req) as (Hg & Hf & Hp & Ht).
    exists l. split; [exact Hl|]. split; [exact HP|].
    split; [unfold attempts in Hn; lia|].
    split; [apply Hsame, Hg|]. split; [apply Hsame, Hf|].
    split; [apply Hsame, Hp|]. intros Hkey. apply Hsame, Ht, Hkey.
Qed.

(** X19. Without a Ticketmaster key a run of the handler that returns has
    sent no request to Ticketmaster and at most [4 * max(1, MAX_RETRIES)]
    requests in all, and its response lists no events. *)
Theorem plan_trip_without_ticketmaster (req : TripRequest) (w w' : world)
    (resp : TripResponse) :
  configured (TICKETMASTER_API_KEY settings) = false ->
  plan_trip o settings req w = (Ok resp, w') ->
  (exists l,
     requests w' = requests w ++ l /\
     Forall (fun r => req_url r <> TICKETMASTER_URL) l /\
     (List.length l <= 4 * Z.to_nat (Z.max 1 (MAX_RETRIES settings)))%nat) /\
  ctx_events (context resp) = [].
Proof.
  intros Hkey Hrun. split.
  - destruct (plan_trip_sends (fun r => req_url r <> TICKETMASTER_URL) 0 req)
      with (w := w) as (l & Hl & HP & Hn).
    + intros r Hr Heq. rewrite Heq in Hr. simpl in Hr.
      destruct Hr as [H|[H|[H|[]]]]; discriminate H.
    + intros lat lon start finish.
      apply ticketmaster_events_sends_nothing. exact Hkey.
    + rewrite Hrun in Hl. cbn [snd] in Hl.
      exists l. split; [exact Hl|]. split; [exact HP|]. unfold attempts in Hn. lia.
  - pose proof Hrun as H. unfold plan_trip in H. cbn zeta in H.
    repeat (apply mbind_inv in H;
            let x := fresh "x" in let wx := fresh "w" in let Hx := fresh "Hx" in
            destruct H as (x & wx & Hx & H)).
    apply ret_inv in H. destruct H as [-> _]. cbn.
    match goal with
    | Hx : ticketmaster_events _ _ _ _ _ _ _ _ = (Ok ?evs, _) |- ?evs = [] =>
        rewrite (ticketmaster_events_unconfigured o settings _ _ _ _ _ _ Hkey) in Hx;
        injection Hx as <- _; reflexivity
    end.
Qed.

(** X20. Geocoding is a hard prerequisite: when [geocode] raises, the
    handler raises the same exception and stops there.  The only requests
    of the run are those of the geocoding call; no forecast, POI or event
    request is sent. *)
Theorem plan_trip_stops_at_geocode (req : TripRequest) (w w1 : world) (e : exn) :
  let today := date_of (utcnow_at o (clock_reads w)) in
  0 < today -> today + days req - 1 <= MAXORDINAL ->
  geocode o settings (str_strip (destination req)) (ticked w) = (Raise e, w1) ->
  plan_trip o settings req w = (Raise e, w1) /\
  exists l, requests w1 = requests w ++ l /\
            Forall (fun r => req_url r = GEOCODE_URL) l.
Proof.
  intros today H0 H1 Hgeo. split.
  - destruct (trip_dates_total today (days req) H0 H1) as (dates & Hdates).
    unfold plan_trip. cbn zeta.
    unfold mbind at 1. unfold utcnow at 1. fold today.
    rewrite Hdates. unfold mbind at 1. unfold lift at 1.
    apply (mbind_raise _ _ _ _ _ Hgeo).
  - destruct (geocode_sends o settings (fun r => req_url r = GEOCODE_URL)
                (str_strip (destination req)) (fun r Hr => Hr) (ticked w))
      as (l & Hl & HP & _).
    rewrite Hgeo in Hl. exists l. split; [exact Hl | exact HP].
Qed.

(** What a returning run of the handler went through, and what it
    returns. *)
Lemma plan_trip_inv_full (req : TripRequest) (w w' : world) (resp : TripResponse) :
  plan_trip o settings req w = (Ok resp, w') ->
  exists dates geo fc pois events daily summary itinerary wa wb wc wd,
    trip_dates (date_of (utcnow_at o (clock_reads w))) (days req) = Ok dates /\
    forecast o settings (geo_lat geo) (geo_lon geo) (days req) (geo_timezone geo) wa
      = (Ok fc, wb) /\
    for_each (fun row => Synth.plan_blocks (fst row) (snd row) pois events)
      (enumerate dates) = Ok daily /\
    polish o settings
      (summarize_context
         (str_of (geo_name geo) ++ ", " ++ str_of (geo_country geo))%string
         fc pois events) wc = (Ok summary, wd) /\
    mfor_each (polished_day o settings) daily wd = (Ok itinerary, w') /\
    resp = {| resp_destination :=
                (str_of (geo_name geo) ++ ", " ++ str_of (geo_country geo))%string;
              resp_days := days req;
              resp_summary := summary;
              daily_itinerary := itinerary;
              packing_list := Packing.build_packing_list fc;
              context := {| ctx_geo := geo; ctx_forecast := fc;
                            ctx_pois := pois; ctx_events := events |} |}.
Proof.
  unfold plan_trip. cbn zeta. intros H.
  apply mbind_inv in H. destruct H as (now & w1 & Hnow & H).
  unfold utcnow in Hnow. injection Hnow as <- <-.
  apply mbind_inv in H. destruct H as (dates & w2 & Hdates & H).
  apply lift_inv in Hdates. destruct Hdates as [Hdates ->].
  apply mbind_inv in H. destruct H as (geo & w3 & _ & H).
  apply mbind_inv in H. destruct H as (start_dt & w4 & _ & H).
  apply mbind_inv in H. destruct H as (end_dt & w5 & _ & H).
  apply mbind_inv in H. destruct H as (fc & w6 & Hfc & H).
  apply mbind_inv in H. destruct H as (pois & w7 & _ & H).
  apply mbind_inv in H. destruct H as (events & w8 & _ & H).
  apply mbind_inv in H. destruct H as (daily & w9 & Hdaily & H).
  apply lift_inv in Hdaily. destruct Hdaily as [Hdaily ->].
  apply mbind_inv in H. destruct H as (summary & w10 & Hsum & H).
  apply mbind_inv in H. destruct H as (itinerary & w11 & Hit & H).
  apply ret_inv in H. destruct H as [-> ->].
  exists dates, geo, fc, pois, events, daily, summary, itinerary, w5, w6, w8, w10.
  repeat (split; [assumption|]). reflexivity.
Qed.

Lemma polish_all_disabled (texts : list string) (w : world) :
  configured (OPENAI_API_KEY settings) && llm_libraries o = false ->
  mfor_each (polish o settings) texts w = (Ok texts, w).
Proof.
  intros H. induction texts as [|t rest IH]; simpl; [reflexivity|].
  unfold polish at 1.
  rewrite (mbind_ok _ _ _ _ _ (Polish.maybe_polish_disabled o settings t w H)).
  rewrite (mbind_ok _ _ _ _ _ IH). reflexivity.
Qed.

Lemma polished_day_disabled (dp : DayPlan) (w : world) :
  configured (OPENAI_API_KEY settings) && llm_libraries o = false ->
  polished_day o settings dp w = (Ok dp, w).
Proof.
  intros H. unfold polished_day, polish.
  rewrite (mbind_ok _ _ _ _ _ (Polish.maybe_polish_disabled o settings _ w H)).
  rewrite (mbind_ok _ _ _ _ _ (Polish.maybe_polish_disabled o settings _ w H)).
  rewrite (mbind_ok _ _ _ _ _ (Polish.maybe_polish_disabled o settings _ w H)).
  rewrite (mbind_ok _ _ _ _ _ (polish_all_disabled (meals dp) w H)).
  destruct dp. reflexivity.
Qed.

Lemma polished_days_disabled (daily : list DayPlan) (w : world) :
  configured (OPENAI_API_KEY settings) && llm_libraries o = false ->
  mfor_each (polished_day o settings) daily w = (Ok daily, w).
Proof.
  intros H. induction daily as [|dp rest IH]; simpl; [reflexivity|].
  rewrite (mbind_ok _ _ _ _ _ (polished_day_disabled dp w H)).
  rewrite (mbind_ok _ _ _ _ _ IH). reflexivity.
Qed.

Lemma plan_trip_quiet (req : TripRequest) :
  configured (OPENAI_API_KEY settings) && llm_libraries o = false ->
  quiet (plan_trip o settings req).
Proof.
  intros H. unfold plan_trip. cbn zeta.
  apply quiet_bind; [apply utcnow_quiet | intros now].
  apply quiet_bind; [apply quiet_lift | intros dates].
  apply quiet_bind; [apply geocode_quiet | intros geo].
  apply quiet_bind; [apply utcnow_quiet | intros start_dt].
  apply quiet_bind; [apply quiet_lift | intros end_dt].
  apply quiet_bind; [apply forecast_quiet | intros forecast_days].
  apply quiet_bind; [apply wiki_pois_quiet | intros pois].
  apply quiet_bind; [apply ticketmaster_events_quiet | intros events].
  apply quiet_bind; [apply quiet_lift | intros daily].
  apply quiet_bind; [apply Polish.maybe_polish_quiet; exact H | intros summary].
  apply quiet_bind; [|intros itinerary; apply quiet_ret].
  intros w. rewrite (polished_days_disabled daily w H). reflexivity.
Qed.

(** X21. Without an OpenAI key, or without the model libraries, a run of
    the handler never prompts the model, whether it returns or raises; and
    what it returns is the synthesizer's own text: the itinerary is the
    list of [plan_blocks] results for the trip's dates and the summary is
    [summarize_context] of the data in the response. *)
Theorem plan_trip_without_polish (req : TripRequest) (w : world) :
  configured (OPENAI_API_KEY settings) && llm_libraries o = false ->
  llm_prompts (snd (plan_trip o settings req w)) = llm_prompts w /\
  forall resp w', plan_trip o settings req w = (Ok resp, w') ->
    resp_summary resp =
      summarize_context (resp_destination resp) (ctx_forecast (context resp))
        (ctx_pois (context resp)) (ctx_events (context resp)) /\
    exists dates,
      trip_dates (date_of (utcnow_at o (clock_reads w))) (days req) = Ok dates /\
      for_each (fun row => Synth.plan_blocks (fst row) (snd row)
                             (ctx_pois (context resp)) (ctx_events (context resp)))
        (enumerate dates) = Ok (daily_itinerary resp).
Proof.
  intros H. split; [apply plan_trip_quiet; exact H|].
  intros resp w' Hrun.
  destruct (plan_trip_inv_full req w w' resp Hrun)
    as (dates & geo & fc & pois & events & daily & summary & itinerary &
        wa & wb & wc & wd & Hdates & _ & Hdaily & Hsum & Hit & ->).
  cbn. unfold polish in Hsum.
  rewrite (Polish.maybe_polish_disabled o settings _ wc H) in Hsum.
  injection Hsum as <- <-.
  rewrite (polished_days_disabled daily wc H) in Hit. injection Hit as <- _.
  split; [reflexivity|]. exists dates. split; [exact Hdates | exact Hdaily].
Qed.

(** X22. A response that is returned is consistent with itself: it echoes
    the requested number of days, its destination is "name, country" of the
    geocoded place it reports, its packing list is [build_packing_list] of
    the forecast it reports, and that forecast has at most [days] days. *)
Theorem plan_trip_response_consistent (req : TripRequest) (w w' : world)
    (resp : TripResponse) :
  valid_days req ->
  plan_trip o settings req w = (Ok resp, w') ->
  resp_days resp = days req /\
  resp_destination resp =
    (str_of (geo_name (ctx_geo (context resp))) ++ ", " ++
     str_of (geo_country (ctx_geo (context resp))))%string /\
  packing_list resp = Packing.build_packing_list (ctx_forecast (context resp)) /\
  len (ctx_forecast (context resp)) <= days req.
Proof.
  intros [Hlo Hhi] Hrun.
  destruct (plan_trip_inv_full req w w' resp Hrun)
    as (dates & geo & fc & pois & events & daily & summary & itinerary &
        wa & wb & wc & wd & _ & Hfc & _ & _ & _ & ->).
  cbn. repeat (split; [reflexivity|]).
  eapply forecast_length; [|exact Hfc]. lia.
Qed.

End HandlerRuns.

Lemma plan_trip_requests_witness :
  exists resp w',
    paris_run = (Ok resp, w') /\
    exists l,
      requests w' = requests initial_world ++ l /\
      Forall (fun r => In (req_url r) endpoints) l /\
      (List.length l <= 5 * Z.to_nat (Z.max 1 (MAX_RETRIES default_settings)))%nat /\
      In GEOCODE_URL (map req_url l) /\
      In FORECAST_URL (map req_url l) /\
      In (WIKI_SEARCH_URL "en") (map req_url l) /\
      (configured (TICKETMASTER_API_KEY default_settings) = true ->
         In TICKETMASTER_URL (map req_url l)).
Proof.
  assert (Hrun : exists resp w', paris_run = (Ok resp, w'))
    by (vm_compute; eexists; eexists; reflexivity).
  destruct Hrun as (resp & w' & Hrun).
  exists resp, w'. split; [exact Hrun|].
  exact (@plan_trip_requests plain_library paris default_settings
           three_days initial_world w' resp Hrun).
Defined.

Lemma plan_trip_without_ticketmaster_witness :
  exists resp w',
    paris_run = (Ok resp, w') /\
    (exists l,
       requests w' = requests initial_world ++ l /\
       Forall (fun r => req_url r <> TICKETMASTER_URL) l /\
       (List.length l <= 4 * Z.to_nat (Z.max 1 (MAX_RETRIES default_settings)))%nat) /\
    ctx_events (context resp) = [].
Proof.
  assert (Hrun : exists resp w', paris_run = (Ok resp, w'))
    by (vm_compute; eexists; eexists; reflexivity).
  destruct Hrun as (resp & w' & Hrun).
  exists resp, w'. split; [exact Hrun|].
  exact (@plan_trip_without_ticketmaster plain_library paris default_settings
           three_days initial_world w' resp eq_refl Hrun).
Defined.

Definition nowhere : oracle :=
  Fetch.always (ok_json (JDict [("generationtime_ms", JFloat 0.5)])).

Lemma plan_trip_stops_at_geocode_witness :
  @plan_trip plain_library nowhere default_settings
    (mkTripRequest "Nowhereistan123xyz" 3) initial_world =
  (Raise (HTTPException 404 "Destination not found"),
   sent (@geocode_request default_settings "Nowhereistan123xyz") (ticked initial_world)).
Proof.
  apply (proj1 (@plan_trip_stops_at_geocode plain_library nowhere default_settings
                  (mkTripRequest "Nowhereistan123xyz" 3) initial_world
                  (sent (@geocode_request default_settings "Nowhereistan123xyz")
                     (ticked initial_world))
                  (HTTPException 404 "Destination not found")
                  ltac:(vm_compute; reflexivity)
                  ltac:(vm_compute; discriminate)
                  ltac:(vm_compute; reflexivity))).
Defined.

Lemma plan_trip_without_polish_witness :
  llm_prompts (snd paris_run) = llm_prompts initial_world.
Proof.
  apply (proj1 (@plan_trip_without_polish plain_library paris default_settings
                  three_days initial_world eq_refl)).
Defined.

Lemma plan_trip_response_consistent_witness :
  valid_days three_days /\
  exists resp w',
    paris_run = (Ok resp, w') /\
    resp_days resp = 3 /\
    resp_destination resp =
      (@str_of plain_library (geo_name (ctx_geo (context resp))) ++ ", " ++
       @str_of plain_library (geo_country (ctx_geo (context resp))))%string /\
    packing_list resp = Packing.build_packing_list (ctx_forecast (context resp)) /\
    len (ctx_forecast (context resp)) <= 3.
Proof.
  assert (Hvalid : valid_days three_days) by (unfold valid_days; simpl; lia).
  split; [exact Hvalid|].
  assert (Hrun : exists resp w', paris_run = (Ok resp, w'))
    by (vm_compute; eexists; eexists; reflexivity).
  destruct Hrun as (resp & w' & Hrun).
  exists resp, w'. split; [exact Hrun|].
  exact (@plan_trip_response_consistent plain_library paris default_settings
           three_days initial_world w' resp Hvalid Hrun).
Defined.

End App.

(* ================================================================== *)
(** * The first version of the service (main.py) *)
(* ================================================================== *)

Module Main.
Import Py World.

(** ["\n"] *)
Definition newline : string := String "010" EmptyString.

(** [s.count("\n")] *)
Fixpoint newlines (s : string) : nat :=
  match s with
  | EmptyString => O
  | String c rest =>
      if Ascii.eqb c "010" then S (newlines rest) else newlines rest
  end.

(** [class TripState(TypedDict)] *)
Record TripState := mkTripState {
  st_destination : string;
  st_days : Z;
  st_itinerary : string;
  st_packing_list : string
}.

(** [class TripRequest(BaseModel)] and [class TripResponse(BaseModel)] of
    this version. *)
Record TripRequest := mkTripRequest {
  destination : string;
  days : Z
}.

Record TripResponse := mkTripResponse {
  resp_destination : string;
  resp_days : Z;
  itinerary : string;
  packing_list : string
}.

(** [range(1, days + 1)] *)
Definition day_numbers (days : Z) : list Z := map (fun i => i + 1) (range days).

Definition day_line (d : Z) : string :=
  ("Day " ++ str_of_int d ++
   ": Morning—City walk; Afternoon—Top landmark; Evening—Local food crawl.")%string.

Definition _fallback_itinerary (destination : string) (days : Z) : string :=
  let lines :=
    [("Trip to " ++ destination ++ " — " ++ str_of_int days ++ " day(s) itinerary:")%string]
    ++ map day_line (day_numbers days) in
  String.concat newline lines.

Definition _fallback_packing_list (destination itinerary : string) : string :=
  ("Essentials: Passport/ID, wallet, phone, charger, meds." ++ newline ++
   "Clothing: 3–5 outfits, comfy walking shoes, light jacket." ++ newline ++
   "Toiletries: toothbrush, toothpaste, sunscreen, deodorant." ++ newline ++
   "Destination-specific for " ++ destination ++
   ": small umbrella, reusable water bottle.")%string.

(** The content of the [HumanMessage] of each node. *)
Definition itinerary_prompt (destination : string) (days : Z) : string :=
  ("Create a " ++ str_of_int days ++ "-day travel itinerary for a trip to " ++
   destination ++ ". Keep it actionable and walkable where possible.")%string.

Definition packing_prompt (destination itinerary : string) : string :=
  ("Based on this itinerary for " ++ destination ++
   ", suggest a packing list:" ++ newline ++ newline ++ itinerary)%string.

Section Workflow.
Context {L : Library}.
Variable o : oracle.

(** [os.getenv("OPENAI_API_KEY")] *)
Variable env_key : option string.

Definition _has_openai_key : bool := configured env_key.

(** [_make_llm()]: [None] without a key, else the client
    [ChatOpenAI(model=..., temperature=...)], whose construction may
    raise. *)
Definition _make_llm : M (option unit) :=
  if negb _has_openai_key then ret None
  else
    _ <~ Polish.chat_openai o ;;
    ret (Some tt).

(** [llm.invoke([system, user])] and [resp.content.strip()]: the model is
    prompted with the user's message and the content of its reply is
    stripped.  Nothing is caught here. *)
Definition ask (prompt : string) : M string :=
  content <~ Polish.invoke o prompt ;;
  lift (Polish.content_strip content).

Definition create_itinerary (state : TripState) : M TripState :=
  let destination := st_destination state in
  let days := st_days state in
  llm <~ _make_llm ;;
  match llm with
  | None =>
      ret {| st_destination := st_destination state;
             st_days := st_days state;
             st_itinerary := _fallback_itinerary destination days;
             st_packing_list := st_packing_list state |}
  | Some _ =>
      content <~ ask (itinerary_prompt destination days) ;;
      ret {| st_destination := st_destination state;
             st_days := st_days state;
             st_itinerary := content;
             st_packing_list := st_packing_list state |}
  end.

Definition suggest_packing_list (state : TripState) : M TripState :=
  let destination := st_destination state in
  let itinerary := st_itinerary state in
  llm <~ _make_llm ;;
  match llm with
  | None =>
      ret {| st_destination := st_destination state;
             st_days := st_days state;
             st_itinerary := st_itinerary state;
             st_packing_list := _fallback_packing_list destination itinerary |}
  | Some _ =>
      content <~ ask (packing_prompt destination itinerary) ;;
      ret {| st_destination := st_destination state;
             st_days := st_days state;
             st_itinerary := st_itinerary state;
             st_packing_list := content |}
  end.

(** [compiled_app.invoke]: the graph enters at [create_itinerary], goes on
    to [suggest_packing_list] and ends. *)
Definition compiled_app (state : TripState) : M TripState :=
  s1 <~ create_itinerary state ;;
  suggest_packing_list s1.

Definition plan_trip (req : TripRequest) : M TripResponse :=
  let init_state := {| st_destination := destination req;
                       st_days := days req;
                       st_itinerary := "";
                       st_packing_list := "" |} in
  final_state <~ compiled_app init_state ;;
  ret {| resp_destination := st_destination final_state;
         resp_days := st_days final_state;
         itinerary := st_itinerary final_state;
         packing_list := st_packing_list final_state |}.

End Workflow.

(** ** Running the workflow *)

Example fallback_two_days :
  _fallback_itinerary "Tokyo" 2 =
  ("Trip to Tokyo — 2 day(s) itinerary:" ++ newline ++
   "Day 1: Morning—City walk; Afternoon—Top landmark; Evening—Local food crawl." ++
   newline ++
   "Day 2: Morning—City walk; Afternoon—Top landmark; Evening—Local food crawl.")%string.
Proof. vm_compute. reflexivity. Qed.

Example fallback_no_days :
  _fallback_itinerary "Tokyo" 0 = "Trip to Tokyo — 0 day(s) itinerary:".
Proof. vm_compute. reflexivity. Qed.

(** ** Properties of the fallback texts *)

Lemma newlines_app (a b : string) :
  newlines (a ++ b) = (newlines a + newlines b)%nat.
Proof.
  induction a as [|c a IH]; simpl; [reflexivity|].
  destruct (Ascii.eqb c "010"); rewrite IH; reflexivity.
Qed.

Lemma newlines_uint (u : Decimal.uint) :
  newlines (NilEmpty.string_of_uint u) = 0%nat.
Proof. induction u; simpl; auto. Qed.

Lemma newlines_str_of_int (n : Z) : newlines (str_of_int n) = 0%nat.
Proof.
  unfold str_of_int, NilZero.string_of_int, NilZero.string_of_uint.
  destruct (Z.to_int n) as [u|u]; destruct u; simpl;
    try reflexivity; apply newlines_uint.
Qed.

Lemma newlines_day_line (d : Z) : newlines (day_line d) = 0%nat.
Proof.
  unfold day_line. rewrite !newlines_app, newlines_str_of_int. reflexivity.
Qed.

Lemma newlines_lines (h : string) (ls : list string) :
  (forall l, In l ls -> newlines l = 0%nat) ->
  newlines (String.concat newline (h :: ls)) = (newlines h + List.length ls)%nat.
Proof.
  revert h. induction ls as [|l rest IH]; intros h Hls.
  - simpl. lia.
  - change (String.concat newline (h :: l :: rest))
      with (h ++ newline ++ String.concat newline (l :: rest))%string.
    rewrite !newlines_app, IH by (intros x Hx; apply Hls; right; exact Hx).
    rewrite (Hls l (or_introl eq_refl)). simpl. lia.
Qed.

(** X23. The fallback itinerary is a header followed by one line per day:
    its text has as many line breaks as the destination has, plus
    [days]; for [days <= 0] it is the header alone. *)
Theorem fallback_itinerary_lines (destination : string) (days : Z) :
  newlines (_fallback_itinerary destination days) =
    (newlines destination + Z.to_nat days)%nat /\
  (days <= 0 ->
     _fallback_itinerary destination days =
     ("Trip to " ++ destination ++ " — " ++ str_of_int days ++ " day(s) itinerary:")%string).
Proof.
  unfold _fallback_itinerary. cbn zeta. split.
  - cbn [app]. rewrite newlines_lines.
    + rewrite !newlines_app, newlines_str_of_int.
      unfold day_numbers. rewrite !length_map, range_length.
      simpl. lia.
    + intros l Hl. apply in_map_iff in Hl. destruct Hl as (d & <- & _).
      apply newlines_day_line.
  - intros Hd. unfold day_numbers, range.
    replace (Z.to_nat days) with 0%nat by lia. reflexivity.
Qed.

Section WorkflowRuns.
Context {L : Library}.
Variable o : oracle.
Variable env_key : option string.

Lemma ask_world (prompt : string) (w : world) :
  snd (ask o prompt w) = Polish.prompted prompt w.
Proof.
  unfold ask, mbind, Polish.invoke, lift.
  destruct (llm_reply o (List.length (llm_prompts w)) prompt); reflexivity.
Qed.

Lemma make_llm_without_key (w : world) :
  configured env_key = false -> _make_llm o env_key w = (Ok None, w).
Proof. intros H. unfold _make_llm, _has_openai_key. rewrite H. reflexivity. Qed.

Lemma make_llm_fails (w : world) (e : exn) :
  configured env_key = true ->
  llm_client o (List.length (llm_prompts w)) = Some e ->
  _make_llm o env_key w = (Raise e, w).
Proof.
  intros H He. unfold _make_llm, _has_openai_key. rewrite H. cbn [negb].
  unfold mbind, Polish.chat_openai. rewrite He. reflexivity.
Qed.

Lemma make_llm_builds (w : world) :
  configured env_key = true ->
  llm_client o (List.length (llm_prompts w)) = None ->
  _make_llm o env_key w = (Ok (Some tt), w).
Proof.
  intros H He. unfold _make_llm, _has_openai_key. rewrite H. cbn [negb].
  unfold mbind, Polish.chat_openai. rewrite He. reflexivity.
Qed.

Lemma make_llm_inv (w w1 : world) (llm : option unit) :
  configured env_key = true ->
  _make_llm o env_key w = (Ok llm, w1) ->
  llm = Some tt /\ w1 = w.
Proof.
  intros H. unfold _make_llm, _has_openai_key. rewrite H. cbn [negb].
  unfold mbind, Polish.chat_openai.
  destruct (llm_client o (List.length (llm_prompts w))); [discriminate|].
  unfold ret. intros [= <- <-]. split; reflexivity.
Qed.

(** X24. Without [OPENAI_API_KEY] in the environment the service answers
    from its fallbacks and touches nothing outside: the response echoes the
    destination and the days, carries the fallback itinerary and the
    fallback packing list of the destination, and the world is as before
    (no prompt, no request). *)
Theorem plan_trip_without_key (req : TripRequest) (w : world) :
  configured env_key = false ->
  plan_trip o env_key req w =
    (Ok {| resp_destination := destination req;
           resp_days := days req;
           itinerary := _fallback_itinerary (destination req) (days req);
           packing_list :=
             _fallback_packing_list (destination req)
               (_fallback_itinerary (destination req) (days req)) |},
     w).
Proof.
  intros H. unfold plan_trip, compiled_app, create_itinerary,
    suggest_packing_list. cbn zeta.
  unfold mbind. rewrite (make_llm_without_key w H). cbn.
  rewrite (make_llm_without_key w H). reflexivity.
Qed.

(** X15. With a key the two nodes build a client and ask the model, and
    nothing is caught.  When the client of the first node cannot be built,
    the request raises that exception and no prompt has been made.  When
    it can and the itinerary call raises, the request raises the same
    exception after that one prompt.  When the request returns, it echoes
    the destination and the days, and the run made exactly two prompts: the
    itinerary prompt, and then the packing prompt built from the itinerary
    it returns. *)
Theorem plan_trip_with_key (req : TripRequest) (w : world) :
  configured env_key = true ->
  (forall e, llm_client o (List.length (llm_prompts w)) = Some e ->
     plan_trip o env_key req w = (Raise e, w)) /\
  (forall e w1,
     llm_client o (List.length (llm_prompts w)) = None ->
     ask o (itinerary_prompt (destination req) (days req)) w = (Raise e, w1) ->
     plan_trip o env_key req w = (Raise e, w1) /\
     llm_prompts w1 =
       llm_prompts w ++ [itinerary_prompt (destination req) (days req)]) /\
  (forall resp w',
     plan_trip o env_key req w = (Ok resp, w') ->
     resp_destination resp = destination req /\
     resp_days resp = days req /\
     llm_prompts w' =
       llm_prompts w ++ [itinerary_prompt (destination req) (days req);
                         packing_prompt (destination req) (itinerary resp)]).
Proof.
  intros H. split; [|split].
  - intros e He.
    unfold plan_trip, compiled_app, create_itinerary. cbn zeta.
    apply mbind_raise, mbind_raise, mbind_raise.
    apply make_llm_fails; assumption.
  - intros e w1 Hnone Hask. split.
    + unfold plan_trip, compiled_app, create_itinerary. cbn zeta.
      apply mbind_raise, mbind_raise.
      rewrite (mbind_ok _ _ _ _ _ (make_llm_builds w H Hnone)).
      apply mbind_raise. exact Hask.
    + pose proof (ask_world (itinerary_prompt (destination req) (days req)) w) as Hw.
      rewrite Hask in Hw. cbn [snd] in Hw. rewrite Hw. reflexivity.
  - intros resp w' Hrun.
    unfold plan_trip, compiled_app, create_itinerary, suggest_packing_list in Hrun.
    cbn zeta in Hrun.
    apply mbind_inv in Hrun. destruct Hrun as (final & w4 & Hfinal & Hrun).
    apply ret_inv in Hrun. destruct Hrun as [-> ->].
    apply mbind_inv in Hfinal. destruct Hfinal as (s1 & w2 & Hs1 & Hfinal).
    apply mbind_inv in Hs1. destruct Hs1 as (llm1 & w0 & Hllm1 & Hs1).
    destruct (make_llm_inv _ _ _ H Hllm1) as [-> ->].
    cbn [st_destination st_days] in Hs1.
    apply mbind_inv in Hs1. destruct Hs1 as (text & w1 & Hask1 & Hs1).
    apply ret_inv in Hs1. destruct Hs1 as [-> ->].
    cbn [st_destination st_itinerary st_days st_packing_list] in Hfinal.
    apply mbind_inv in Hfinal. destruct Hfinal as (llm2 & w3 & Hllm2 & Hfinal).
    destruct (make_llm_inv _ _ _ H Hllm2) as [-> ->].
    cbn [st_destination st_itinerary] in Hfinal.
    apply mbind_inv in Hfinal. destruct Hfinal as (text2 & w5 & Hask2 & Hfinal).
    apply ret_inv in Hfinal. destruct Hfinal as [-> ->].
    cbn. split; [reflexivity|]. split; [reflexivity|].
    pose proof (ask_world (itinerary_prompt (destination req) (days req)) w) as Hw1.
    rewrite Hask1 in Hw1. cbn [snd] in Hw1.
    pose proof (ask_world (packing_prompt (destination req) text) w1) as Hw2.
    rewrite Hask2 in Hw2. cbn [snd] in Hw2.
    rewrite Hw2, Hw1. cbn. rewrite <- app_assoc. reflexivity.
Qed.

End WorkflowRuns.

Definition tokyo : TripRequest := mkTripRequest "Tokyo" 5.

Example main_model_fails :
  fst (@plan_trip plain_library (Polish.model (Raise (OtherError "rate limited")))
         (Some "sk-1") tokyo initial_world) =
  Raise (OtherError "rate limited").
Proof. reflexivity. Qed.

(** The client cannot be built: the request fails before any prompt. *)
Example main_client_fails :
  @plan_trip plain_library (Polish.no_client (OtherError "api_key must be set"))
    (Some "sk-1") tokyo initial_world =
  (Raise (OtherError "api_key must be set"), initial_world).
Proof. reflexivity. Qed.

Example main_two_prompts :
  llm_prompts
    (snd (@plan_trip plain_library (Polish.model (Ok (JStr " Day 1: walk. ")))
            (Some "sk-1") tokyo initial_world)) =
  [itinerary_prompt "Tokyo" 5; packing_prompt "Tokyo" " Day 1: walk. "].
Proof. reflexivity. Qed.

Lemma fallback_itinerary_lines_witness :
  _fallback_itinerary "Tokyo" (-2) = "Trip to Tokyo — -2 day(s) itinerary:".
Proof.
  apply (proj2 (fallback_itinerary_lines "Tokyo" (-2))). lia.
Defined.

Lemma plan_trip_without_key_witness :
  @plan_trip plain_library (Polish.model (Ok (JStr "never asked"))) (Some "") tokyo
    initial_world =
  (Ok {| resp_destination := "Tokyo";
         resp_days := 5;
         itinerary := _fallback_itinerary "Tokyo" 5;
         packing_list := _fallback_packing_list "Tokyo" (_fallback_itinerary "Tokyo" 5) |},
   initial_world).
Proof.
  apply (@plan_trip_without_key plain_library (Polish.model (Ok (JStr "never asked")))
           (Some "") tokyo initial_world).
  reflexivity.
Defined.

Lemma plan_trip_with_key_witness :
  @plan_trip plain_library (Polish.no_client (OtherError "api_key must be set"))
    (Some "sk-1") tokyo initial_world =
  (Raise (OtherError "api_key must be set"), initial_world) /\
  @plan_trip plain_library (Polish.model (Raise (OtherError "rate limited")))
    (Some "sk-1") tokyo initial_world =
  (Raise (OtherError "rate limited"),
   Polish.prompted (itinerary_prompt "Tokyo" 5) initial_world).
Proof.
  split.
  - apply (proj1 (@plan_trip_with_key plain_library
                    (Polish.no_client (OtherError "api_key must be set"))
                    (Some "sk-1") tokyo initial_world eq_refl)
             (OtherError "api_key must be set")).
    reflexivity.
  - apply (proj1 (proj1 (proj2 (@plan_trip_with_key plain_library
                           (Polish.model (Raise (OtherError "rate limited")))
                           (Some "sk-1") tokyo initial_world eq_refl))
                    (OtherError "rate limited")
                    (Polish.prompted (itinerary_prompt "Tokyo" 5) initial_world)
                    eq_refl eq_refl)).
Defined.

End Main.
